(** * Interaction core of the grid widget: event router and editor manager

    A shallow embedding of [src/tableView.js] (class [TableView]) and
    [src/editorManager.js] (class [EditorManager]).

    Both classes are glue code: almost every statement is a call to a
    collaborator that lives elsewhere (the hook bus, the selection model, the
    active editor, the DOM).  The embedding keeps the code of the two classes
    and takes the collaborators as an interface (a record of operations), so
    that every theorem holds for all behaviours of the collaborators.  A
    recording implementation of the interface, which logs every call, is used
    to run the handlers on concrete inputs. *)

From Stdlib Require Import ZArith List Bool String Lia.
Import ListNotations.
Local Open Scope Z_scope.

(** ** Handlers as state transformers that may throw *)

Section Effects.
Context {W : Type}.

(** How a call leaves the world [W]: it returns a value, it exits with an
    exception (the world is the one reached when the exception escapes), or
    it does not come back at all. *)
Inductive Outcome (A : Type) : Type :=
| Returned (a : A) (w : W)
| Thrown (w : W)
| Diverged.

Definition M (A : Type) : Type := W -> Outcome A.

Definition ret {A} (a : A) : M A := fun w => Returned A a w.

Definition bind {A B} (m : M A) (k : A -> M B) : M B :=
  fun w =>
    match m w with
    | Returned _ a w' => k a w'
    | Thrown _ w' => Thrown B w'
    | Diverged _ => Diverged B
    end.

(** Reading a field or calling a getter. *)
Definition gets {A} (f : W -> A) : M A := fun w => Returned A (f w) w.

(** An assignment to a field of the object. *)
Definition modify (f : W -> W) : M unit := fun w => Returned unit tt (f w).

(** [if (c) { m }] with no [else]. *)
Definition when (c : bool) (m : M unit) : M unit :=
  if c then m else ret tt.
End Effects.

Arguments Returned {W A} a w.
Arguments Thrown {W A} w.
Arguments Diverged {W A}.

Declare Scope effect_scope.
Delimit Scope effect_scope with effect.
Notation "x <- c ;; k" := (bind c (fun x => k))
  (at level 61, c at next level, right associativity) : effect_scope.
Notation "c ;; k" := (bind c (fun _ => k))
  (at level 61, right associativity) : effect_scope.
Local Open Scope effect_scope.

Set Implicit Arguments.

(** ** The numbers of the viewport calculators

    The calculators hold row and column indices.  [num] is the part of the
    JavaScript numbers the overrides can reach from integer indices: the
    integers, the two infinities and NaN (a division by a count of zero
    produces the last three).  Arithmetic is exact: the rounding of IEEE
    doubles (integers beyond 2^53, a quotient within one rounding error of an
    integer) is not modelled. *)

Module JsNumber.

Inductive num : Type :=
| Fin (z : Z)
| PosInf
| NegInf
| NaN.

Definition neg (a : num) : num :=
  match a with
  | Fin z => Fin (- z)
  | PosInf => NegInf
  | NegInf => PosInf
  | NaN => NaN
  end.

Definition add (a b : num) : num :=
  match a, b with
  | NaN, _ | _, NaN => NaN
  | Fin x, Fin y => Fin (x + y)
  | PosInf, NegInf | NegInf, PosInf => NaN
  | PosInf, _ | _, PosInf => PosInf
  | NegInf, _ | _, NegInf => NegInf
  end.

Definition sub (a b : num) : num := add a (neg b).

(** [Math.max] and [Math.min] of two arguments. *)
Definition max (a b : num) : num :=
  match a, b with
  | NaN, _ | _, NaN => NaN
  | PosInf, _ | _, PosInf => PosInf
  | NegInf, c | c, NegInf => c
  | Fin x, Fin y => Fin (Z.max x y)
  end.

Definition min (a b : num) : num :=
  match a, b with
  | NaN, _ | _, NaN => NaN
  | NegInf, _ | _, NegInf => NegInf
  | PosInf, c | c, PosInf => c
  | Fin x, Fin y => Fin (Z.min x y)
  end.

(** [Math.ceil(a / b * k)] for a positive integer constant [k]: the ceiling
    of the exact quotient when [b] is a non-zero integer, and the IEEE
    special values otherwise ([b] is a count, so its zero is +0). *)
Definition ceil_div_mul (a b : num) (k : Z) : num :=
  match a, b with
  | NaN, _ | _, NaN => NaN
  | Fin x, Fin y =>
      if y =? 0
      then (if 0 <? x then PosInf else if x <? 0 then NegInf else NaN)
      else Fin (- ((- (x * k)) / y))
  | Fin _, PosInf | Fin _, NegInf => Fin 0
  | PosInf, Fin y => if y <? 0 then NegInf else PosInf
  | NegInf, Fin y => if y <? 0 then PosInf else NegInf
  | _, _ => NaN
  end.

(** Truthiness of a number: everything but 0 and NaN. *)
Definition truthy (a : num) : bool :=
  match a with
  | Fin z => negb (z =? 0)
  | NaN => false
  | _ => true
  end.

(** Reading a property that may be absent: [undefined] converts to NaN in
    arithmetic. *)
Definition read (p : option num) : num :=
  match p with
  | Some n => n
  | None => NaN
  end.

End JsNumber.

(** ** [TableView]: the event router ([src/tableView.js]) *)

Module TableView.

Import JsNumber.

(** The record the cell handlers hand to the "before" hooks, which may set
    its flags, and then to the selection update as [controller]. *)
Record BlockCalculations : Type := {
  row : bool;
  column : bool;
  cell : bool
}.

(** The hooks the view runs. *)
Inductive HookName : Type :=
| beforeOnCellMouseDown | afterOnCellMouseDown
| beforeOnCellContextMenu | afterOnCellContextMenu
| beforeOnCellMouseOut | afterOnCellMouseOut
| beforeOnCellMouseOver | afterOnCellMouseOver
| beforeOnCellMouseUp | afterOnCellMouseUp
| afterViewportRowCalculatorOverride
| afterViewportColumnCalculatorOverride.

(** [settings.fragmentSelection]: the code tells [true], ['cell'], the falsy
    values and any other truthy value apart. *)
Inductive FragmentSelection : Type :=
| FragTrue
| FragCell
| FragFalsy
| FragOtherTruthy.

Definition fragTruthy (f : FragmentSelection) : bool :=
  match f with
  | FragFalsy => false
  | _ => true
  end.

(** [settings.outsideClickDeselects]: a function, or a value of which only
    the truthiness is used. *)
Inductive OutsideClickDeselects : Type :=
| DeselectsFunction
| DeselectsValue (truthy : bool).

(** [settings.viewport{Row,Column}RenderingOffset]: ['auto'], a number, or
    anything else. *)
Inductive RenderingOffset : Type :=
| OffsetAuto
| OffsetNumber (n : num)
| OffsetOther.

(** The cell handlers of the Walkontable configuration that assign
    [priv.activeWt]. *)
Inductive PointerHandler : Type :=
| CellMouseDown
| CellMouseOver
| CellMouseOut
| CellContextMenu
| CellMouseUp.

(** A viewport calculator, as far as the overrides touch it.  A rows
    calculator has no column properties and a columns calculator no row
    properties until something assigns them: an absent property is [None]. *)
Record Calc : Type := {
  startRow : option num;
  endRow : option num;
  startColumn : option num;
  endColumn : option num
}.

Definition set_startRow (v : num) (c : Calc) : Calc :=
  {| startRow := Some v; endRow := endRow c;
     startColumn := startColumn c; endColumn := endColumn c |}.
Definition set_endRow (v : num) (c : Calc) : Calc :=
  {| startRow := startRow c; endRow := Some v;
     startColumn := startColumn c; endColumn := endColumn c |}.
Definition set_startColumn (v : num) (c : Calc) : Calc :=
  {| startRow := startRow c; endRow := endRow c;
     startColumn := Some v; endColumn := endColumn c |}.
Definition set_endColumn (v : num) (c : Calc) : Calc :=
  {| startRow := startRow c; endRow := endRow c;
     startColumn := startColumn c; endColumn := Some v |}.

Section View.

(** DOM nodes, Walkontable instances (the surfaces), cell coordinates,
    editors, and the state of everything outside the view. *)
Variables Node Surface Coords Editor Ext : Type.
(** [===] on nodes and on surfaces. *)
Variable Node_eq_dec : forall a b : Node, {a = b} + {a <> b}.
Variable Surface_eq_dec : forall a b : Surface, {a = b} + {a <> b}.

(** A DOM event.  Its mutable part (default prevented, propagation
    stopped) belongs to the outside state. *)
Record DomEvent : Type := {
  target : Node;
  x : option Z;
  y : option Z;
  clientX : Z;
  clientY : Z;
  isTargetWebComponent : bool
}.

(** The entry of [privatePool] for this view (the DOM elements it also
    holds are not read by the handlers below). *)
Record Priv : Type := {
  selectionMouseDown : bool;
  mouseDown : option bool;
  activeWt : Surface;
  wt : Surface
}.

Record World : Type := {
  priv : Priv;
  ext : Ext
}.

Definition with_priv (f : Priv -> Priv) (w : World) : World :=
  {| priv := f (priv w); ext := ext w |}.

Definition set_selectionMouseDown (b : bool) : M unit :=
  modify (with_priv (fun p =>
    {| selectionMouseDown := b; mouseDown := mouseDown p;
       activeWt := activeWt p; wt := wt p |})).
Definition set_mouseDown (b : bool) : M unit :=
  modify (with_priv (fun p =>
    {| selectionMouseDown := selectionMouseDown p; mouseDown := Some b;
       activeWt := activeWt p; wt := wt p |})).
Definition set_activeWt (s : Surface) : M unit :=
  modify (with_priv (fun p =>
    {| selectionMouseDown := selectionMouseDown p; mouseDown := mouseDown p;
       activeWt := s; wt := wt p |})).
(** [priv.activeWt = priv.wt] *)
Definition restore_activeWt : M unit :=
  modify (with_priv (fun p =>
    {| selectionMouseDown := selectionMouseDown p; mouseDown := mouseDown p;
       activeWt := wt p; wt := wt p |})).

Definition mouseDownTruthy (w : World) : bool :=
  match mouseDown (priv w) with
  | Some b => b
  | None => false
  end.

(** What the view calls and reads outside itself.  Getters are functions
    of the world; calls that act are in [M]: they may change anything,
    throw, or not return. *)
Record Collaborators : Type := {
  (* settings *)
  fragmentSelection : World -> FragmentSelection;
  outsideClickDeselects : World -> OutsideClickDeselects;
  call_outsideClickDeselects : Node -> M (W := World) bool;
  viewportRowRenderingOffset : World -> RenderingOffset;
  viewportColumnRenderingOffset : World -> RenderingOffset;
  fixedRowsTop : World -> num;
  fixedColumnsLeft : World -> num;
  (* the grid instance *)
  countRows : World -> num;
  countCols : World -> num;
  listen : M (W := World) unit;
  deselectCell : M (W := World) unit;
  destroyEditor : bool -> bool -> M (W := World) unit;
  getSelectedLast : World -> option (Z * Z * Z * Z);
  getActiveEditor : World -> option Editor;
  isOpened : Editor -> World -> bool;
  rootElement : World -> option Node;
  holder : World -> Node;
  spreader : World -> Node;
  (* the selection model *)
  isInProgress : World -> bool;
  finish : M (W := World) unit;
  handleMouseEvent : DomEvent -> Coords -> BlockCalculations -> M (W := World) unit;
  (* the hook bus; a hook that receives a mutable record hands it back *)
  runHooks : HookName -> DomEvent -> Coords -> Node -> M (W := World) unit;
  runHooksBlock : HookName -> DomEvent -> Coords -> Node ->
                  BlockCalculations -> M (W := World) BlockCalculations;
  runHooksCalc : HookName -> Calc -> M (W := World) Calc;
  (* DOM helpers *)
  isImmediatePropagationStopped : DomEvent -> World -> bool;
  preventDefault : DomEvent -> M (W := World) unit;
  clearTextSelection : M (W := World) unit;
  windowFocus : M (W := World) unit;
  isInput : Node -> World -> bool;
  isChildOf : Node -> Node -> World -> bool;
  getScrollbarWidth : World -> Z;
  elementFromPoint : Z -> Z -> World -> option Node;
  documentElement : Node;
  (* the chain of [parentNode] links above a node, nearest first; after
     the last one [parentNode] is [null] *)
  ancestors : Node -> World -> list Node
}.

Variable C : Collaborators.

(** *** Text-selection permission *)

(** [isSelectedOnlyCell]: [getSelectedLast()] is [undefined] or the four
    numbers [row, col, rowEnd, colEnd]. *)
Definition isSelectedOnlyCell (w : World) : bool :=
  match getSelectedLast C w with
  | Some (row, col, rowEnd, colEnd) => (row =? rowEnd) && (col =? colEnd)
  | None => false
  end.

Definition isCellEdited (w : World) : bool :=
  match getActiveEditor C w with
  | Some activeEditor => isOpened C activeEditor w
  | None => false
  end.

Definition isTextSelectionAllowed (el : Node) (w : World) : bool :=
  if isInput C el w then true
  else
    let isChildOfTableBody := isChildOf C el (spreader C w) w in
    if match fragmentSelection C w with FragTrue => true | _ => false end
       && isChildOfTableBody
    then true
    else if match fragmentSelection C w with FragCell => true | _ => false end
            && isSelectedOnlyCell w && isChildOfTableBody
    then true
    else if negb (fragTruthy (fragmentSelection C w))
            && isCellEdited w && isSelectedOnlyCell w
    then true
    else false.

(** *** Listeners of [registerEvents] *)

(** [mousedown] on the root element. *)
Definition rootMouseDown (event : DomEvent) : M unit :=
  set_selectionMouseDown true ;;
  allowed <- gets (isTextSelectionAllowed (target event)) ;;
  when (negb allowed)
    (clearTextSelection C ;;
     preventDefault C event ;;
     windowFocus C).

(** [mouseup] on the root element. *)
Definition rootMouseUp : M unit :=
  set_selectionMouseDown false.

(** [mousemove] on the root element. *)
Definition rootMouseMove (event : DomEvent) : M unit :=
  held <- gets (fun w => selectionMouseDown (priv w)) ;;
  allowed <- gets (isTextSelectionAllowed (target event)) ;;
  when (held && negb allowed)
    (frag <- gets (fragmentSelection C) ;;
     when (fragTruthy frag) (clearTextSelection C) ;;
     preventDefault C event).

(** [a || b] on an optional coordinate: [undefined] and [0] are falsy. *)
Definition orElse (a : option Z) (b : Z) : Z :=
  match a with
  | Some v => if v =? 0 then b else v
  | None => b
  end.

(** The [while] loop of the document [mousedown] listener, over the chain
    [next, next.parentNode, ...] that ends in [null].  [true]: the loop
    was left (by its condition or by [break]); [false]: the listener
    returned from inside the loop. *)
Fixpoint leavesLoop (root : Node) (webComponent : bool) (chain : list Node)
  : bool :=
  match chain with
  | [] => webComponent
  | next :: parents =>
      if Node_eq_dec next (documentElement C) then true
      else if Node_eq_dec next root then false
      else leavesLoop root webComponent parents
  end.

(** The end of the listener: "we have an outside click". *)
Definition outsideClick (originalTarget : Node) : M unit :=
  setting <- gets (outsideClickDeselects C) ;;
  deselects <- match setting with
               | DeselectsFunction => call_outsideClickDeselects C originalTarget
               | DeselectsValue v => ret v
               end ;;
  if deselects then deselectCell C else destroyEditor C false false.

(** [mousedown] on the document element. *)
Definition documentMouseDown (event : DomEvent) : M unit :=
  let originalTarget := target event in
  let eventX := orElse (x event) (clientX event) in
  let eventY := orElse (y event) (clientY event) in
  let next := target event in
  held <- gets mouseDownTruthy ;;
  root <- gets (rootElement C) ;;
  match root with
  | None => ret tt
  | Some rootEl =>
      if held then ret tt
      else
        theHolder <- gets (holder C) ;;
        if Node_eq_dec next theHolder then
          scrollbarWidth <- gets (getScrollbarWidth C) ;;
          right <- gets (elementFromPoint C (eventX + scrollbarWidth) eventY) ;;
          below <- gets (elementFromPoint C eventX (eventY + scrollbarWidth)) ;;
          let misses (hit : option Node) :=
            match hit with
            | Some n => if Node_eq_dec n theHolder then false else true
            | None => true
            end in
          if misses right || misses below then ret tt
          else outsideClick originalTarget
        else
          parents <- gets (ancestors C next) ;;
          if leavesLoop rootEl (isTargetWebComponent event) (next :: parents)
          then outsideClick originalTarget
          else ret tt
  end.

(** *** The Walkontable configuration of [initializeWalkOnTable] *)

(** Each cell handler that can be cancelled is written in two parts: the
    statements up to and including its "before" hook, and the handler, which
    runs them and goes on from the test of the event. *)

Definition onCellMouseDown_before (event : DomEvent) (coords : Coords) (TD : Node)
    (wt' : Surface) : M BlockCalculations :=
  let blockCalculations := {| row := false; column := false; cell := false |} in
  listen C ;;
  set_activeWt wt' ;;
  set_mouseDown true ;;
  runHooksBlock C beforeOnCellMouseDown event coords TD blockCalculations.

Definition onCellMouseDown (event : DomEvent) (coords : Coords) (TD : Node)
    (wt' : Surface) : M unit :=
  controller <- onCellMouseDown_before event coords TD wt' ;;
  stopped <- gets (isImmediatePropagationStopped C event) ;;
  if stopped then ret tt
  else
    handleMouseEvent C event coords controller ;;
    runHooks C afterOnCellMouseDown event coords TD ;;
    restore_activeWt.

Definition onCellContextMenu_before (event : DomEvent) (coords : Coords)
    (TD : Node) (wt' : Surface) : M unit :=
  set_activeWt wt' ;;
  set_mouseDown false ;;
  inProgress <- gets (isInProgress C) ;;
  when inProgress (finish C) ;;
  runHooks C beforeOnCellContextMenu event coords TD.

Definition onCellContextMenu (event : DomEvent) (coords : Coords) (TD : Node)
    (wt' : Surface) : M unit :=
  onCellContextMenu_before event coords TD wt' ;;
  stopped <- gets (isImmediatePropagationStopped C event) ;;
  if stopped then ret tt
  else
    runHooks C afterOnCellContextMenu event coords TD ;;
    restore_activeWt.

Definition onCellMouseOut_before (event : DomEvent) (coords : Coords) (TD : Node)
    (wt' : Surface) : M unit :=
  set_activeWt wt' ;;
  runHooks C beforeOnCellMouseOut event coords TD.

Definition onCellMouseOut (event : DomEvent) (coords : Coords) (TD : Node)
    (wt' : Surface) : M unit :=
  onCellMouseOut_before event coords TD wt' ;;
  stopped <- gets (isImmediatePropagationStopped C event) ;;
  if stopped then ret tt
  else
    runHooks C afterOnCellMouseOut event coords TD ;;
    restore_activeWt.

Definition onCellMouseOver_before (event : DomEvent) (coords : Coords) (TD : Node)
    (wt' : Surface) : M BlockCalculations :=
  let blockCalculations := {| row := false; column := false; cell := false |} in
  set_activeWt wt' ;;
  runHooksBlock C beforeOnCellMouseOver event coords TD blockCalculations.

Definition onCellMouseOver (event : DomEvent) (coords : Coords) (TD : Node)
    (wt' : Surface) : M unit :=
  controller <- onCellMouseOver_before event coords TD wt' ;;
  stopped <- gets (isImmediatePropagationStopped C event) ;;
  if stopped then ret tt
  else
    held <- gets mouseDownTruthy ;;
    when held (handleMouseEvent C event coords controller) ;;
    runHooks C afterOnCellMouseOver event coords TD ;;
    restore_activeWt.

Definition onCellMouseUp (event : DomEvent) (coords : Coords) (TD : Node)
    (wt' : Surface) : M unit :=
  set_activeWt wt' ;;
  runHooks C beforeOnCellMouseUp event coords TD ;;
  runHooks C afterOnCellMouseUp event coords TD ;;
  restore_activeWt.

(** The five handlers that reassign [priv.activeWt], under one name. *)
Definition pointerHandler (h : PointerHandler) : DomEvent -> Coords -> Node ->
    Surface -> M unit :=
  match h with
  | CellMouseDown => onCellMouseDown
  | CellMouseOver => onCellMouseOver
  | CellMouseOut => onCellMouseOut
  | CellContextMenu => onCellContextMenu
  | CellMouseUp => onCellMouseUp
  end.

(** The part of a handler that runs before the event is tested; [None] for
    the handler that does not test it. *)
Definition beforePhase (h : PointerHandler) (event : DomEvent) (coords : Coords)
    (TD : Node) (wt' : Surface) : option (M unit) :=
  match h with
  | CellMouseDown => Some (onCellMouseDown_before event coords TD wt' ;; ret tt)
  | CellMouseOver => Some (onCellMouseOver_before event coords TD wt' ;; ret tt)
  | CellMouseOut => Some (onCellMouseOut_before event coords TD wt')
  | CellContextMenu => Some (onCellContextMenu_before event coords TD wt')
  | CellMouseUp => None
  end.

(** [mainViewIsActive]: [priv.wt === priv.activeWt]. *)
Definition mainViewIsActive (w : World) : bool :=
  if Surface_eq_dec (wt (priv w)) (activeWt (priv w)) then true else false.

(** [if (viewportOffset === 'auto' && fixed) { viewportOffset = 10; }] *)
Definition forceFixedOffset (viewportOffset : RenderingOffset) (fixed : num)
  : RenderingOffset :=
  match viewportOffset with
  | OffsetAuto => if truthy fixed then OffsetNumber (Fin 10) else OffsetAuto
  | other => other
  end.

Definition viewportRowCalculatorOverride (calc : Calc) : M Calc :=
  rows <- gets (countRows C) ;;
  setting <- gets (viewportRowRenderingOffset C) ;;
  fixed <- gets (fixedRowsTop C) ;;
  let viewportOffset := forceFixedOffset setting fixed in
  let calc :=
    match viewportOffset with
    | OffsetNumber n =>
        let calc := set_startRow (max (sub (read (startRow calc)) n) (Fin 0)) calc in
        set_endRow (min (add (read (endRow calc)) n) (sub rows (Fin 1))) calc
    | _ => calc
    end in
  let calc :=
    match viewportOffset with
    | OffsetAuto =>
        let center := sub (add (read (startRow calc)) (read (endRow calc)))
                          (read (startRow calc)) in
        let offset := ceil_div_mul center rows 12 in
        let calc := set_startRow (max (sub (read (startRow calc)) offset) (Fin 0)) calc in
        set_endRow (min (add (read (endRow calc)) offset) (sub rows (Fin 1))) calc
    | _ => calc
    end in
  runHooksCalc C afterViewportRowCalculatorOverride calc.

Definition viewportColumnCalculatorOverride (calc : Calc) : M Calc :=
  cols <- gets (countCols C) ;;
  setting <- gets (viewportColumnRenderingOffset C) ;;
  fixed <- gets (fixedColumnsLeft C) ;;
  let viewportOffset := forceFixedOffset setting fixed in
  let calc :=
    match viewportOffset with
    | OffsetNumber n =>
        let calc := set_startColumn (max (sub (read (startColumn calc)) n) (Fin 0)) calc in
        set_endColumn (min (add (read (endColumn calc)) n) (sub cols (Fin 1))) calc
    | _ => calc
    end in
  let calc :=
    match viewportOffset with
    | OffsetAuto =>
        let center := sub (add (read (startColumn calc)) (read (endColumn calc)))
                          (read (startColumn calc)) in
        let offset := ceil_div_mul center cols 12 in
        let calc := set_startRow (max (sub (read (startColumn calc)) offset) (Fin 0)) calc in
        set_endColumn (min (add (read (endColumn calc)) offset) (sub cols (Fin 1))) calc
    | _ => calc
    end in
  runHooksCalc C afterViewportColumnCalculatorOverride calc.

End View.

Arguments restore_activeWt {Surface Ext}.
Arguments rootMouseUp {Surface Ext}.

End TableView.

(** ** [EditorManager]: the editor lifecycle ([src/editorManager.js]) *)

(** Modelled from the spec: the [KEY_CODES] table of [helpers/unicode], which
    is not under [src/].  The keys are those of the spec's key table, with the
    [keyCode] values the DOM gives them. *)
Module KEY_CODES.
Definition BACKSPACE : Z := 8.
Definition TAB : Z := 9.
Definition ENTER : Z := 13.
Definition ESCAPE : Z := 27.
Definition PAGE_UP : Z := 33.
Definition PAGE_DOWN : Z := 34.
Definition END : Z := 35.
Definition HOME : Z := 36.
Definition ARROW_LEFT : Z := 37.
Definition ARROW_UP : Z := 38.
Definition ARROW_RIGHT : Z := 39.
Definition ARROW_DOWN : Z := 40.
Definition DELETE : Z := 46.
Definition A : Z := 65.
Definition F2 : Z := 113.
End KEY_CODES.

Module EditorManager.

Record CellCoords : Type := {
  row : Z;
  col : Z
}.

(** Modelled from the spec: the enumeration [EditorState] of
    [editors/_baseEditor], which is not under [src/]. *)
Inductive EditorState : Type :=
| CLOSED
| OPEN
| WAITING.

Definition isWAITING (s : EditorState) : bool :=
  match s with
  | WAITING => true
  | _ => false
  end.

Record KeyboardEvent : Type := {
  keyCode : Z;
  ctrlKey : bool;
  metaKey : bool;
  altKey : bool;
  shiftKey : bool
}.

(** [settings.enterMoves] and [settings.tabMoves]: a function, or an object
    with [row] and [col]. *)
Inductive Moves : Type :=
| MovesFunction
| MovesObject (delta : CellCoords).

(** The [case] labels of the [switch] in [onKeyDown], in its order. *)
Inductive Key : Type :=
| KeyA | KeyArrowUp | KeyArrowDown | KeyArrowRight | KeyArrowLeft | KeyTab
| KeyBackspace | KeyDelete | KeyF2 | KeyEnter | KeyEscape | KeyHome | KeyEnd
| KeyPageUp | KeyPageDown | KeyOther.

Definition switchKey (keyCode : Z) : Key :=
  if keyCode =? KEY_CODES.A then KeyA
  else if keyCode =? KEY_CODES.ARROW_UP then KeyArrowUp
  else if keyCode =? KEY_CODES.ARROW_DOWN then KeyArrowDown
  else if keyCode =? KEY_CODES.ARROW_RIGHT then KeyArrowRight
  else if keyCode =? KEY_CODES.ARROW_LEFT then KeyArrowLeft
  else if keyCode =? KEY_CODES.TAB then KeyTab
  else if keyCode =? KEY_CODES.BACKSPACE then KeyBackspace
  else if keyCode =? KEY_CODES.DELETE then KeyDelete
  else if keyCode =? KEY_CODES.F2 then KeyF2
  else if keyCode =? KEY_CODES.ENTER then KeyEnter
  else if keyCode =? KEY_CODES.ESCAPE then KeyEscape
  else if keyCode =? KEY_CODES.HOME then KeyHome
  else if keyCode =? KEY_CODES.END then KeyEnd
  else if keyCode =? KEY_CODES.PAGE_UP then KeyPageUp
  else if keyCode =? KEY_CODES.PAGE_DOWN then KeyPageDown
  else KeyOther.

(** An optional boolean argument: [None] is an argument left out. *)
Definition truthy (b : option bool) : bool :=
  match b with
  | Some v => v
  | None => false
  end.

Section Manager.

(** Editors, events other than key events, property names, cell elements,
    cell values, cell meta objects, editor classes, and the state of
    everything outside the manager. *)
Variables Editor OtherEvent PropName Cell Value Meta EditorClass Ext : Type.

(** The event an editor is opened from. *)
Inductive OriginEvent : Type :=
| FromKey (event : KeyboardEvent)
| FromOther (event : OtherEvent).

Record World : Type := {
  destroyed : bool;
  lock : bool;
  activeEditor : option Editor;
  lastKeyCode : option Z;    (* [priv.lastKeyCode] *)
  ext : Ext
}.

Definition set_destroyed (b : bool) : M unit :=
  modify (fun w =>
    {| destroyed := b; lock := lock w; activeEditor := activeEditor w;
       lastKeyCode := lastKeyCode w; ext := ext w |}).
Definition set_lock (b : bool) : M unit :=
  modify (fun w =>
    {| destroyed := destroyed w; lock := b; activeEditor := activeEditor w;
       lastKeyCode := lastKeyCode w; ext := ext w |}).
Definition set_activeEditor (e : option Editor) : M unit :=
  modify (fun w =>
    {| destroyed := destroyed w; lock := lock w; activeEditor := e;
       lastKeyCode := lastKeyCode w; ext := ext w |}).
Definition set_lastKeyCode (k : Z) : M unit :=
  modify (fun w =>
    {| destroyed := destroyed w; lock := lock w; activeEditor := activeEditor w;
       lastKeyCode := Some k; ext := ext w |}).

(** The completion callback of [finishEditing]: it receives "data was
    saved". *)
Definition Callback : Type := bool -> M (W := World) unit.

Record Collaborators : Type := {
  (* helpers/unicode *)
  isMetaKey : Z -> bool;
  isCtrlMetaKey : Z -> bool;
  (* the grid instance *)
  isListening : World -> bool;
  runHooks_beforeKeyDown : KeyboardEvent -> M (W := World) unit;
  runHooks_modifyRow : Z -> M (W := World) Z;
  selectAll : M (W := World) unit;
  emptySelectedCells : M (W := World) unit;
  countRows : World -> Z;
  countCols : World -> Z;
  countVisibleRows : World -> Z;
  enterBeginsEditing : World -> bool;
  colToProp : Z -> M (W := World) PropName;
  getCell : Z -> Z -> M (W := World) Cell;
  getSourceDataAtCell : Z -> Z -> M (W := World) Value;
  getCellMeta : Z -> Z -> M (W := World) Meta;
  getCellEditor : Meta -> M (W := World) (option EditorClass);
  getEditorInstance : EditorClass -> M (W := World) Editor;
  (* settings of [priv] *)
  enterMoves : World -> Moves;
  call_enterMoves : M (W := World) CellCoords;   (* on the ambient [event] *)
  tabMoves : World -> Moves;
  call_tabMoves : KeyboardEvent -> M (W := World) CellCoords;
  (* the selection model *)
  isSelected : World -> bool;
  transformStart : Z -> Z -> option bool -> M (W := World) unit;
  transformEnd : Z -> Z -> M (W := World) unit;
  setRangeStart : CellCoords -> M (W := World) unit;
  setRangeEnd : CellCoords -> M (W := World) unit;
  current_from : M (W := World) CellCoords;
  current_highlight : M (W := World) CellCoords;
  (* the editor interface *)
  isOpened : Editor -> World -> bool;
  isWaiting : Editor -> World -> bool;
  state : Editor -> World -> EditorState;
  readOnly : Editor -> World -> bool;       (* [cellProperties.readOnly] *)
  enableFullEditMode : Editor -> M (W := World) unit;
  focus : Editor -> M (W := World) unit;
  prepare : Editor -> Z -> Z -> PropName -> Cell -> Value -> Meta ->
            M (W := World) unit;
  beginEditing : Editor -> option string -> option OriginEvent ->
                 M (W := World) unit;
  finishEditing : Editor -> option bool -> option bool -> option Callback ->
                  M (W := World) unit;
  (* helpers/dom/event and the event itself *)
  isImmediatePropagationStopped : KeyboardEvent -> World -> bool;
  preventDefault : KeyboardEvent -> M (W := World) unit;
  stopPropagation : KeyboardEvent -> M (W := World) unit;
  stopImmediatePropagation : KeyboardEvent -> M (W := World) unit
}.

Variable C : Collaborators.

(** A [TypeError]: a method is called on [undefined]. *)
Definition throwTypeError {A} : M (W := World) A := fun w => Thrown w.

(** A computation that has used up its budget of nested calls. *)
Definition diverge {A} : M (W := World) A := fun _ => Diverged.

Definition moveSelectionAfterEnter (shiftKey : option bool) : M unit :=
  setting <- gets (enterMoves C) ;;
  enterMoves <- match setting with
                | MovesFunction => call_enterMoves C
                | MovesObject delta => ret delta
                end ;;
  if truthy shiftKey
  then transformStart C (- row enterMoves) (- col enterMoves) None
  else transformStart C (row enterMoves) (col enterMoves) (Some true).

Definition moveSelectionUp (shiftKey : bool) : M unit :=
  if shiftKey then transformEnd C (-1) 0 else transformStart C (-1) 0 None.

Definition moveSelectionDown (shiftKey : bool) : M unit :=
  if shiftKey then transformEnd C 1 0 else transformStart C 1 0 None.

Definition moveSelectionRight (shiftKey : bool) : M unit :=
  if shiftKey then transformEnd C 0 1 else transformStart C 0 1 None.

Definition moveSelectionLeft (shiftKey : bool) : M unit :=
  if shiftKey then transformEnd C 0 (-1) else transformStart C 0 (-1) None.

Definition lockEditor : M unit := set_lock true.

Definition unlockEditor : M unit := set_lock false.

Definition getActiveEditor (w : World) : option Editor := activeEditor w.

Definition isEditorOpened (w : World) : bool :=
  match activeEditor w with
  | Some editor => isOpened C editor w
  | None => false
  end.

Definition closeEditor (restoreOriginalValue ctrlDown : option bool)
    (callback : option Callback) : M unit :=
  active <- gets activeEditor ;;
  match active with
  | Some editor => finishEditing C editor restoreOriginalValue ctrlDown callback
  | None =>
      match callback with
      | Some call => call false
      | None => ret tt
      end
  end.

Definition closeEditorAndSaveChanges (ctrlDown : option bool) : M unit :=
  closeEditor (Some false) ctrlDown None.

Definition closeEditorAndRestoreOriginalValue (ctrlDown : option bool) : M unit :=
  closeEditor (Some true) ctrlDown None.

Definition destroyEditor (revertOriginal : option bool) : M unit :=
  locked <- gets lock ;;
  when (negb locked) (closeEditor revertOriginal None None).

Definition openEditor (newInitialValue : option string)
    (event : option OriginEvent) : M unit :=
  active <- gets activeEditor ;;
  match active with
  | None => ret tt
  | Some editor =>
      isReadOnly <- gets (readOnly C editor) ;;
      if isReadOnly then
        match event with
        | Some (FromKey e) =>
            when (keyCode e =? KEY_CODES.ENTER) (moveSelectionAfterEnter None)
        | _ => ret tt
        end
      else beginEditing C editor newInitialValue event
  end.

(** [prepareEditor] hands [finishEditing] a callback that calls
    [prepareEditor] again; [fuel] bounds the depth of these nested calls. *)
Fixpoint prepareEditor (fuel : nat) : M unit :=
  locked <- gets lock ;;
  if locked then ret tt
  else
    waiting <- gets (fun w => match activeEditor w with
                              | Some editor => isWaiting C editor w
                              | None => false
                              end) ;;
    if waiting then
      closeEditor (Some false) (Some false)
        (Some (fun dataSaved =>
                 when dataSaved
                   match fuel with
                   | O => diverge
                   | S fuel' => prepareEditor fuel'
                   end))
    else
      highlight <- current_highlight C ;;
      let row := row highlight in
      let col := col highlight in
      prop <- colToProp C col ;;
      td <- getCell C row col ;;
      modifiedRow <- runHooks_modifyRow C row ;;
      originalValue <- getSourceDataAtCell C modifiedRow col ;;
      cellProperties <- getCellMeta C row col ;;
      editorClass <- getCellEditor C cellProperties ;;
      match editorClass with
      | Some class =>
          editor <- getEditorInstance C class ;;
          set_activeEditor (Some editor) ;;
          prepare C editor row col prop td originalValue cellProperties
      | None => set_activeEditor None
      end.

(** [(event.ctrlKey || event.metaKey) && !event.altKey] *)
Definition ctrlDownOf (event : KeyboardEvent) : bool :=
  (ctrlKey event || metaKey event) && negb (altKey event).

(** The condition under which a key press opens the prepared editor:
    [this.activeEditor && !this.activeEditor.isWaiting()], then
    [!isMetaKey(..) && !isCtrlMetaKey(..) && !ctrlDown && !this.isEditorOpened()]. *)
Definition opensEditor (event : KeyboardEvent) (w : World) : bool :=
  match activeEditor w with
  | Some editor =>
      negb (isWaiting C editor w)
      && (negb (isMetaKey C (keyCode event))
          && negb (isCtrlMetaKey C (keyCode event))
          && negb (ctrlDownOf event)
          && negb (isEditorOpened w))
  | None => false
  end.

(** [this.isEditorOpened() && !this.activeEditor.isWaiting()] *)
Definition openedAndNotWaiting (w : World) : bool :=
  match activeEditor w with
  | Some editor => isOpened C editor w && negb (isWaiting C editor w)
  | None => false
  end.

(** Both arrow-key prologues: commit an editor that is open and not
    waiting. *)
Definition commitOpenEditor (ctrlDown : bool) : M unit :=
  commit <- gets openedAndNotWaiting ;;
  when commit (closeEditorAndSaveChanges (Some ctrlDown)).

(** [if (this.activeEditor) { this.activeEditor.enableFullEditMode(); }] *)
Definition enableFullEditModeIfActive : M unit :=
  active <- gets activeEditor ;;
  match active with
  | Some editor => enableFullEditMode C editor
  | None => ret tt
  end.

(** The [switch (event.keyCode)] of [onKeyDown]. *)
Definition dispatchKey (fuel : nat) (event : KeyboardEvent) (ctrlDown : bool)
  : M unit :=
  let rangeModifier :=
    if shiftKey event then setRangeEnd C else setRangeStart C in
  match switchKey (keyCode event) with
  | KeyA =>
      opened <- gets isEditorOpened ;;
      when (negb opened && ctrlDown)
        (selectAll C ;;
         preventDefault C event ;;
         stopPropagation C event)
  | KeyArrowUp =>
      commitOpenEditor ctrlDown ;;
      moveSelectionUp (shiftKey event) ;;
      preventDefault C event ;;
      stopPropagation C event
  | KeyArrowDown =>
      commitOpenEditor ctrlDown ;;
      moveSelectionDown (shiftKey event) ;;
      preventDefault C event ;;
      stopPropagation C event
  | KeyArrowRight =>
      commitOpenEditor ctrlDown ;;
      moveSelectionRight (shiftKey event) ;;
      preventDefault C event ;;
      stopPropagation C event
  | KeyArrowLeft =>
      commitOpenEditor ctrlDown ;;
      moveSelectionLeft (shiftKey event) ;;
      preventDefault C event ;;
      stopPropagation C event
  | KeyTab =>
      setting <- gets (tabMoves C) ;;
      tabMoves <- match setting with
                  | MovesFunction => call_tabMoves C event
                  | MovesObject delta => ret delta
                  end ;;
      (if shiftKey event
       then transformStart C (- row tabMoves) (- col tabMoves) None
       else transformStart C (row tabMoves) (col tabMoves) (Some true)) ;;
      preventDefault C event ;;
      stopPropagation C event
  | KeyBackspace | KeyDelete =>
      emptySelectedCells C ;;
      prepareEditor fuel ;;
      preventDefault C event
  | KeyF2 =>
      enableFullEditModeIfActive ;;
      openEditor None (Some (FromKey event)) ;;
      preventDefault C event
  | KeyEnter =>
      opened <- gets isEditorOpened ;;
      (if opened then
         notWaiting <- gets (fun w => match activeEditor w with
                                      | Some editor => negb (isWAITING (state C editor w))
                                      | None => false
                                      end) ;;
         when notWaiting (closeEditorAndSaveChanges (Some ctrlDown)) ;;
         moveSelectionAfterEnter (Some (shiftKey event))
       else
         begins <- gets (enterBeginsEditing C) ;;
         if begins then
           enableFullEditModeIfActive ;;
           openEditor None (Some (FromKey event))
         else moveSelectionAfterEnter (Some (shiftKey event))) ;;
      preventDefault C event ;;
      stopImmediatePropagation C event
  | KeyEscape =>
      opened <- gets isEditorOpened ;;
      when opened
        (closeEditorAndRestoreOriginalValue (Some ctrlDown) ;;
         active <- gets activeEditor ;;
         match active with
         | Some editor => focus C editor
         | None => throwTypeError
         end) ;;
      preventDefault C event
  | KeyHome =>
      from <- current_from C ;;
      (if ctrlKey event || metaKey event
       then rangeModifier {| row := 0; col := col from |}
       else rangeModifier {| row := row from; col := 0 |}) ;;
      preventDefault C event ;;
      stopPropagation C event
  | KeyEnd =>
      (if ctrlKey event || metaKey event
       then
         rows <- gets (countRows C) ;;
         from <- current_from C ;;
         rangeModifier {| row := rows - 1; col := col from |}
       else
         from <- current_from C ;;
         cols <- gets (countCols C) ;;
         rangeModifier {| row := row from; col := cols - 1 |}) ;;
      preventDefault C event ;;
      stopPropagation C event
  | KeyPageUp =>
      visible <- gets (countVisibleRows C) ;;
      transformStart C (- visible) 0 None ;;
      preventDefault C event ;;
      stopPropagation C event
  | KeyPageDown =>
      visible <- gets (countVisibleRows C) ;;
      transformStart C visible 0 None ;;
      preventDefault C event ;;
      stopPropagation C event
  | KeyOther => ret tt
  end.

Definition onKeyDown (fuel : nat) (event : KeyboardEvent) : M unit :=
  listening <- gets (isListening C) ;;
  if negb listening then ret tt
  else
    runHooks_beforeKeyDown C event ;;
    isDestroyed <- gets destroyed ;;
    if isDestroyed || (keyCode event =? 229) then ret tt
    else
      stopped <- gets (isImmediatePropagationStopped C event) ;;
      if stopped then ret tt
      else
        set_lastKeyCode (keyCode event) ;;
        selected <- gets (isSelected C) ;;
        if negb selected then ret tt
        else
          let ctrlDown := ctrlDownOf event in
          opens <- gets (opensEditor event) ;;
          if opens then openEditor (Some EmptyString) (Some (FromKey event))
          else dispatchKey fuel event ctrlDown.

Definition onDblClick (event : OtherEvent) (elemIsTD : bool) : M unit :=
  when elemIsTD
    (enableFullEditModeIfActive ;;
     openEditor None (Some (FromOther event))).

(** The [compositionstart] listener of the constructor. *)
Definition onCompositionStart (event : OtherEvent) : M unit :=
  start <- gets (fun w => negb (destroyed w)
                          && match activeEditor w with
                             | Some editor => negb (isOpened C editor w)
                             | None => false
                             end
                          && isListening C w) ;;
  when start (openEditor (Some EmptyString) (Some (FromOther event))).

Definition destroy : M unit := set_destroyed true.

End Manager.

Arguments FromKey {OtherEvent} event.
Arguments lockEditor {Editor Ext}.
Arguments unlockEditor {Editor Ext}.
Arguments destroy {Editor Ext}.
Arguments FromOther {OtherEvent} event.

End EditorManager.

(** ** A recording implementation of the view's collaborators

    Nodes, surfaces and editors are numbers.  The outside state is a log of
    the calls made, in order, and the "immediate propagation stopped" flag of
    the event being handled.  A [Scenario] fixes what the getters answer and
    which hook listeners stop the event or throw. *)

Module ViewRecorder.

Import JsNumber TableView.

Inductive Call : Type :=
| Listen
| DeselectCell
| DestroyEditor (revertOriginal prepareEditorIfNeeded : bool)
| Finish
| HandleMouseEvent (controller : BlockCalculations)
| RunHooks (name : HookName)
| PreventDefault
| ClearTextSelection
| WindowFocus
| CallOutsideClickDeselects (originalTarget : nat).

Record Log : Type := {
  calls : list Call;
  immediateStopped : bool
}.

Record Scenario : Type := {
  sc_fragmentSelection : FragmentSelection;
  sc_outsideClickDeselects : OutsideClickDeselects;
  sc_predicate : nat -> bool;
  sc_rowOffset : RenderingOffset;
  sc_columnOffset : RenderingOffset;
  sc_fixedRowsTop : num;
  sc_fixedColumnsLeft : num;
  sc_rows : num;
  sc_cols : num;
  sc_selectedLast : option (Z * Z * Z * Z);
  sc_editorOpened : option bool;     (* [None]: no active editor *)
  sc_inProgress : bool;
  sc_stops : HookName -> bool;
  sc_throws : HookName -> bool
}.

Definition RWorld : Type := World nat Log.

Definition record (c : Call) : M (W := RWorld) unit :=
  modify (fun w =>
    {| priv := priv w;
       ext := {| calls := calls (ext w) ++ [c];
                 immediateStopped := immediateStopped (ext w) |} |}).

Definition stopImmediate : M (W := RWorld) unit :=
  modify (fun w =>
    {| priv := priv w;
       ext := {| calls := calls (ext w); immediateStopped := true |} |}).

(** Running the listeners of a hook: the call is logged, then the listeners
    stop the event or throw as the scenario says. *)
Definition listeners (sc : Scenario) (name : HookName) : M (W := RWorld) unit :=
  record (RunHooks name) ;;
  when (sc_stops sc name) stopImmediate ;;
  if sc_throws sc name then (fun w => Thrown w) else ret tt.

(** The page: the document element 0, the body 1, the root element of the
    grid 2, its holder 3, the spreader 4 with a cell 5, a button 6 next to
    the grid, and a text input 7 inside the grid. *)
Definition parents (n : nat) : list nat :=
  match n with
  | 1 => [0]
  | 2 => [1; 0]
  | 3 => [2; 1; 0]
  | 4 => [3; 2; 1; 0]
  | 5 => [4; 3; 2; 1; 0]
  | 6 => [1; 0]
  | 7 => [2; 1; 0]
  | _ => []
  end%nat.

(** The holder covers the points with both coordinates in [0, 100). *)
Definition hitTest (px py : Z) : option nat :=
  if (0 <=? px) && (px <? 100) && (0 <=? py) && (py <? 100)
  then Some 3%nat else Some 1%nat.

Definition recorder (sc : Scenario) : Collaborators nat nat (Z * Z) nat Log :=
  {| fragmentSelection := fun _ => sc_fragmentSelection sc;
     outsideClickDeselects := fun _ => sc_outsideClickDeselects sc;
     call_outsideClickDeselects := fun n =>
       record (CallOutsideClickDeselects n) ;; ret (sc_predicate sc n);
     viewportRowRenderingOffset := fun _ => sc_rowOffset sc;
     viewportColumnRenderingOffset := fun _ => sc_columnOffset sc;
     fixedRowsTop := fun _ => sc_fixedRowsTop sc;
     fixedColumnsLeft := fun _ => sc_fixedColumnsLeft sc;
     countRows := fun _ => sc_rows sc;
     countCols := fun _ => sc_cols sc;
     listen := record Listen;
     deselectCell := record DeselectCell;
     destroyEditor := fun a b => record (DestroyEditor a b);
     getSelectedLast := fun _ => sc_selectedLast sc;
     getActiveEditor := fun _ =>
       match sc_editorOpened sc with Some _ => Some 0%nat | None => None end;
     isOpened := fun _ _ =>
       match sc_editorOpened sc with Some b => b | None => false end;
     rootElement := fun _ => Some 2%nat;
     holder := fun _ => 3%nat;
     spreader := fun _ => 4%nat;
     isInProgress := fun _ => sc_inProgress sc;
     finish := record Finish;
     handleMouseEvent := fun _ _ controller => record (HandleMouseEvent controller);
     runHooks := fun name _ _ _ => listeners sc name;
     runHooksBlock := fun name _ _ _ controller =>
       listeners sc name ;; ret controller;
     runHooksCalc := fun name calc => listeners sc name ;; ret calc;
     isImmediatePropagationStopped := fun _ w => immediateStopped (ext w);
     preventDefault := fun _ => record PreventDefault;
     clearTextSelection := record ClearTextSelection;
     windowFocus := record WindowFocus;
     isInput := fun n _ => Nat.eqb n 7;
     isChildOf := fun child parent _ => existsb (Nat.eqb parent) (parents child);
     getScrollbarWidth := fun _ => 15;
     elementFromPoint := fun px py _ => hitTest px py;
     documentElement := 0%nat;
     ancestors := fun n _ => parents n |}.

(** A grid of 100 rows and 50 columns with nothing selected, no editor, no
    fixed panes, no overscan setting and no listeners. *)
Definition idle : Scenario :=
  {| sc_fragmentSelection := FragFalsy;
     sc_outsideClickDeselects := DeselectsValue true;
     sc_predicate := fun _ => false;
     sc_rowOffset := OffsetOther;
     sc_columnOffset := OffsetOther;
     sc_fixedRowsTop := Fin 0;
     sc_fixedColumnsLeft := Fin 0;
     sc_rows := Fin 100;
     sc_cols := Fin 50;
     sc_selectedLast := None;
     sc_editorOpened := None;
     sc_inProgress := false;
     sc_stops := fun _ => false;
     sc_throws := fun _ => false |}.

(** The view after [initializeWalkOnTable]: the main surface is 0 and it is
    the active one; nothing is logged yet. *)
Definition initial : RWorld :=
  {| priv := {| selectionMouseDown := false; mouseDown := None;
                activeWt := 0%nat; wt := 0%nat |};
     ext := {| calls := []; immediateStopped := false |} |}.

(** An event on node [n] at the point (10, 10). *)
Definition eventOn (n : nat) : DomEvent nat :=
  {| target := n; x := None; y := None; clientX := 10; clientY := 10;
     isTargetWebComponent := false |}.

(** Variations of a scenario. *)
Definition with_listeners (stops throws : HookName -> bool) (sc : Scenario)
  : Scenario :=
  {| sc_fragmentSelection := sc_fragmentSelection sc;
     sc_outsideClickDeselects := sc_outsideClickDeselects sc;
     sc_predicate := sc_predicate sc;
     sc_rowOffset := sc_rowOffset sc;
     sc_columnOffset := sc_columnOffset sc;
     sc_fixedRowsTop := sc_fixedRowsTop sc;
     sc_fixedColumnsLeft := sc_fixedColumnsLeft sc;
     sc_rows := sc_rows sc;
     sc_cols := sc_cols sc;
     sc_selectedLast := sc_selectedLast sc;
     sc_editorOpened := sc_editorOpened sc;
     sc_inProgress := sc_inProgress sc;
     sc_stops := stops;
     sc_throws := throws |}.

Definition with_offsets (rowOffset columnOffset : RenderingOffset)
    (fixedTop fixedLeft : num) (sc : Scenario) : Scenario :=
  {| sc_fragmentSelection := sc_fragmentSelection sc;
     sc_outsideClickDeselects := sc_outsideClickDeselects sc;
     sc_predicate := sc_predicate sc;
     sc_rowOffset := rowOffset;
     sc_columnOffset := columnOffset;
     sc_fixedRowsTop := fixedTop;
     sc_fixedColumnsLeft := fixedLeft;
     sc_rows := sc_rows sc;
     sc_cols := sc_cols sc;
     sc_selectedLast := sc_selectedLast sc;
     sc_editorOpened := sc_editorOpened sc;
     sc_inProgress := sc_inProgress sc;
     sc_stops := sc_stops sc;
     sc_throws := sc_throws sc |}.

Definition with_selection (fragment : FragmentSelection)
    (selectedLast : option (Z * Z * Z * Z)) (editorOpened : option bool)
    (sc : Scenario) : Scenario :=
  {| sc_fragmentSelection := fragment;
     sc_outsideClickDeselects := sc_outsideClickDeselects sc;
     sc_predicate := sc_predicate sc;
     sc_rowOffset := sc_rowOffset sc;
     sc_columnOffset := sc_columnOffset sc;
     sc_fixedRowsTop := sc_fixedRowsTop sc;
     sc_fixedColumnsLeft := sc_fixedColumnsLeft sc;
     sc_rows := sc_rows sc;
     sc_cols := sc_cols sc;
     sc_selectedLast := selectedLast;
     sc_editorOpened := editorOpened;
     sc_inProgress := sc_inProgress sc;
     sc_stops := sc_stops sc;
     sc_throws := sc_throws sc |}.

Definition with_outsideClickDeselects (setting : OutsideClickDeselects)
    (predicate : nat -> bool) (sc : Scenario) : Scenario :=
  {| sc_fragmentSelection := sc_fragmentSelection sc;
     sc_outsideClickDeselects := setting;
     sc_predicate := predicate;
     sc_rowOffset := sc_rowOffset sc;
     sc_columnOffset := sc_columnOffset sc;
     sc_fixedRowsTop := sc_fixedRowsTop sc;
     sc_fixedColumnsLeft := sc_fixedColumnsLeft sc;
     sc_rows := sc_rows sc;
     sc_cols := sc_cols sc;
     sc_selectedLast := sc_selectedLast sc;
     sc_editorOpened := sc_editorOpened sc;
     sc_inProgress := sc_inProgress sc;
     sc_stops := sc_stops sc;
     sc_throws := sc_throws sc |}.

Definition nobody : HookName -> bool := fun _ => false.

(** A listener of [beforeOnCellMouseDown] stops immediate propagation. *)
Definition cancelling : Scenario :=
  with_listeners
    (fun name => match name with beforeOnCellMouseDown => true | _ => false end)
    nobody idle.

(** A listener of [afterOnCellMouseDown] throws. *)
Definition failing : Scenario :=
  with_listeners nobody
    (fun name => match name with afterOnCellMouseDown => true | _ => false end)
    idle.

(** Both overscan settings are ['auto'], nothing is fixed. *)
Definition autoOverscan : Scenario :=
  with_offsets OffsetAuto OffsetAuto (Fin 0) (Fin 0) idle.

(** Both overscan settings are ['auto'], two rows and one column are fixed. *)
Definition autoOverscanFixed : Scenario :=
  with_offsets OffsetAuto OffsetAuto (Fin 2) (Fin 1) idle.

(** Both overscan settings are the number 5. *)
Definition overscan5 : Scenario :=
  with_offsets (OffsetNumber (Fin 5)) (OffsetNumber (Fin 5)) (Fin 0) (Fin 0) idle.

(** [outsideClickDeselects] is [false]; it is a function that is true of
    the button 6 only. *)
Definition keepsSelection : Scenario :=
  with_outsideClickDeselects (DeselectsValue false) (fun _ => false) idle.
Definition deselectsOnButton : Scenario :=
  with_outsideClickDeselects DeselectsFunction (fun n => Nat.eqb n 6) idle.

(** [fragmentSelection] is ['cell']; the cell (2, 2) is selected, or the
    range from (2, 2) to (3, 4). *)
Definition oneCell : Scenario :=
  with_selection FragCell (Some (2, 2, 2, 2)) None idle.
Definition manyCells : Scenario :=
  with_selection FragCell (Some (2, 2, 3, 4)) None idle.

(** [fragmentSelection] is [true]. *)
Definition fragments : Scenario :=
  with_selection FragTrue None None idle.

(** A rows calculator and a columns calculator showing 10 to 20, and a
    columns calculator showing 3 to 7. *)
Definition rows10to20 : Calc :=
  {| startRow := Some (Fin 10); endRow := Some (Fin 20);
     startColumn := None; endColumn := None |}.
Definition columns10to20 : Calc :=
  {| startRow := None; endRow := None;
     startColumn := Some (Fin 10); endColumn := Some (Fin 20) |}.
Definition columns3to7 : Calc :=
  {| startRow := None; endRow := None;
     startColumn := Some (Fin 3); endColumn := Some (Fin 7) |}.

End ViewRecorder.

(** ** A recording implementation of the manager's collaborators

    Editors and editor classes are numbers; the outside state is again a log
    of calls and the "immediate propagation stopped" flag.  The cell under
    the highlight has the editor class 0, and its editor is the editor 0. *)

Module ManagerRecorder.

Import EditorManager.

Inductive Call : Type :=
| RunBeforeKeyDown (keyCode : Z)
| SelectAll
| EmptySelectedCells
| CallEnterMoves
| CallTabMoves
| TransformStart (rowDelta colDelta : Z) (force : option bool)
| TransformEnd (rowDelta colDelta : Z)
| SetRangeStart (coords : CellCoords)
| SetRangeEnd (coords : CellCoords)
| EnableFullEditMode (editor : nat)
| Focus (editor : nat)
| Prepare (editor : nat) (row col : Z)
| BeginEditing (editor : nat) (initialValue : option string)
| FinishEditing (editor : nat) (restoreOriginalValue ctrlDown : option bool)
                (withCallback : bool)
| PreventDefault
| StopPropagation
| StopImmediatePropagation
| CloseCallback (dataSaved : bool).

Record Log : Type := {
  calls : list Call;
  immediateStopped : bool
}.

Record Scenario : Type := {
  sc_metaKeys : list Z;
  sc_ctrlMetaKeys : list Z;
  sc_listening : bool;
  sc_selected : bool;
  sc_from : CellCoords;
  sc_highlight : CellCoords;
  sc_rows : Z;
  sc_cols : Z;
  sc_visibleRows : Z;
  sc_enterBeginsEditing : bool;
  sc_enterMoves : CellCoords;
  sc_tabMoves : CellCoords;
  sc_opened : bool;
  sc_state : EditorState;
  sc_readOnly : bool;
  sc_hookStops : bool
}.

Definition RWorld : Type := World nat Log.

Definition record (c : Call) : M (W := RWorld) unit :=
  modify (fun w =>
    {| destroyed := destroyed w; lock := lock w;
       activeEditor := activeEditor w; lastKeyCode := lastKeyCode w;
       ext := {| calls := calls (ext w) ++ [c];
                 immediateStopped := immediateStopped (ext w) |} |}).

Definition stopImmediate : M (W := RWorld) unit :=
  modify (fun w =>
    {| destroyed := destroyed w; lock := lock w;
       activeEditor := activeEditor w; lastKeyCode := lastKeyCode w;
       ext := {| calls := calls (ext w); immediateStopped := true |} |}).

Definition isSome {A} (o : option A) : bool :=
  match o with Some _ => true | None => false end.

Definition recorder (sc : Scenario)
  : Collaborators nat unit Z (Z * Z) string (Z * Z) nat Log :=
  {| isMetaKey := fun k => existsb (Z.eqb k) (sc_metaKeys sc);
     isCtrlMetaKey := fun k => existsb (Z.eqb k) (sc_ctrlMetaKeys sc);
     isListening := fun _ => sc_listening sc;
     runHooks_beforeKeyDown := fun e =>
       record (RunBeforeKeyDown (keyCode e)) ;;
       when (sc_hookStops sc) stopImmediate;
     runHooks_modifyRow := fun r => ret r;
     selectAll := record SelectAll;
     emptySelectedCells := record EmptySelectedCells;
     countRows := fun _ => sc_rows sc;
     countCols := fun _ => sc_cols sc;
     countVisibleRows := fun _ => sc_visibleRows sc;
     enterBeginsEditing := fun _ => sc_enterBeginsEditing sc;
     colToProp := fun c => ret c;
     getCell := fun r c => ret (r, c);
     getSourceDataAtCell := fun _ _ => ret "value"%string;
     getCellMeta := fun r c => ret (r, c);
     getCellEditor := fun _ => ret (Some 0%nat);
     getEditorInstance := fun class => ret class;
     enterMoves := fun _ => MovesObject (sc_enterMoves sc);
     call_enterMoves := record CallEnterMoves ;; ret (sc_enterMoves sc);
     tabMoves := fun _ => MovesObject (sc_tabMoves sc);
     call_tabMoves := fun _ => record CallTabMoves ;; ret (sc_tabMoves sc);
     isSelected := fun _ => sc_selected sc;
     transformStart := fun dr dc force => record (TransformStart dr dc force);
     transformEnd := fun dr dc => record (TransformEnd dr dc);
     setRangeStart := fun c => record (SetRangeStart c);
     setRangeEnd := fun c => record (SetRangeEnd c);
     current_from := ret (sc_from sc);
     current_highlight := ret (sc_highlight sc);
     isOpened := fun _ _ => sc_opened sc;
     isWaiting := fun _ _ => isWAITING (sc_state sc);
     state := fun _ _ => sc_state sc;
     readOnly := fun _ _ => sc_readOnly sc;
     enableFullEditMode := fun e => record (EnableFullEditMode e);
     focus := fun e => record (Focus e);
     prepare := fun e r c _ _ _ _ => record (Prepare e r c);
     beginEditing := fun e v _ => record (BeginEditing e v);
     finishEditing := fun e r c cb => record (FinishEditing e r c (isSome cb));
     isImmediatePropagationStopped := fun _ w => immediateStopped (ext w);
     preventDefault := fun _ => record PreventDefault;
     stopPropagation := fun _ => record StopPropagation;
     stopImmediatePropagation := fun _ => record StopImmediatePropagation ;; stopImmediate |}.

(** A 10 x 5 grid that listens, with the cell (2, 2) selected and its editor
    prepared but closed; the arrows, Home, End, Delete, Backspace, F1-F12,
    Tab, the page keys, Enter, Escape, Shift, Caps Lock and Alt are meta
    keys, and Control and the Command keys are ctrl/meta keys. *)
Definition prepared : Scenario :=
  {| sc_metaKeys := [40; 38; 37; 39; 36; 35; 46; 8; 112; 113; 114; 115; 116;
                     117; 118; 119; 120; 121; 122; 123; 9; 34; 33; 13; 27;
                     16; 20; 18];
     sc_ctrlMetaKeys := [17; 91; 93; 224];
     sc_listening := true;
     sc_selected := true;
     sc_from := {| row := 2; col := 2 |};
     sc_highlight := {| row := 2; col := 2 |};
     sc_rows := 10;
     sc_cols := 5;
     sc_visibleRows := 10;
     sc_enterBeginsEditing := true;
     sc_enterMoves := {| row := 1; col := 0 |};
     sc_tabMoves := {| row := 0; col := 1 |};
     sc_opened := false;
     sc_state := CLOSED;
     sc_readOnly := false;
     sc_hookStops := false |}.

(** The same grid with the editor open on the cell. *)
Definition editing : Scenario :=
  {| sc_metaKeys := sc_metaKeys prepared;
     sc_ctrlMetaKeys := sc_ctrlMetaKeys prepared;
     sc_listening := true;
     sc_selected := true;
     sc_from := {| row := 2; col := 2 |};
     sc_highlight := {| row := 2; col := 2 |};
     sc_rows := 10;
     sc_cols := 5;
     sc_visibleRows := 10;
     sc_enterBeginsEditing := true;
     sc_enterMoves := {| row := 1; col := 0 |};
     sc_tabMoves := {| row := 0; col := 1 |};
     sc_opened := true;
     sc_state := OPEN;
     sc_readOnly := false;
     sc_hookStops := false |}.

(** The manager with the editor 0 active, or with none. *)
Definition withEditor (active : option nat) : RWorld :=
  {| destroyed := false; lock := false; activeEditor := active;
     lastKeyCode := None;
     ext := {| calls := []; immediateStopped := false |} |}.

Definition keyPress (code : Z) (shift : bool) : KeyboardEvent :=
  {| keyCode := code; ctrlKey := false; metaKey := false; altKey := false;
     shiftKey := shift |}.

(** The manager once the [beforeKeyDown] hook has run for a key, and once
    the key code has been stored. *)
Definition afterHook (code : Z) (active : option nat) : RWorld :=
  {| destroyed := false; lock := false; activeEditor := active;
     lastKeyCode := None;
     ext := {| calls := [RunBeforeKeyDown code]; immediateStopped := false |} |}.

Definition afterKeyCode (code : Z) (active : option nat) : RWorld :=
  {| destroyed := false; lock := false; activeEditor := active;
     lastKeyCode := Some code;
     ext := {| calls := [RunBeforeKeyDown code]; immediateStopped := false |} |}.

(** A completion callback that logs what it is told. *)
Definition loggingCallback : Callback nat Log :=
  fun dataSaved => record (CloseCallback dataSaved).

End ManagerRecorder.


(** ** Reference definitions, after the words of the specification *)

Module Reference.

Import JsNumber.

(** The numeric rule of the viewport override:
    [start = max(calc.start - N, 0)], [end = min(calc.end + N, total - 1)]. *)
Definition adjustRange_numeric (start end' : option num) (N total : num)
  : num * num :=
  (max (sub (read start) N) (Fin 0), min (add (read end') N) (sub total (Fin 1))).

(** The offset of the proportional rule: [ceil(calc.end / total * 12)]. *)
Definition autoOffset (end' : option num) (total : num) : num :=
  ceil_div_mul (read end') total 12.

(** A calculator with its row range, or its column range, replaced. *)
Definition setRows (calc : TableView.Calc) (range : num * num) : TableView.Calc :=
  {| TableView.startRow := Some (fst range);
     TableView.endRow := Some (snd range);
     TableView.startColumn := TableView.startColumn calc;
     TableView.endColumn := TableView.endColumn calc |}.

Definition setColumns (calc : TableView.Calc) (range : num * num)
  : TableView.Calc :=
  {| TableView.startRow := TableView.startRow calc;
     TableView.endRow := TableView.endRow calc;
     TableView.startColumn := Some (fst range);
     TableView.endColumn := Some (snd range) |}.

(** What the proportional rule is to do to a columns calculator: the numeric
    rule with the proportional offset on the column fields, the row fields
    untouched. *)
Definition adjustColumns_auto (calc : TableView.Calc) (cols : num)
  : TableView.Calc :=
  setColumns calc
    (adjustRange_numeric (TableView.startColumn calc) (TableView.endColumn calc)
       (autoOffset (TableView.endColumn calc) cols) cols).

(** The step an arrow key stands for, as (row delta, column delta). *)
Definition arrowDelta (keyCode : Z) : option (Z * Z) :=
  if keyCode =? KEY_CODES.ARROW_UP then Some (-1, 0)
  else if keyCode =? KEY_CODES.ARROW_DOWN then Some (1, 0)
  else if keyCode =? KEY_CODES.ARROW_LEFT then Some (0, -1)
  else if keyCode =? KEY_CODES.ARROW_RIGHT then Some (0, 1)
  else None.

End Reference.

(** ** The rest of [TableView] *)

Module TableViewRest.

Import JsNumber TableView.

(** [a > b] on numbers. *)
Definition gt (a b : num) : bool :=
  match a, b with
  | NaN, _ | _, NaN => false
  | Fin x, Fin y => y <? x
  | PosInf, PosInf => false
  | PosInf, _ => true
  | NegInf, _ => false
  | Fin _, PosInf => false
  | Fin _, NegInf => true
  end.

(** What [wt.getCell] answers: the cell element, or a number (the exit codes
    for a cell out of bounds are negative). *)
Inductive CellResult (Node : Type) : Type :=
| CellElement (td : Node)
| CellCode (code : Z).

Arguments CellElement {Node} td.
Arguments CellCode {Node} code.

(** The part of the grid instance that [render] writes, around the rest of
    the outside state. *)
Record Instance (E : Type) : Type := {
  forceFullRender : bool;
  renderCall : bool;
  outside : E
}.

(** A computation that leaves the view's private record as it found it. *)
Definition keepsPriv {Surface Ext A : Type} (m : M (W := World Surface Ext) A)
  : Prop :=
  forall w a w', m w = Returned a w' -> priv w' = priv w.

Section Release.

Variables Node Surface Coords Editor Ext : Type.
Variable Node_eq_dec : forall a b : Node, {a = b} + {a <> b}.
Variable C : Collaborators Node Surface Coords Editor Ext.

(** The hooks and the selection update called by the cell handlers do not
    reach the private record of the view. *)
Definition HooksKeepPriv : Prop :=
  (forall name event coords TD,
      keepsPriv (runHooks C name event coords TD))
  /\ (forall name event coords TD controller,
      keepsPriv (runHooksBlock C name event coords TD controller))
  /\ (forall event coords controller,
      keepsPriv (handleMouseEvent C event coords controller))
  /\ keepsPriv (finish C).

(** What the listeners below use besides the collaborators of the handlers
    above. *)
Record Facade : Type := {
  isSelected : World Surface Ext -> bool;
  unlisten : M (W := World Surface Ext) unit;
  isLeftClick : DomEvent Node -> bool;
  isRightClick : DomEvent Node -> bool;
  which : DomEvent Node -> Z;
  eventShiftKey : DomEvent Node -> bool;
  (* [isOutsideInput(document.activeElement)] *)
  activeElementIsOutsideInput : World Surface Ext -> bool;
  stopPropagation : DomEvent Node -> M (W := World Surface Ext) unit;
  (* [priv.wt.wtTable.spreader] *)
  spreaderOf : Surface -> World Surface Ext -> Node
}.

Variable R : Facade.

(** [keyup] on the document element. *)
Definition documentKeyUp (event : DomEvent Node) : M unit :=
  inProgress <- gets (isInProgress C) ;;
  when (inProgress && negb (eventShiftKey R event)) (finish C).

(** [mouseup] on the document element. *)
Definition documentMouseUp (event : DomEvent Node) : M unit :=
  inProgress <- gets (isInProgress C) ;;
  when (inProgress && isLeftClick R event) (finish C) ;;
  set_mouseDown false ;;
  leave <- gets (fun w => activeElementIsOutsideInput R w
                          || (negb (isSelected R w) && negb (isRightClick R event))) ;;
  when leave (unlisten R).

(** [contextmenu] on the document element. *)
Definition documentContextMenu (event : DomEvent Node) : M unit :=
  inProgress <- gets (isInProgress C) ;;
  when (inProgress && isRightClick R event)
    (finish C ;;
     set_mouseDown false).

(** [touchend] on the document element. *)
Definition documentTouchEnd : M unit :=
  inProgress <- gets (isInProgress C) ;;
  when inProgress (finish C) ;;
  set_mouseDown false.

(** [selectstart] on the table. *)
Definition tableSelectStart (event : DomEvent Node) : M unit :=
  allowed <- gets (fun w => fragTruthy (fragmentSelection C w)
                            || isInput C (target event) w) ;;
  if allowed then ret tt else preventDefault C event.

(** [mousedown] on the spreader.  Its test reads
    [event.target === [priv].wt.wtTable.spreader]: [[priv]] is an array, an
    array has no [wt], and [.wtTable] of [undefined] is a [TypeError]. *)
Definition spreaderMouseDown (event : DomEvent Node) : M (W := World Surface Ext) unit :=
  fun w => Thrown w.

(** [contextmenu] on the spreader. *)
Definition spreaderContextMenu (event : DomEvent Node) : M unit :=
  onSpreader <- gets (fun w =>
    if Node_eq_dec (target event) (spreaderOf R (wt (priv w)) w)
    then which R event =? 3 else false) ;;
  when onSpreader (stopPropagation R event).

(** [isMouseDown] *)
Definition isMouseDown (w : World Surface Ext) : option bool :=
  mouseDown (priv w).

End Release.

Section Rendering.

Variables Node Surface Coords E : Type.

Definition RWorld : Type := World Surface (Instance E).

Record Renderer : Type := {
  (* [wt.draw(fastDraw)] *)
  draw : Surface -> bool -> M (W := RWorld) unit;
  drawInterrupted : Surface -> RWorld -> bool;
  observeDOMVisibility : RWorld -> bool;
  runHooks_beforeRender : bool -> bool -> M (W := RWorld) unit;
  runHooks_afterRender : bool -> M (W := RWorld) unit;
  getCell : Surface -> Coords -> bool -> RWorld -> CellResult Node;
  getWorkspaceWidth : Surface -> RWorld -> num;
  getWorkspaceHeight : Surface -> RWorld -> num;
  wtDestroy : Surface -> M (W := RWorld) unit;
  eventManagerDestroy : M (W := RWorld) unit
}.

Variable R : Renderer.

Definition set_forceFullRender (b : bool) : M (W := RWorld) unit :=
  modify (fun w =>
    {| priv := priv w;
       ext := {| forceFullRender := b; renderCall := renderCall (ext w);
                 outside := outside (ext w) |} |}).

Definition set_renderCall (b : bool) : M (W := RWorld) unit :=
  modify (fun w =>
    {| priv := priv w;
       ext := {| forceFullRender := forceFullRender (ext w); renderCall := b;
                 outside := outside (ext w) |} |}).

(** [beforeRender], the [beforeDraw] callback. *)
Definition beforeRender (force skipRender : bool) : M unit :=
  when force
    (full <- gets (fun w => forceFullRender (ext w)) ;;
     runHooks_beforeRender R full skipRender).

(** [onDraw] *)
Definition onDraw (force : bool) : M unit :=
  when force
    (full <- gets (fun w => forceFullRender (ext w)) ;;
     runHooks_afterRender R full).

Definition render : M unit :=
  main <- gets (fun w => wt (priv w)) ;;
  full <- gets (fun w => forceFullRender (ext w)) ;;
  draw R main (negb full) ;;
  set_forceFullRender false ;;
  set_renderCall false.

(** [click] on the document element. *)
Definition documentClick : M unit :=
  observe <- gets (observeDOMVisibility R) ;;
  when observe
    (interrupted <- gets (fun w => drawInterrupted R (wt (priv w)) w) ;;
     when interrupted
       (set_forceFullRender true ;;
        render)).

(** [td < 0]: an element converts to NaN, which is not below 0. *)
Definition isExitCode (td : CellResult Node) : bool :=
  match td with
  | CellElement _ => false
  | CellCode code => code <? 0
  end.

(** [getCellAtCoords]; [None] is [null]. *)
Definition getCellAtCoords (coords : Coords) (topmost : bool) (w : RWorld)
  : option (CellResult Node) :=
  let td := getCell R (wt (priv w)) coords topmost w in
  if isExitCode td then None else Some td.

Definition maximumVisibleElementWidth (leftOffset : num) (w : RWorld) : num :=
  let workspaceWidth := getWorkspaceWidth R (wt (priv w)) w in
  let maxWidth := sub workspaceWidth leftOffset in
  if gt maxWidth (Fin 0) then maxWidth else Fin 0.

Definition maximumVisibleElementHeight (topOffset : num) (w : RWorld) : num :=
  let workspaceHeight := getWorkspaceHeight R (wt (priv w)) w in
  let maxHeight := sub workspaceHeight topOffset in
  if gt maxHeight (Fin 0) then maxHeight else Fin 0.

(** [destroy] *)
Definition destroy : M unit :=
  main <- gets (fun w => wt (priv w)) ;;
  wtDestroy R main ;;
  eventManagerDestroy R.

End Rendering.

End TableViewRest.

(** ** The header cells of [TableView] *)

Module TableViewHeaders.

Import TableView.

(** [String.fromCharCode(160)], the no-break space. *)
Definition nbsp : string := String (Ascii.ascii_of_nat 160) EmptyString.

Section Headers.

(** [Markup] is what a header function returns (the HTML of a header). *)
Variables Node Surface Markup Ext : Type.

(** The DOM and the grid, as the header functions use them. *)
Record Dom : Type := {
  firstChild : Node -> World Surface Ext -> option Node;
  parentNode : Node -> World Surface Ext -> option Node;
  hasClass : Node -> string -> World Surface Ext -> bool;
  querySelector : Node -> string -> World Surface Ext -> option Node;
  empty : Node -> M (W := World Surface Ext) unit;
  createElement : string -> M (W := World Surface Ext) Node;
  set_className : Node -> string -> M (W := World Surface Ext) unit;
  appendChild : Node -> Node -> M (W := World Surface Ext) unit;
  fastInnerHTML : Node -> Markup -> M (W := World Surface Ext) unit;
  fastInnerText : Node -> string -> M (W := World Surface Ext) unit;
  addClass : Node -> string -> M (W := World Surface Ext) unit;
  (* [priv.wt.wtOverlays.getParentOverlay(element)] *)
  getParentOverlay : option Node -> World Surface Ext -> option Surface;
  (* [overlay.wtTable.columnFilter.sourceToRendered(index)], and for rows *)
  columnSourceToRendered : Surface -> Z -> World Surface Ext -> Z;
  rowSourceToRendered : Surface -> Z -> World Surface Ext -> Z;
  getRowHeader : Z -> M (W := World Surface Ext) Markup;
  getColHeader : Z -> M (W := World Surface Ext) Markup;
  runHooks_afterGetRowHeader : Z -> Node -> M (W := World Surface Ext) unit;
  runHooks_afterGetColHeader : Z -> Node -> M (W := World Surface Ext) unit
}.

Variable D : Dom.

(** [updateCellHeader]; [element] is [None] when the caller found no
    element and passes [null]. *)
Definition updateCellHeader (element : option Node) (index : Z)
    (content : Z -> M (W := World Surface Ext) Markup) : M unit :=
  parentOverlay <- gets (fun w => match getParentOverlay D element w with
                                  | Some overlay => overlay
                                  | None => wt (priv w)
                                  end) ;;
  match element with
  | None => fun w => Thrown w      (* [element.parentNode] on [null] *)
  | Some el =>
      renderedIndex <- gets (fun w =>
        match parentNode D el w with
        | Some _ =>
            if hasClass D el "colHeader" w
            then columnSourceToRendered D parentOverlay index w
            else if hasClass D el "rowHeader" w
            then rowSourceToRendered D parentOverlay index w
            else index
        | None => index
        end) ;;
      if -1 <? renderedIndex then
        markup <- content index ;;
        fastInnerHTML D el markup
      else
        fastInnerText D el nbsp ;;
        addClass D el "cornerHeader"
  end.

(** The [else] branch of the two functions below: a [div.relative] around
    a [span] of the given class, filled and then hung into the [TH]. *)
Definition createHeader (className : string) (index : Z)
    (content : Z -> M (W := World Surface Ext) Markup) (TH : Node) : M unit :=
  div <- createElement D "div" ;;
  span <- createElement D "span" ;;
  set_className D div "relative" ;;
  set_className D span className ;;
  updateCellHeader (Some span) index content ;;
  appendChild D div span ;;
  appendChild D TH div.

(** [appendRowHeader]; [fuel] bounds the depth of its calls to itself. *)
Fixpoint appendRowHeader (fuel : nat) (row : Z) (TH : Node) : M unit :=
  first <- gets (firstChild D TH) ;;
  match first with
  | Some container =>
      relative <- gets (hasClass D container "relative") ;;
      if negb relative then
        empty D TH ;;
        match fuel with
        | O => fun _ => Diverged
        | S fuel' => appendRowHeader fuel' row TH
        end
      else
        found <- gets (querySelector D container ".rowHeader") ;;
        updateCellHeader found row (getRowHeader D) ;;
        runHooks_afterGetRowHeader D row TH
  | None =>
      createHeader "rowHeader" row (getRowHeader D) TH ;;
      runHooks_afterGetRowHeader D row TH
  end.

(** [appendColHeader] *)
Fixpoint appendColHeader (fuel : nat) (col : Z) (TH : Node) : M unit :=
  first <- gets (firstChild D TH) ;;
  match first with
  | Some container =>
      relative <- gets (hasClass D container "relative") ;;
      if relative then
        found <- gets (querySelector D container ".colHeader") ;;
        updateCellHeader found col (getColHeader D)
      else
        empty D TH ;;
        match fuel with
        | O => fun _ => Diverged
        | S fuel' => appendColHeader fuel' col TH
        end
  | None => createHeader "colHeader" col (getColHeader D) TH
  end ;;
  runHooks_afterGetColHeader D col TH.

End Headers.

End TableViewHeaders.

(** ** [EditorManager.getInstance] and the constructor *)

Module EditorManagerRegistry.

Section Registry.

(** Grid instances, their private settings objects, selections, event
    managers, editors, and the outside state. *)
Variables Hot Settings Selection EventManager Editor Ext : Type.
Variable Hot_eq_dec : forall a b : Hot, {a = b} + {a <> b}.

(** A manager object, with the fields the constructor gives it. *)
Record Manager : Type := {
  instance : Hot;
  priv : Settings;
  selection : Selection;
  eventManager : EventManager;
  destroyed : bool;
  lock : bool;
  activeEditor : option Editor
}.

(** The manager objects made so far (a manager is known by its position),
    and the [WeakMap] [instances], newest entry first. *)
Record World : Type := {
  managers : list Manager;
  instances : list (Hot * nat);
  ext : Ext
}.

(** [instances.get(key)] *)
Fixpoint get (key : Hot) (entries : list (Hot * nat)) : option nat :=
  match entries with
  | [] => None
  | (k, v) :: rest => if Hot_eq_dec key k then Some v else get key rest
  end.

(** [instances.set(key, value)] *)
Definition set (key : Hot) (value : nat) : M (W := World) unit :=
  modify (fun w =>
    {| managers := managers w; instances := (key, value) :: instances w;
       ext := ext w |}).

(** A new object. *)
Definition allocate (m : Manager) : M (W := World) nat :=
  fun w =>
    Returned (List.length (managers w))
      {| managers := managers w ++ [m]; instances := instances w;
         ext := ext w |}.

(** What the constructor calls. *)
Record Collaborators : Type := {
  newEventManager : Hot -> M (W := World) EventManager;
  addHook_afterDocumentKeyDown : Hot -> nat -> M (W := World) unit;
  addEventListener_keydown : EventManager -> nat -> M (W := World) unit;
  addEventListener_compositionstart : EventManager -> nat -> M (W := World) unit;
  (* [instance.view.wt.update('onCellDblClick', ...)] *)
  update_onCellDblClick : Hot -> nat -> M (W := World) unit
}.

Variable C : Collaborators.

(** The constructor's calls do not reach the manager objects nor the
    [WeakMap], which is private to the module. *)
Definition keepsRegistry {A : Type} (m : M (W := World) A) : Prop :=
  forall w a w',
    m w = Returned a w' -> managers w' = managers w /\ instances w' = instances w.

Definition CallsKeepRegistry : Prop :=
  (forall hot, keepsRegistry (newEventManager C hot))
  /\ (forall hot this, keepsRegistry (addHook_afterDocumentKeyDown C hot this))
  /\ (forall events this, keepsRegistry (addEventListener_keydown C events this))
  /\ (forall events this,
         keepsRegistry (addEventListener_compositionstart C events this))
  /\ (forall hot this, keepsRegistry (update_onCellDblClick C hot this)).

(** [new EditorManager(instance, priv, selection)] *)
Definition construct (hotInstance : Hot) (hotSettings : Settings)
    (theSelection : Selection) : M nat :=
  events <- newEventManager C hotInstance ;;
  this <- allocate {| instance := hotInstance; priv := hotSettings;
                      selection := theSelection; eventManager := events;
                      destroyed := false; lock := false;
                      activeEditor := None |} ;;
  addHook_afterDocumentKeyDown C hotInstance this ;;
  addEventListener_keydown C events this ;;
  addEventListener_compositionstart C events this ;;
  update_onCellDblClick C hotInstance this ;;
  ret this.

(** [EditorManager.getInstance]; its fourth argument is passed on to the
    constructor, which has no fourth parameter. *)
Definition getInstance (hotInstance : Hot) (hotSettings : Settings)
    (theSelection : Selection) : M nat :=
  found <- gets (fun w => get hotInstance (instances w)) ;;
  match found with
  | Some editorManager => ret editorManager
  | None =>
      editorManager <- construct hotInstance hotSettings theSelection ;;
      set hotInstance editorManager ;;
      ret editorManager
  end.

End Registry.

End EditorManagerRegistry.

(** ** Implementations of the further collaborators, for running the code *)

Module RestRecorder.

Import JsNumber TableView TableViewRest.

(** The document-level listeners on the recorded page: button 0 is the left
    button and 2 the right one (reported as [which] 3, as for every event
    made here); nothing is selected, and the grid's [unlisten] and the
    event's [stopPropagation] leave no trace. *)
Definition facade (rightClick : bool) : Facade nat nat ViewRecorder.Log :=
  {| isSelected := fun _ => false;
     unlisten := ret tt;
     isLeftClick := fun _ => negb rightClick;
     isRightClick := fun _ => rightClick;
     which := fun _ => 3;
     eventShiftKey := fun _ => false;
     activeElementIsOutsideInput := fun _ => false;
     stopPropagation := fun _ => ret tt;
     spreaderOf := fun _ _ => 4%nat |}.

(** A scenario in which a selection is in progress. *)
Definition selecting : ViewRecorder.Scenario :=
  {| ViewRecorder.sc_fragmentSelection := FragFalsy;
     ViewRecorder.sc_outsideClickDeselects := DeselectsValue true;
     ViewRecorder.sc_predicate := fun _ => false;
     ViewRecorder.sc_rowOffset := OffsetOther;
     ViewRecorder.sc_columnOffset := OffsetOther;
     ViewRecorder.sc_fixedRowsTop := Fin 0;
     ViewRecorder.sc_fixedColumnsLeft := Fin 0;
     ViewRecorder.sc_rows := Fin 100;
     ViewRecorder.sc_cols := Fin 50;
     ViewRecorder.sc_selectedLast := Some (2, 2, 2, 2);
     ViewRecorder.sc_editorOpened := None;
     ViewRecorder.sc_inProgress := true;
     ViewRecorder.sc_stops := fun _ => false;
     ViewRecorder.sc_throws := fun _ => false |}.

(** A grid without rows, under ['auto']. *)
Definition emptyGrid : ViewRecorder.Scenario :=
  {| ViewRecorder.sc_fragmentSelection := FragFalsy;
     ViewRecorder.sc_outsideClickDeselects := DeselectsValue true;
     ViewRecorder.sc_predicate := fun _ => false;
     ViewRecorder.sc_rowOffset := OffsetAuto;
     ViewRecorder.sc_columnOffset := OffsetAuto;
     ViewRecorder.sc_fixedRowsTop := Fin 0;
     ViewRecorder.sc_fixedColumnsLeft := Fin 0;
     ViewRecorder.sc_rows := Fin 0;
     ViewRecorder.sc_cols := Fin 0;
     ViewRecorder.sc_selectedLast := None;
     ViewRecorder.sc_editorOpened := None;
     ViewRecorder.sc_inProgress := false;
     ViewRecorder.sc_stops := fun _ => false;
     ViewRecorder.sc_throws := fun _ => false |}.

(** A rows calculator showing 0 to 0. *)
Definition rows0to0 : Calc :=
  {| startRow := Some (Fin 0); endRow := Some (Fin 0);
     startColumn := None; endColumn := None |}.

(** The view while a cell holds the mouse. *)
Definition holding : ViewRecorder.RWorld :=
  {| priv := {| selectionMouseDown := false; mouseDown := Some true;
                activeWt := 0%nat; wt := 0%nat |};
     ext := {| ViewRecorder.calls := [];
               ViewRecorder.immediateStopped := false |} |}.

(** An event on a node that was taken out of the document. *)
Definition eventOnDetached (webComponent : bool) : DomEvent nat :=
  {| target := 9%nat; x := None; y := None; clientX := 10; clientY := 10;
     isTargetWebComponent := webComponent |}.

(** An event on the holder, at the right edge of its area: the probe to the
    right leaves the holder. *)
Definition eventOnScrollbar : DomEvent nat :=
  {| target := 3%nat; x := None; y := None; clientX := 95; clientY := 10;
     isTargetWebComponent := false |}.

(** *** The renderer *)

Inductive RenderCall : Type :=
| Draw (surface : nat) (fastDraw : bool)
| BeforeRender (isForced skipRender : bool)
| AfterRender (isForced : bool)
| WtDestroy (surface : nat)
| EventManagerDestroy.

Definition RenderWorld : Type := RWorld nat (list RenderCall).

Definition recordRender (c : RenderCall) : M (W := RenderWorld) unit :=
  modify (fun w =>
    {| priv := priv w;
       ext := {| forceFullRender := forceFullRender (ext w);
                 renderCall := renderCall (ext w);
                 outside := outside (ext w) ++ [c] |} |}).

(** A renderer whose workspace is 800 by 600 and whose [getCell] knows the
    cells of a 10 x 5 grid ([-1] stands for the exit codes). *)
Definition renderer (interrupted : bool)
  : Renderer nat nat (Z * Z) (list RenderCall) :=
  {| draw := fun surface fast => recordRender (Draw surface fast);
     drawInterrupted := fun _ _ => interrupted;
     observeDOMVisibility := fun _ => true;
     runHooks_beforeRender := fun forced skip => recordRender (BeforeRender forced skip);
     runHooks_afterRender := fun forced => recordRender (AfterRender forced);
     getCell := fun _ coords _ _ =>
       if (0 <=? fst coords) && (fst coords <? 10)
          && (0 <=? snd coords) && (snd coords <? 5)
       then CellElement 5%nat else CellCode (-1);
     getWorkspaceWidth := fun _ _ => Fin 800;
     getWorkspaceHeight := fun _ _ => Fin 600;
     wtDestroy := fun surface => recordRender (WtDestroy surface);
     eventManagerDestroy := recordRender EventManagerDestroy |}.

(** The view with a full render asked for, or not. *)
Definition toRender (full : bool) : RenderWorld :=
  {| priv := {| selectionMouseDown := false; mouseDown := None;
                activeWt := 0%nat; wt := 0%nat |};
     ext := {| forceFullRender := full; renderCall := true; outside := [] |} |}.

End RestRecorder.

Module HeaderRecorder.

Import TableView TableViewHeaders.

(** A small DOM: for each node its first child, its parent and its class,
    as lists of pairs with the newest first; the number of the next node to
    be made; and the calls of the hooks. *)
Inductive HeaderCall : Type :=
| AfterGetRowHeader (row : Z)
| AfterGetColHeader (col : Z)
| InnerHTML (node : nat) (markup : string)
| InnerText (node : nat) (text : string).

Record DomState : Type := {
  firstOf : list (nat * nat);
  parentOf : list (nat * nat);
  classOf : list (nat * string);
  next : nat;
  headerCalls : list HeaderCall
}.

Definition HWorld : Type := World nat DomState.

Fixpoint lookup {A} (key : nat) (entries : list (nat * A)) : option A :=
  match entries with
  | [] => None
  | (k, v) :: rest => if Nat.eqb key k then Some v else lookup key rest
  end.

Definition update (f : DomState -> DomState) : M (W := HWorld) unit :=
  modify (fun w => {| priv := priv w; ext := f (ext w) |}).

Definition classIs (node : nat) (class : string) (s : DomState) : bool :=
  match lookup node (classOf s) with
  | Some c => String.eqb c class
  | None => false
  end.

Definition dom : Dom nat nat string DomState :=
  {| firstChild := fun n w => lookup n (firstOf (ext w));
     parentNode := fun n w => lookup n (parentOf (ext w));
     hasClass := fun n class w => classIs n class (ext w);
     querySelector := fun container selector w =>
       match lookup container (firstOf (ext w)), selector with
       | Some child, String _ class =>
           if classIs child class (ext w) then Some child else None
       | _, _ => None
       end;
     empty := fun n => update (fun s =>
       {| firstOf := filter (fun e => negb (Nat.eqb (fst e) n)) (firstOf s);
          parentOf := filter (fun e => negb (Nat.eqb (snd e) n)) (parentOf s);
          classOf := classOf s; next := next s;
          headerCalls := headerCalls s |});
     createElement := fun _ w =>
       Returned (next (ext w))
         {| priv := priv w;
            ext := {| firstOf := firstOf (ext w); parentOf := parentOf (ext w);
                      classOf := classOf (ext w); next := S (next (ext w));
                      headerCalls := headerCalls (ext w) |} |};
     set_className := fun n class => update (fun s =>
       {| firstOf := firstOf s; parentOf := parentOf s;
          classOf := (n, class) :: classOf s; next := next s;
          headerCalls := headerCalls s |});
     appendChild := fun parent child => update (fun s =>
       {| firstOf := match lookup parent (firstOf s) with
                     | Some _ => firstOf s
                     | None => (parent, child) :: firstOf s
                     end;
          parentOf := (child, parent) :: parentOf s;
          classOf := classOf s; next := next s;
          headerCalls := headerCalls s |});
     fastInnerHTML := fun n markup => update (fun s =>
       {| firstOf := firstOf s; parentOf := parentOf s; classOf := classOf s;
          next := next s;
          headerCalls := headerCalls s ++ [InnerHTML n markup] |});
     fastInnerText := fun n text => update (fun s =>
       {| firstOf := firstOf s; parentOf := parentOf s; classOf := classOf s;
          next := next s;
          headerCalls := headerCalls s ++ [InnerText n text] |});
     addClass := fun n class => update (fun s =>
       {| firstOf := firstOf s; parentOf := parentOf s;
          classOf := (n, class) :: classOf s; next := next s;
          headerCalls := headerCalls s |});
     getParentOverlay := fun _ _ => None;
     columnSourceToRendered := fun _ index _ => index;
     rowSourceToRendered := fun _ index _ => index;
     getRowHeader := fun _ => ret "1"%string;
     getColHeader := fun _ => ret "A"%string;
     runHooks_afterGetRowHeader := fun row _ => update (fun s =>
       {| firstOf := firstOf s; parentOf := parentOf s; classOf := classOf s;
          next := next s;
          headerCalls := headerCalls s ++ [AfterGetRowHeader row] |});
     runHooks_afterGetColHeader := fun col _ => update (fun s =>
       {| firstOf := firstOf s; parentOf := parentOf s; classOf := classOf s;
          next := next s;
          headerCalls := headerCalls s ++ [AfterGetColHeader col] |}) |}.

(** The header cell 0 holding a foreign node 1 (no class), and holding a
    [div.relative] 1 with nothing in it. *)
Definition foreign : HWorld :=
  {| priv := {| selectionMouseDown := false; mouseDown := None;
                activeWt := 0%nat; wt := 0%nat |};
     ext := {| firstOf := [(0, 1)]%nat; parentOf := [(1, 0)]%nat;
               classOf := []; next := 2%nat; headerCalls := [] |} |}.

Definition hollow : HWorld :=
  {| priv := {| selectionMouseDown := false; mouseDown := None;
                activeWt := 0%nat; wt := 0%nat |};
     ext := {| firstOf := [(0, 1)]%nat; parentOf := [(1, 0)]%nat;
               classOf := [(1%nat, "relative"%string)]; next := 2%nat;
               headerCalls := [] |} |}.

End HeaderRecorder.

Module RegistryRecorder.

Import EditorManagerRegistry.

Inductive RegistryCall : Type :=
| NewEventManager (hotInstance : nat)
| AddHook (hotInstance manager : nat)
| AddEventListener (type : string) (manager : nat)
| UpdateOnCellDblClick (hotInstance manager : nat).

Definition RegWorld : Type := World nat string nat nat nat (list RegistryCall).

Definition recordCall (c : RegistryCall) : M (W := RegWorld) unit :=
  modify (fun w =>
    {| managers := managers w; instances := instances w;
       ext := ext w ++ [c] |}).

(** The event manager of a grid instance carries the number of the
    instance. *)
Definition recorder : Collaborators nat string nat nat nat (list RegistryCall) :=
  {| newEventManager := fun hot => recordCall (NewEventManager hot) ;; ret hot;
     addHook_afterDocumentKeyDown := fun hot manager => recordCall (AddHook hot manager);
     addEventListener_keydown := fun _ manager =>
       recordCall (AddEventListener "keydown" manager);
     addEventListener_compositionstart := fun _ manager =>
       recordCall (AddEventListener "compositionstart" manager);
     update_onCellDblClick := fun hot manager =>
       recordCall (UpdateOnCellDblClick hot manager) |}.

Definition fresh : RegWorld :=
  {| managers := []; instances := []; ext := [] |}.

End RegistryRecorder.

Module ManagerScenarios.

Import EditorManager ManagerRecorder.

(** The grid of [prepared] with the switches that the scenarios below
    vary. *)
Definition scenario (listening selected opened : bool) (editorState : EditorState)
    (isReadOnly enterBegins : bool) : Scenario :=
  {| sc_metaKeys := sc_metaKeys prepared;
     sc_ctrlMetaKeys := sc_ctrlMetaKeys prepared;
     sc_listening := listening;
     sc_selected := selected;
     sc_from := {| row := 2; col := 2 |};
     sc_highlight := {| row := 2; col := 2 |};
     sc_rows := 10;
     sc_cols := 5;
     sc_visibleRows := 10;
     sc_enterBeginsEditing := enterBegins;
     sc_enterMoves := {| row := 1; col := 0 |};
     sc_tabMoves := {| row := 0; col := 1 |};
     sc_opened := opened;
     sc_state := editorState;
     sc_readOnly := isReadOnly;
     sc_hookStops := false |}.

(** The grid does not listen; nothing is selected; the cell is read-only;
    the editor waits for a validation. *)
Definition deaf : Scenario := scenario false true false CLOSED false true.
Definition unselected : Scenario := scenario true false false CLOSED false true.
Definition readOnlyCell : Scenario := scenario true true false CLOSED true true.
Definition validating : Scenario := scenario true true true WAITING false true.


(** A key pressed with Ctrl held. *)
Definition ctrlPress (code : Z) : KeyboardEvent :=
  {| keyCode := code; ctrlKey := true; metaKey := false; altKey := false;
     shiftKey := false |}.

(** The manager, locked, with the editor 0 active. *)
Definition lockedManager : RWorld :=
  {| destroyed := false; lock := true; activeEditor := Some 0%nat;
     lastKeyCode := None;
     ext := {| calls := []; immediateStopped := false |} |}.

End ManagerScenarios.

(** * Properties *)

(** ** Stepping through a handler *)

Section EffectFacts.
Context {W : Type}.

Lemma bind_returned {A B} (m : M (W := W) A) (k : A -> M B) w b w' :
  bind m k w = Returned b w' ->
  exists a w1, m w = Returned a w1 /\ k a w1 = Returned b w'.
Proof.
  unfold bind. destruct (m w) as [a w1 | w1 | ]; intro H; try discriminate.
  exists a, w1. split; [reflexivity | exact H].
Qed.

Lemma bind_assoc {A B D} (m : M (W := W) A) (k : A -> M B) (h : B -> M D) w :
  bind (bind m k) h w = bind m (fun a => bind (k a) h) w.
Proof. unfold bind. destruct (m w); reflexivity. Qed.

Lemma bind_gets {A B} (f : W -> A) (k : A -> M (W := W) B) w :
  bind (gets f) k w = k (f w) w.
Proof. reflexivity. Qed.


End EffectFacts.

Ltac unbind H :=
  let a := fresh "a" in
  let w := fresh "w" in
  let E := fresh "E" in
  apply bind_returned in H; destruct H as (a & w & E & H).

(** ** The event router *)

Module TableViewSpec.

Import JsNumber TableView.

Section Facts.
Variables Node Surface Coords Editor Ext : Type.
Variable Node_eq_dec : forall a b : Node, {a = b} + {a <> b}.
Variable Surface_eq_dec : forall a b : Surface, {a = b} + {a <> b}.
Variable C : Collaborators Node Surface Coords Editor Ext.

(** After [priv.activeWt = priv.wt] the main surface is the active one. *)
Lemma restore_activeWt_returns (w w' : World Surface Ext) :
  restore_activeWt w = Returned tt w' -> mainViewIsActive Surface_eq_dec w' = true.
Proof.
  unfold restore_activeWt, modify, mainViewIsActive. intro H. inversion H.
  cbn. destruct (Surface_eq_dec (wt (priv w)) (wt (priv w))); congruence.
Qed.

(** C1, as amended.  For each of the five cell handlers that assign the
    active surface (mouse-down, mouse-over, mouse-out, context-menu,
    mouse-up): when the handler returns, and the event is not marked
    "immediate propagation stopped" once the statements up to the "before"
    hook have run (a test that the mouse-up handler does not make), the
    active surface is the main surface again. *)
Theorem C1_active_surface_restored_on_completion
    (h : PointerHandler) (event : DomEvent Node) (coords : Coords) (TD : Node)
    (wt' : Surface) (w w' : World Surface Ext) :
  (forall phase w1,
      beforePhase C h event coords TD wt' = Some phase ->
      phase w = Returned tt w1 ->
      isImmediatePropagationStopped C event w1 = false) ->
  pointerHandler C h event coords TD wt' w = Returned tt w' ->
  mainViewIsActive Surface_eq_dec w' = true.
Proof.
  intros Hgo Hrun. destruct h; cbn [pointerHandler beforePhase] in *.
  - unfold onCellMouseDown in Hrun. unbind Hrun.
    assert (Hs : isImmediatePropagationStopped C event w0 = false).
    { eapply Hgo; [reflexivity | ]. unfold bind. rewrite E. reflexivity. }
    unfold bind at 1, gets in Hrun. rewrite Hs in Hrun.
    unbind Hrun. unbind Hrun. eapply restore_activeWt_returns; eassumption.
  - unfold onCellMouseOver in Hrun. unbind Hrun.
    assert (Hs : isImmediatePropagationStopped C event w0 = false).
    { eapply Hgo; [reflexivity | ]. unfold bind. rewrite E. reflexivity. }
    unfold bind at 1, gets in Hrun. rewrite Hs in Hrun.
    unbind Hrun. unbind Hrun. unbind Hrun.
    eapply restore_activeWt_returns; eassumption.
  - unfold onCellMouseOut in Hrun. unbind Hrun. destruct a.
    assert (Hs : isImmediatePropagationStopped C event w0 = false).
    { eapply Hgo; [reflexivity | exact E]. }
    unfold bind at 1, gets in Hrun. rewrite Hs in Hrun.
    unbind Hrun. eapply restore_activeWt_returns; eassumption.
  - unfold onCellContextMenu in Hrun. unbind Hrun. destruct a.
    assert (Hs : isImmediatePropagationStopped C event w0 = false).
    { eapply Hgo; [reflexivity | exact E]. }
    unfold bind at 1, gets in Hrun. rewrite Hs in Hrun.
    unbind Hrun. eapply restore_activeWt_returns; eassumption.
  - unfold onCellMouseUp in Hrun. unbind Hrun. unbind Hrun. unbind Hrun.
    eapply restore_activeWt_returns; eassumption.
Qed.

(** The offset the overrides compute under ['auto']:
    [center = start + end - start], [offset = ceil(center / total * 12)]. *)
Lemma center_is_end (a b : Z) : sub (add (Fin a) (Fin b)) (Fin a) = Fin b.
Proof. cbn. f_equal. lia. Qed.

(** On integer indices the offset of the code is the offset of the
    specification, [ceil(end / total * 12)]. *)
Lemma code_offset_is_autoOffset (a b : Z) (total : num) :
  ceil_div_mul (sub (add (Fin a) (Fin b)) (Fin a)) total 12
  = Reference.autoOffset (Some (Fin b)) total.
Proof. rewrite center_is_end. reflexivity. Qed.

(** The rows override under ['auto'] with no fixed rows: the proportional
    rule, on the row fields. *)
Lemma row_auto_override (calc : Calc) (w : World Surface Ext) :
  viewportRowRenderingOffset C w = OffsetAuto ->
  truthy (fixedRowsTop C w) = false ->
  viewportRowCalculatorOverride C calc w =
  runHooksCalc C afterViewportRowCalculatorOverride
    (Reference.setRows calc
       (Reference.adjustRange_numeric (startRow calc) (endRow calc)
          (ceil_div_mul (sub (add (read (startRow calc)) (read (endRow calc)))
                             (read (startRow calc)))
             (countRows C w) 12)
          (countRows C w))) w.
Proof.
  intros Hauto Hfixed. unfold viewportRowCalculatorOverride, bind, gets.
  rewrite Hauto. cbn [forceFixedOffset]. rewrite Hfixed. reflexivity.
Qed.

(** The columns override under ['auto'] with no fixed columns: the lower
    bound of the proportional rule lands in [startRow]; [startColumn] keeps
    its value. *)
Lemma column_auto_override (calc : Calc) (w : World Surface Ext) :
  viewportColumnRenderingOffset C w = OffsetAuto ->
  truthy (fixedColumnsLeft C w) = false ->
  let offset := ceil_div_mul
                  (sub (add (read (startColumn calc)) (read (endColumn calc)))
                       (read (startColumn calc)))
                  (countCols C w) 12 in
  viewportColumnCalculatorOverride C calc w =
  runHooksCalc C afterViewportColumnCalculatorOverride
    {| startRow := Some (max (sub (read (startColumn calc)) offset) (Fin 0));
       endRow := endRow calc;
       startColumn := startColumn calc;
       endColumn := Some (min (add (read (endColumn calc)) offset)
                              (sub (countCols C w) (Fin 1))) |} w.
Proof.
  intros Hauto Hfixed. unfold viewportColumnCalculatorOverride, bind, gets.
  rewrite Hauto. cbn [forceFixedOffset]. rewrite Hfixed. reflexivity.
Qed.

(** C3.  On either axis the override with a numeric setting N hands the
    "after override" hook the calculator with
    [start = max(start - N, 0)] and [end = min(end + N, total - 1)]; with
    ['auto'] and a fixed leading pane on the axis it does the same with
    N = 10, and the proportional rule is not applied.  With 100 rows, the
    range 10..20 and N = 5 the range becomes 5..25. *)
Theorem C3_numeric_overscan_rule :
  (forall calc (w : World Surface Ext) N,
      viewportRowRenderingOffset C w = OffsetNumber N ->
      viewportRowCalculatorOverride C calc w =
      runHooksCalc C afterViewportRowCalculatorOverride
        (Reference.setRows calc
           (Reference.adjustRange_numeric (startRow calc) (endRow calc) N
              (countRows C w))) w)
  /\ (forall calc (w : World Surface Ext) N,
      viewportColumnRenderingOffset C w = OffsetNumber N ->
      viewportColumnCalculatorOverride C calc w =
      runHooksCalc C afterViewportColumnCalculatorOverride
        (Reference.setColumns calc
           (Reference.adjustRange_numeric (startColumn calc) (endColumn calc) N
              (countCols C w))) w)
  /\ (forall calc (w : World Surface Ext),
      viewportRowRenderingOffset C w = OffsetAuto ->
      truthy (fixedRowsTop C w) = true ->
      viewportRowCalculatorOverride C calc w =
      runHooksCalc C afterViewportRowCalculatorOverride
        (Reference.setRows calc
           (Reference.adjustRange_numeric (startRow calc) (endRow calc) (Fin 10)
              (countRows C w))) w)
  /\ (forall calc (w : World Surface Ext),
      viewportColumnRenderingOffset C w = OffsetAuto ->
      truthy (fixedColumnsLeft C w) = true ->
      viewportColumnCalculatorOverride C calc w =
      runHooksCalc C afterViewportColumnCalculatorOverride
        (Reference.setColumns calc
           (Reference.adjustRange_numeric (startColumn calc) (endColumn calc)
              (Fin 10) (countCols C w))) w)
  /\ (forall calc (w : World Surface Ext),
      viewportRowRenderingOffset C w = OffsetNumber (Fin 5) ->
      countRows C w = Fin 100 ->
      startRow calc = Some (Fin 10) ->
      endRow calc = Some (Fin 20) ->
      viewportRowCalculatorOverride C calc w =
      runHooksCalc C afterViewportRowCalculatorOverride
        {| startRow := Some (Fin 5); endRow := Some (Fin 25);
           startColumn := startColumn calc; endColumn := endColumn calc |} w).
Proof.
  repeat split.
  - intros calc w N H. unfold viewportRowCalculatorOverride, bind, gets.
    rewrite H. reflexivity.
  - intros calc w N H. unfold viewportColumnCalculatorOverride, bind, gets.
    rewrite H. reflexivity.
  - intros calc w H Hf. unfold viewportRowCalculatorOverride, bind, gets.
    rewrite H. cbn [forceFixedOffset]. rewrite Hf. reflexivity.
  - intros calc w H Hf. unfold viewportColumnCalculatorOverride, bind, gets.
    rewrite H. cbn [forceFixedOffset]. rewrite Hf. reflexivity.
  - intros calc w H Hrows Hs He. unfold viewportRowCalculatorOverride, bind, gets.
    rewrite H, Hrows. cbn. rewrite Hs, He. reflexivity.
Qed.

(** *** Outside clicks *)

(** The loop is left when the chain reaches the document element before it
    meets the root element of the grid. *)
Lemma leavesLoop_reaches_document (rootEl : Node) (webComponent : bool)
    (below above : list Node) :
  ~ In rootEl below ->
  leavesLoop Node_eq_dec C rootEl webComponent (below ++ documentElement C :: above)
  = true.
Proof.
  induction below as [| n below IH]; intro Hroot; cbn [app leavesLoop].
  - destruct (Node_eq_dec (documentElement C) (documentElement C)); congruence.
  - destruct (Node_eq_dec n (documentElement C)); [reflexivity | ].
    destruct (Node_eq_dec n rootEl) as [-> | _].
    + exfalso. apply Hroot. left. reflexivity.
    + apply IH. intro Hin. apply Hroot. right. exact Hin.
Qed.

(** C5.  A [mousedown] on the document that did not start in a cell is an
    outside click when the target is not the holder and its chain of parents
    reaches the document element without meeting the root element of the
    grid, or when the target is the holder and both scrollbar probes hit the
    holder.  The listener then does exactly one thing: if
    [outsideClickDeselects] (a value, or a function applied to the original
    target) is truthy it calls [deselectCell()]; otherwise it calls
    [destroyEditor(false, false)] and nothing that touches the selection. *)
Theorem C5_outside_click_policy
    (event : DomEvent Node) (w : World Surface Ext) (rootEl : Node) :
  mouseDownTruthy w = false ->
  rootElement C w = Some rootEl ->
  let eventX := orElse (x event) (clientX event) in
  let eventY := orElse (y event) (clientY event) in
  (target event <> holder C w /\
   exists below above,
     target event :: ancestors C (target event) w
     = below ++ documentElement C :: above
     /\ ~ In rootEl below)
  \/ (target event = holder C w /\
      elementFromPoint C (eventX + getScrollbarWidth C w) eventY w
      = Some (holder C w) /\
      elementFromPoint C eventX (eventY + getScrollbarWidth C w) w
      = Some (holder C w)) ->
  documentMouseDown Node_eq_dec C event w =
  match outsideClickDeselects C w with
  | DeselectsValue true => deselectCell C w
  | DeselectsValue false => destroyEditor C false false w
  | DeselectsFunction =>
      (deselects <- call_outsideClickDeselects C (target event) ;;
       if deselects then deselectCell C else destroyEditor C false false) w
  end.
Proof.
  intros Hheld Hroot eventX eventY Hout.
  assert (Hpolicy : outsideClick C (target event) w =
    match outsideClickDeselects C w with
    | DeselectsValue true => deselectCell C w
    | DeselectsValue false => destroyEditor C false false w
    | DeselectsFunction =>
        (deselects <- call_outsideClickDeselects C (target event) ;;
         if deselects then deselectCell C else destroyEditor C false false) w
    end).
  { unfold outsideClick, bind at 1, gets.
    destruct (outsideClickDeselects C w) as [| []]; reflexivity. }
  rewrite <- Hpolicy.
  unfold documentMouseDown, bind at 1, gets. rewrite Hheld.
  unfold bind at 1. rewrite Hroot. unfold bind at 1.
  destruct Hout as [(Hne & below & above & Hchain & Hnot) | (Heq & Hright & Hbelow)].
  - destruct (Node_eq_dec (target event) (holder C w)) as [Heq | _];
      [contradiction | ].
    unfold bind at 1. rewrite Hchain.
    rewrite leavesLoop_reaches_document by exact Hnot. reflexivity.
  - destruct (Node_eq_dec (target event) (holder C w)) as [_ | Hne];
      [ | contradiction].
    unfold bind at 1, bind at 1, bind at 1.
    fold eventX eventY. rewrite Hright, Hbelow.
    destruct (Node_eq_dec (holder C w) (holder C w)); [reflexivity | congruence].
Qed.

(** *** Text selection *)

Lemma isSelectedOnlyCell_true (w : World Surface Ext) :
  isSelectedOnlyCell C w = true <->
  exists r c, getSelectedLast C w = Some (r, c, r, c).
Proof.
  unfold isSelectedOnlyCell.
  destruct (getSelectedLast C w) as [[[[r c] r2] c2] | ].
  - rewrite andb_true_iff, !Z.eqb_eq. split.
    + intros [-> ->]. exists r2, c2. reflexivity.
    + intros (r' & c' & H). inversion H. subst. split; reflexivity.
  - split; [discriminate | intros (r & c & H); discriminate].
Qed.

Lemma isCellEdited_true (w : World Surface Ext) :
  isCellEdited C w = true <->
  exists editor, getActiveEditor C w = Some editor /\ isOpened C editor w = true.
Proof.
  unfold isCellEdited. destruct (getActiveEditor C w) as [editor | ].
  - split.
    + intro H. exists editor. split; [reflexivity | exact H].
    + intros (e & He & H). inversion He. subst. exact H.
  - split; [discriminate | intros (e & He & _); discriminate].
Qed.

(** C6.  [isTextSelectionAllowed(el)] is [true] exactly when [el] is an
    input, or [fragmentSelection === true] and [el] is inside the table body,
    or [fragmentSelection === 'cell'], one cell only is selected and [el] is
    inside the table body, or [fragmentSelection] is falsy, the editor is
    open and one cell only is selected.  With ['cell'] and a selection of two
    or more cells it is [false] for a target that is not an input. *)
Theorem C6_isTextSelectionAllowed_cases (el : Node) (w : World Surface Ext) :
  let inside := isChildOf C el (spreader C w) w = true in
  let oneCell := exists r c, getSelectedLast C w = Some (r, c, r, c) in
  let editing := exists editor,
      getActiveEditor C w = Some editor /\ isOpened C editor w = true in
  (isTextSelectionAllowed C el w = true <->
   isInput C el w = true
   \/ (fragmentSelection C w = FragTrue /\ inside)
   \/ (fragmentSelection C w = FragCell /\ oneCell /\ inside)
   \/ (fragTruthy (fragmentSelection C w) = false /\ editing /\ oneCell))
  /\ (forall r c r2 c2,
         fragmentSelection C w = FragCell ->
         getSelectedLast C w = Some (r, c, r2, c2) ->
         r <> r2 \/ c <> c2 ->
         isInput C el w = false ->
         isTextSelectionAllowed C el w = false).
Proof.
  intros inside oneCell editing. subst inside oneCell editing. split.
  - rewrite <- isSelectedOnlyCell_true, <- isCellEdited_true.
    unfold isTextSelectionAllowed.
    destruct (isInput C el w); [tauto | ].
    destruct (fragmentSelection C w), (isChildOf C el (spreader C w) w),
      (isSelectedOnlyCell C w), (isCellEdited C w); cbn;
      intuition congruence.
  - intros r c r2 c2 Hfrag Hsel Hmany Hinput.
    assert (Hone : isSelectedOnlyCell C w = false).
    { unfold isSelectedOnlyCell. rewrite Hsel. apply andb_false_iff.
      rewrite !Z.eqb_neq. exact Hmany. }
    unfold isTextSelectionAllowed. rewrite Hinput, Hfrag, Hone. reflexivity.
Qed.

(** C7, as amended.  On a [mousemove] over the root element while the mouse
    is held after a [mousedown] on it, with text selection not allowed for
    the target, the listener always prevents the default of the event; it
    clears the text selection of the document first only when
    [fragmentSelection] is truthy. *)
Theorem C7_disallowed_drag (event : DomEvent Node) (w : World Surface Ext) :
  selectionMouseDown (priv w) = true ->
  isTextSelectionAllowed C (target event) w = false ->
  rootMouseMove C event w =
  if fragTruthy (fragmentSelection C w)
  then (clearTextSelection C ;; preventDefault C event) w
  else preventDefault C event w.
Proof.
  intros Hheld Hno. unfold rootMouseMove, bind at 1, gets. rewrite Hheld.
  unfold bind at 1. rewrite Hno. cbn [andb negb when].
  unfold bind at 1.
  destruct (fragTruthy (fragmentSelection C w)); cbn [when].
  - reflexivity.
  - reflexivity.
Qed.

End Facts.

(** *** The handlers on the recorded page *)

Import ViewRecorder.

(** A mouse-down on the cell 5, raised by the overlay 1, with no listeners:
    the handler runs to its end and the main surface 0 is active again. *)
Lemma C1_mouse_down_completes :
  exists w',
    pointerHandler (recorder idle) CellMouseDown (eventOn 5) (2, 2) 5%nat 1%nat
      initial = Returned tt w'
    /\ mainViewIsActive Nat.eq_dec w' = true.
Proof.
  eexists. split; [reflexivity | ].
  apply (@C1_active_surface_restored_on_completion nat nat (Z * Z) nat Log
           Nat.eq_dec (recorder idle) CellMouseDown (eventOn 5) (2, 2) 5%nat 1%nat initial).
  - intros phase w1 Hphase Hrun. injection Hphase as <-.
    vm_compute in Hrun. injection Hrun as <-. reflexivity.
  - reflexivity.
Defined.

(** C1 does not hold as stated.  The same mouse-down leaves the overlay 1
    active, and not the main surface 0, when a listener of
    [beforeOnCellMouseDown] stops immediate propagation (the handler
    returns early) and when a listener of [afterOnCellMouseDown] throws. *)
Lemma C1_overlay_stays_active :
  (exists w',
      pointerHandler (recorder cancelling) CellMouseDown (eventOn 5) (2, 2)
        5%nat 1%nat initial = Returned tt w'
      /\ mainViewIsActive Nat.eq_dec w' = false)
  /\ (exists w',
      pointerHandler (recorder failing) CellMouseDown (eventOn 5) (2, 2)
        5%nat 1%nat initial = Thrown w'
      /\ mainViewIsActive Nat.eq_dec w' = false).
Proof.
  split; eexists; (split; reflexivity).
Qed.

(** C2 fails on the code.  With 50 columns, ['auto'] and no fixed column, a
    columns calculator showing 3 to 7 gets the offset ceil(7 / 50 * 12) = 2;
    the override leaves [startColumn] at 3 and creates [startRow] = 1, where
    the rule asks for [startColumn] = 1 and no change to the row fields. *)
Theorem C2_column_auto_assigns_startRow :
  let result := {| startRow := Some (Fin 1); endRow := None;
                   startColumn := Some (Fin 3); endColumn := Some (Fin 9) |} in
  (exists w',
      viewportColumnCalculatorOverride (recorder autoOverscan) columns3to7 initial
      = Returned result w')
  /\ Reference.adjustColumns_auto columns3to7 (Fin 50)
     = {| startRow := None; endRow := None;
          startColumn := Some (Fin 1); endColumn := Some (Fin 9) |}
  /\ startColumn result = startColumn columns3to7
  /\ startRow result <> startRow columns3to7
  /\ result <> Reference.adjustColumns_auto columns3to7 (Fin 50).
Proof.
  cbv zeta. split; [eexists; cbv; reflexivity | ].
  split; [reflexivity | ]. split; [reflexivity | ].
  split; discriminate.
Qed.

(** The rows override of the same settings applies the rule to the row
    fields: 10 to 20 of 100 rows becomes 7 to 23. *)
Lemma row_auto_override_example :
  exists w',
    viewportRowCalculatorOverride (recorder autoOverscan) rows10to20 initial
    = Returned {| startRow := Some (Fin 7); endRow := Some (Fin 23);
                  startColumn := None; endColumn := None |} w'.
Proof. eexists. cbv. reflexivity. Qed.

(** C3 on the recorded grid: the numeric setting 5 on the rows 10 to 20 of
    100, and ['auto'] with a fixed column on the columns 10 to 20 of 50. *)
Lemma C3_overscan_examples :
  (exists w',
      viewportRowCalculatorOverride (recorder overscan5) rows10to20 initial
      = Returned {| startRow := Some (Fin 5); endRow := Some (Fin 25);
                    startColumn := None; endColumn := None |} w')
  /\ (exists w',
      viewportColumnCalculatorOverride (recorder autoOverscanFixed) columns10to20
        initial
      = Returned {| startRow := None; endRow := None;
                    startColumn := Some (Fin 0); endColumn := Some (Fin 30) |} w').
Proof.
  split.
  - destruct (@C3_numeric_overscan_rule nat nat (Z * Z) nat Log (recorder overscan5))
      as (_ & _ & _ & _ & Hexample).
    rewrite (Hexample rows10to20 initial eq_refl eq_refl eq_refl eq_refl).
    eexists. reflexivity.
  - destruct (@C3_numeric_overscan_rule nat nat (Z * Z) nat Log
                (recorder autoOverscanFixed))
      as (_ & _ & _ & Hfixed & _).
    rewrite (Hfixed columns10to20 initial eq_refl eq_refl).
    eexists. reflexivity.
Defined.

(** C5 on the recorded page: a click on the button 6, outside the grid. *)
Lemma C5_click_on_button :
  documentMouseDown Nat.eq_dec (recorder keepsSelection) (eventOn 6) initial
  = destroyEditor (recorder keepsSelection) false false initial
  /\ documentMouseDown Nat.eq_dec (recorder idle) (eventOn 6) initial
     = deselectCell (recorder idle) initial.
Proof.
  split.
  - apply (@C5_outside_click_policy nat nat (Z * Z) nat Log Nat.eq_dec
             (recorder keepsSelection) (eventOn 6) initial 2%nat).
    + reflexivity.
    + reflexivity.
    + left. split; [discriminate | ].
      exists [6; 1]%nat, []. split; [reflexivity | ].
      cbn. intros [H | [H | []]]; discriminate.
  - apply (@C5_outside_click_policy nat nat (Z * Z) nat Log Nat.eq_dec
             (recorder idle) (eventOn 6) initial 2%nat).
    + reflexivity.
    + reflexivity.
    + left. split; [discriminate | ].
      exists [6; 1]%nat, []. split; [reflexivity | ].
      cbn. intros [H | [H | []]]; discriminate.
Defined.

(** C6 on the recorded page, for the cell 5 inside the table body. *)
Lemma C6_cell_fragment_selection :
  isTextSelectionAllowed (recorder oneCell) 5%nat initial = true
  /\ isTextSelectionAllowed (recorder manyCells) 5%nat initial = false.
Proof.
  split.
  - apply (proj1 (@C6_isTextSelectionAllowed_cases nat nat (Z * Z) nat Log
                    (recorder oneCell) 5%nat initial)).
    right. right. left. split; [reflexivity | ].
    split; [exists 2, 2; reflexivity | reflexivity].
  - apply (proj2 (@C6_isTextSelectionAllowed_cases nat nat (Z * Z) nat Log
                    (recorder manyCells) 5%nat initial) 2 2 3 4).
    + reflexivity.
    + reflexivity.
    + left. discriminate.
    + reflexivity.
Defined.

(** C7 as amended, on the recorded page: with [fragmentSelection] true, a
    drag that starts on the input 7 and moves over the holder 3, which is not
    inside the table body, clears the text selection and prevents the
    default. *)
Lemma C7_drag_with_fragment_selection :
  exists w1,
    rootMouseDown (recorder fragments) (eventOn 7) initial = Returned tt w1
    /\ rootMouseMove (recorder fragments) (eventOn 3) w1
       = (clearTextSelection (recorder fragments) ;;
          preventDefault (recorder fragments) (eventOn 3)) w1.
Proof.
  eexists. split; [reflexivity | ].
  apply (@C7_disallowed_drag nat nat (Z * Z) nat Log (recorder fragments)
           (eventOn 3)).
  - reflexivity.
  - reflexivity.
Defined.

(** C7 does not hold as stated.  With [fragmentSelection] falsy, after a
    [mousedown] on the cell 5 a [mousemove] over it, for which text
    selection is not allowed, prevents the default and does not clear the
    text selection: the only call it adds to the log is [PreventDefault]. *)
Lemma C7_drag_does_not_clear_selection :
  exists w1 w2,
    rootMouseDown (recorder idle) (eventOn 5) initial = Returned tt w1
    /\ selectionMouseDown (priv w1) = true
    /\ isTextSelectionAllowed (recorder idle) 5%nat w1 = false
    /\ rootMouseMove (recorder idle) (eventOn 5) w1 = Returned tt w2
    /\ calls (ext w2) = calls (ext w1) ++ [PreventDefault]
    /\ ~ In ClearTextSelection [PreventDefault].
Proof.
  eexists. eexists. repeat (split; [reflexivity | ]).
  cbn. intros [H | []]. discriminate.
Qed.

End TableViewSpec.

(** ** The editor manager *)

Module EditorManagerSpec.

Import EditorManager.

Section Facts.
Variables Editor OtherEvent PropName Cell Value Meta EditorClass Ext : Type.
Variable C : Collaborators Editor OtherEvent PropName Cell Value Meta EditorClass Ext.

(** A key event that passes the guards at the head of [onKeyDown] (the grid
    listens; after the [beforeKeyDown] hook the manager is not destroyed, the
    key code is not 229 and the event is not stopped; a selection exists)
    either opens the prepared editor or reaches the [switch]. *)
Lemma onKeyDown_processed (fuel : nat) (event : KeyboardEvent) (w w1 w2 : World Editor Ext) :
  isListening C w = true ->
  runHooks_beforeKeyDown C event w = Returned tt w1 ->
  destroyed w1 = false ->
  keyCode event <> 229 ->
  isImmediatePropagationStopped C event w1 = false ->
  set_lastKeyCode (keyCode event) w1 = Returned tt w2 ->
  isSelected C w2 = true ->
  onKeyDown C fuel event w =
  if opensEditor C event w2
  then openEditor C (Some EmptyString) (Some (FromKey event)) w2
  else dispatchKey C fuel event (ctrlDownOf event) w2.
Proof.
  intros Hlisten Hhook Hdestroyed Hcode Hstopped Hlast Hselected.
  apply Z.eqb_neq in Hcode.
  unfold onKeyDown, bind at 1, gets. rewrite Hlisten. cbn [negb].
  unfold bind at 1. rewrite Hhook.
  unfold bind at 1. rewrite Hdestroyed, Hcode. cbn [orb].
  unfold bind at 1. rewrite Hstopped.
  unfold bind at 1. rewrite Hlast.
  unfold bind at 1. rewrite Hselected. cbn [negb].
  unfold bind at 1, gets. destruct (opensEditor C event w2); reflexivity.
Qed.

(** A meta key never opens the editor by itself. *)
Lemma meta_key_does_not_open (event : KeyboardEvent) (w : World Editor Ext) :
  isMetaKey C (keyCode event) = true -> opensEditor C event w = false.
Proof.
  intro Hmeta. unfold opensEditor. rewrite Hmeta.
  destruct (activeEditor w); [ | reflexivity].
  cbn [negb andb]. apply andb_false_r.
Qed.

(** The four arrow cases of the [switch]. *)
Lemma dispatch_arrow (fuel : nat) (event : KeyboardEvent) (ctrlDown : bool)
    (dr dc : Z) :
  Reference.arrowDelta (keyCode event) = Some (dr, dc) ->
  dispatchKey C fuel event ctrlDown =
  (commitOpenEditor C ctrlDown ;;
   (if shiftKey event then transformEnd C dr dc else transformStart C dr dc None) ;;
   preventDefault C event ;;
   stopPropagation C event).
Proof.
  unfold Reference.arrowDelta, dispatchKey. destruct event as [code c m a s].
  cbn [keyCode shiftKey].
  destruct (code =? KEY_CODES.ARROW_UP) eqn:Hup;
    [apply Z.eqb_eq in Hup; subst; intro H; inversion H; reflexivity | ].
  destruct (code =? KEY_CODES.ARROW_DOWN) eqn:Hdown;
    [apply Z.eqb_eq in Hdown; subst; intro H; inversion H; reflexivity | ].
  destruct (code =? KEY_CODES.ARROW_LEFT) eqn:Hleft;
    [apply Z.eqb_eq in Hleft; subst; intro H; inversion H; reflexivity | ].
  destruct (code =? KEY_CODES.ARROW_RIGHT) eqn:Hright;
    [apply Z.eqb_eq in Hright; subst; intro H; inversion H; reflexivity | ].
  discriminate.
Qed.

Lemma arrow_is_not_229 (code dr dc : Z) :
  Reference.arrowDelta code = Some (dr, dc) -> code <> 229.
Proof. intros H ->. discriminate H. Qed.

(** C4.  An arrow key that passes the guards of [onKeyDown], the arrow keys
    being meta keys for [isMetaKey]: if the editor is opened and not
    waiting, it is first asked to finish with [restoreOriginalValue = false]
    (the changes are saved); then, without Shift, [transformStart] is called
    with the step of the key (one row or one column), and with Shift
    [transformEnd] is called with that step and [transformStart] is not;
    the event's default is prevented and its propagation stopped. *)
Theorem C4_arrow_key_moves_selection
    (fuel : nat) (event : KeyboardEvent) (w w1 w2 : World Editor Ext) (dr dc : Z) :
  Reference.arrowDelta (keyCode event) = Some (dr, dc) ->
  isMetaKey C (keyCode event) = true ->
  isListening C w = true ->
  runHooks_beforeKeyDown C event w = Returned tt w1 ->
  destroyed w1 = false ->
  isImmediatePropagationStopped C event w1 = false ->
  set_lastKeyCode (keyCode event) w1 = Returned tt w2 ->
  isSelected C w2 = true ->
  let move :=
    if shiftKey event then transformEnd C dr dc else transformStart C dr dc None in
  (forall editor,
      activeEditor w2 = Some editor ->
      isOpened C editor w2 = true ->
      isWaiting C editor w2 = false ->
      onKeyDown C fuel event w =
      (finishEditing C editor (Some false) (Some (ctrlDownOf event)) None ;;
       move ;; preventDefault C event ;; stopPropagation C event) w2)
  /\ (activeEditor w2 = None
      \/ (exists editor, activeEditor w2 = Some editor
                         /\ (isOpened C editor w2 = false
                             \/ isWaiting C editor w2 = true)) ->
      onKeyDown C fuel event w =
      (move ;; preventDefault C event ;; stopPropagation C event) w2).
Proof.
  intros Hdelta Hmeta Hlisten Hhook Hdestroyed Hstopped Hlast Hselected move.
  assert (Hrun : onKeyDown C fuel event w =
                 dispatchKey C fuel event (ctrlDownOf event) w2).
  { rewrite (@onKeyDown_processed fuel event w w1 w2); try assumption.
    - rewrite meta_key_does_not_open by exact Hmeta. reflexivity.
    - eapply arrow_is_not_229. exact Hdelta. }
  rewrite Hrun, (@dispatch_arrow fuel event (ctrlDownOf event) dr dc Hdelta).
  fold move. split.
  - intros editor Hactive Hopened Hwaiting.
    unfold commitOpenEditor, bind at 1, bind at 1, gets, openedAndNotWaiting.
    rewrite Hactive, Hopened, Hwaiting. cbn [andb negb when].
    unfold closeEditorAndSaveChanges, closeEditor, bind at 1, gets.
    rewrite Hactive. reflexivity.
  - intros Hclosed.
    assert (Hno : openedAndNotWaiting C w2 = false).
    { unfold openedAndNotWaiting.
      destruct Hclosed as [-> | (editor & -> & [-> | ->])].
      - reflexivity.
      - reflexivity.
      - apply andb_false_r. }
    unfold commitOpenEditor, bind at 1, bind at 1, gets. rewrite Hno.
    reflexivity.
Qed.

(** C8.  After [lockEditor()] a [destroyEditor(..)] does nothing at all: the
    editor is not asked to finish and the manager is as [lockEditor()] left
    it, with the same active editor.  After [unlockEditor()] the same call
    asks the active editor to finish. *)
Theorem C8_lock_suspends_destroyEditor (revertOriginal : option bool) (w : World Editor Ext) :
  (lockEditor ;; destroyEditor C revertOriginal) w = lockEditor w
  /\ (forall w', lockEditor w = Returned tt w' ->
                 activeEditor w' = activeEditor w /\ ext w' = ext w)
  /\ (forall editor,
         activeEditor w = Some editor ->
         (lockEditor ;; destroyEditor C revertOriginal ;;
          unlockEditor ;; destroyEditor C revertOriginal) w
         = (unlockEditor ;; finishEditing C editor revertOriginal None None) w).
Proof.
  split; [reflexivity | split].
  - intros w' H. inversion H. split; reflexivity.
  - intros editor Hactive.
    unfold lockEditor, unlockEditor, destroyEditor, closeEditor, set_lock,
      bind, modify, gets. cbn. rewrite Hactive. reflexivity.
Qed.

(** C9.  [closeEditor] with no active editor calls the callback with [false]
    and does nothing else (without a callback it does nothing); with an
    active editor it is that editor's [finishEditing] with the same three
    arguments. *)
Theorem C9_closeEditor_delegates
    (restoreOriginalValue ctrlDown : option bool) (w : World Editor Ext) :
  (forall callback : Callback Editor Ext,
      activeEditor w = None ->
      closeEditor C restoreOriginalValue ctrlDown (Some callback) w
      = callback false w)
  /\ (activeEditor w = None ->
      closeEditor C restoreOriginalValue ctrlDown None w = Returned tt w)
  /\ (forall editor (callback : option (Callback Editor Ext)),
         activeEditor w = Some editor ->
         closeEditor C restoreOriginalValue ctrlDown callback w
         = finishEditing C editor restoreOriginalValue ctrlDown callback w).
Proof.
  split; [ | split].
  - intros callback Hnone. unfold closeEditor, bind, gets. rewrite Hnone.
    reflexivity.
  - intros Hnone. unfold closeEditor, bind, gets. rewrite Hnone. reflexivity.
  - intros editor callback Hactive. unfold closeEditor, bind, gets.
    rewrite Hactive. reflexivity.
Qed.


End Facts.

(** *** The manager on the recorded grid *)

Import ManagerRecorder.

(** C4 on the recorded grid.  Arrow Down with the editor open on (2, 2): the
    editor is asked to commit, then the selection is moved one row down.
    Shift + Arrow Right with the editor closed: only the end of the range
    is moved, one column to the right. *)
Lemma C4_arrow_down_and_shift_right :
  onKeyDown (recorder editing) 1 (keyPress 40 false) (withEditor (Some 0%nat))
  = (finishEditing (recorder editing) 0%nat (Some false) (Some false) None ;;
     transformStart (recorder editing) 1 0 None ;;
     preventDefault (recorder editing) (keyPress 40 false) ;;
     stopPropagation (recorder editing) (keyPress 40 false))
      (afterKeyCode 40 (Some 0%nat))
  /\ onKeyDown (recorder prepared) 1 (keyPress 39 true) (withEditor (Some 0%nat))
     = (transformEnd (recorder prepared) 0 1 ;;
        preventDefault (recorder prepared) (keyPress 39 true) ;;
        stopPropagation (recorder prepared) (keyPress 39 true))
         (afterKeyCode 39 (Some 0%nat)).
Proof.
  split.
  - apply (proj1 (@C4_arrow_key_moves_selection nat unit Z (Z * Z) string
                    (Z * Z) nat Log (recorder editing) 1 (keyPress 40 false)
                    (withEditor (Some 0%nat)) (afterHook 40 (Some 0%nat))
                    (afterKeyCode 40 (Some 0%nat)) 1 0
                    eq_refl eq_refl eq_refl eq_refl eq_refl eq_refl eq_refl
                    eq_refl) 0%nat eq_refl eq_refl eq_refl).
  - apply (proj2 (@C4_arrow_key_moves_selection nat unit Z (Z * Z) string
                    (Z * Z) nat Log (recorder prepared) 1 (keyPress 39 true)
                    (withEditor (Some 0%nat)) (afterHook 39 (Some 0%nat))
                    (afterKeyCode 39 (Some 0%nat)) 0 1
                    eq_refl eq_refl eq_refl eq_refl eq_refl eq_refl eq_refl
                    eq_refl)).
    right. exists 0%nat. split; [reflexivity | left; reflexivity].
Defined.

(** C8 on the recorded grid: lock, close, unlock, close, with the editor 0
    active. *)
Lemma C8_lock_then_unlock :
  (lockEditor ;; destroyEditor (recorder editing) (Some false) ;;
   unlockEditor ;; destroyEditor (recorder editing) (Some false))
    (withEditor (Some 0%nat))
  = (unlockEditor ;;
     finishEditing (recorder editing) 0%nat (Some false) None None)
      (withEditor (Some 0%nat)).
Proof.
  apply (proj2 (proj2 (@C8_lock_suspends_destroyEditor nat unit Z (Z * Z) string
                         (Z * Z) nat Log (recorder editing) (Some false)
                         (withEditor (Some 0%nat)))) 0%nat eq_refl).
Defined.

(** C9 on the recorded grid: without an editor the callback is told
    [false]; with the editor 0 the call goes to its [finishEditing]. *)
Lemma C9_close_without_and_with_editor :
  closeEditor (recorder prepared) (Some false) (Some true) (Some loggingCallback)
    (withEditor None)
  = loggingCallback false (withEditor None)
  /\ closeEditor (recorder prepared) (Some false) (Some true)
       (Some loggingCallback) (withEditor (Some 0%nat))
     = finishEditing (recorder prepared) 0%nat (Some false) (Some true)
         (Some loggingCallback) (withEditor (Some 0%nat)).
Proof.
  split.
  - apply (proj1 (@C9_closeEditor_delegates nat unit Z (Z * Z) string (Z * Z)
                    nat Log (recorder prepared) (Some false) (Some true)
                    (withEditor None)) loggingCallback eq_refl).
  - apply (proj2 (proj2 (@C9_closeEditor_delegates nat unit Z (Z * Z) string
                           (Z * Z) nat Log (recorder prepared) (Some false)
                           (Some true) (withEditor (Some 0%nat))))
             0%nat (Some loggingCallback) eq_refl).
Defined.


End EditorManagerSpec.

(** ** More on the event router *)

Module TableViewMore.

Import JsNumber TableView TableViewRest.

Section Facts.
Variables Node Surface Coords Editor Ext : Type.
Variable Node_eq_dec : forall a b : Node, {a = b} + {a <> b}.
Variable C : Collaborators Node Surface Coords Editor Ext.

(** *** Clicks that are not outside clicks *)

(** The loop returns when the chain meets the root element of the grid
    before the document element. *)
Lemma leavesLoop_meets_root (rootEl : Node) (webComponent : bool)
    (below above : list Node) :
  rootEl <> documentElement C ->
  ~ In (documentElement C) below ->
  leavesLoop Node_eq_dec C rootEl webComponent (below ++ rootEl :: above) = false.
Proof.
  intros Hroot. induction below as [| n below IH]; intro Hdoc; cbn [app leavesLoop].
  - destruct (Node_eq_dec rootEl (documentElement C)); [contradiction | ].
    destruct (Node_eq_dec rootEl rootEl); congruence.
  - destruct (Node_eq_dec n (documentElement C)) as [-> | _].
    + exfalso. apply Hdoc. left. reflexivity.
    + destruct (Node_eq_dec n rootEl); [reflexivity | ].
      apply IH. intro Hin. apply Hdoc. right. exact Hin.
Qed.

(** On a chain that holds neither the document element nor the root
    element the loop runs into [null]. *)
Lemma leavesLoop_detached (rootEl : Node) (webComponent : bool)
    (chain : list Node) :
  ~ In (documentElement C) chain ->
  ~ In rootEl chain ->
  leavesLoop Node_eq_dec C rootEl webComponent chain = webComponent.
Proof.
  induction chain as [| n chain IH]; intros Hdoc Hroot; cbn [leavesLoop].
  - reflexivity.
  - destruct (Node_eq_dec n (documentElement C)) as [-> | _].
    + exfalso. apply Hdoc. left. reflexivity.
    + destruct (Node_eq_dec n rootEl) as [-> | _].
      * exfalso. apply Hroot. left. reflexivity.
      * apply IH; intro Hin; [apply Hdoc | apply Hroot]; right; exact Hin.
Qed.

(** A [mousedown] inside the grid (the chain of parents of the target meets
    the root element before the document element) does nothing: nothing is
    deselected and the editor is not destroyed. *)
Theorem documentMouseDown_inside_grid
    (event : DomEvent Node) (w : World Surface Ext) (rootEl : Node) :
  rootElement C w = Some rootEl ->
  rootEl <> documentElement C ->
  target event <> holder C w ->
  (exists below above,
      target event :: ancestors C (target event) w = below ++ rootEl :: above
      /\ ~ In (documentElement C) below) ->
  documentMouseDown Node_eq_dec C event w = Returned tt w.
Proof.
  intros Hroot Hne Hholder (below & above & Hchain & Hdoc).
  unfold documentMouseDown, bind at 1, gets.
  unfold bind at 1. rewrite Hroot.
  destruct (mouseDownTruthy w); [reflexivity | ].
  unfold bind at 1.
  destruct (Node_eq_dec (target event) (holder C w)); [contradiction | ].
  unfold bind at 1. rewrite Hchain.
  rewrite leavesLoop_meets_root by assumption. reflexivity.
Qed.

(** A [mousedown] does nothing either while a cell holds the mouse, when
    the grid has no root element, or when it lands on the holder and one of
    the two scrollbar probes does not hit the holder. *)
Theorem documentMouseDown_held_or_scrollbar
    (event : DomEvent Node) (w : World Surface Ext) :
  let eventX := orElse (x event) (clientX event) in
  let eventY := orElse (y event) (clientY event) in
  mouseDownTruthy w = true
  \/ rootElement C w = None
  \/ (target event = holder C w
      /\ (elementFromPoint C (eventX + getScrollbarWidth C w) eventY w
          <> Some (holder C w)
          \/ elementFromPoint C eventX (eventY + getScrollbarWidth C w) w
             <> Some (holder C w))) ->
  documentMouseDown Node_eq_dec C event w = Returned tt w.
Proof.
  intros eventX eventY H.
  unfold documentMouseDown, bind at 1, gets. unfold bind at 1.
  destruct (rootElement C w) as [rootEl | ]; [ | reflexivity].
  destruct (mouseDownTruthy w); [reflexivity | ].
  destruct H as [H | [H | (Heq & Hmiss)]]; try discriminate.
  unfold bind at 1.
  destruct (Node_eq_dec (target event) (holder C w)); [ | contradiction].
  unfold bind at 1, bind at 1, bind at 1. fold eventX eventY.
  destruct (elementFromPoint C (eventX + getScrollbarWidth C w) eventY w)
    as [n1 | ]; [ | reflexivity].
  destruct (Node_eq_dec n1 (holder C w)) as [-> | _]; [ | reflexivity].
  destruct (elementFromPoint C eventX (eventY + getScrollbarWidth C w) w)
    as [n2 | ]; [ | reflexivity].
  destruct (Node_eq_dec n2 (holder C w)) as [-> | _]; [ | reflexivity].
  destruct Hmiss as [Hmiss | Hmiss]; congruence.
Qed.

(** A [mousedown] on a detached target (its chain of parents ends without
    the document element and without the root element) does nothing, unless
    the event is marked [isTargetWebComponent]: then it is an outside
    click. *)
Theorem documentMouseDown_detached_target
    (event : DomEvent Node) (w : World Surface Ext) (rootEl : Node) :
  mouseDownTruthy w = false ->
  rootElement C w = Some rootEl ->
  target event <> holder C w ->
  ~ In (documentElement C) (target event :: ancestors C (target event) w) ->
  ~ In rootEl (target event :: ancestors C (target event) w) ->
  documentMouseDown Node_eq_dec C event w =
  if isTargetWebComponent event
  then outsideClick C (target event) w
  else Returned tt w.
Proof.
  intros Hheld Hroot Hholder Hdoc Hnot.
  unfold documentMouseDown, bind at 1, gets. rewrite Hheld.
  unfold bind at 1. rewrite Hroot. unfold bind at 1.
  destruct (Node_eq_dec (target event) (holder C w)); [contradiction | ].
  unfold bind at 1. rewrite leavesLoop_detached by assumption.
  destruct (isTargetWebComponent event); reflexivity.
Qed.

(** *** The overscan window *)

Lemma proportional_offset_bounds (e t : Z) :
  0 <= e <= t - 1 -> 0 <= - ((- (e * 12)) / t) <= 12.
Proof.
  intros [He Het]. assert (Ht : 0 < t) by lia.
  assert (Hlow : -12 <= (- (e * 12)) / t)
    by (apply Z.div_le_lower_bound; lia).
  assert (Hup : (- (e * 12)) / t <= 0)
    by (apply Z.div_le_upper_bound; lia).
  lia.
Qed.

(** With a numeric overscan that is not negative, a window inside the grid
    stays inside the grid and only grows, on both axes. *)
Theorem numeric_overscan_window (calc : Calc) (w : World Surface Ext)
    (n s e t : Z) :
  0 <= n ->
  0 <= s <= e ->
  e <= t - 1 ->
  (viewportRowRenderingOffset C w = OffsetNumber (Fin n) ->
   countRows C w = Fin t ->
   startRow calc = Some (Fin s) ->
   endRow calc = Some (Fin e) ->
   exists s' e',
     viewportRowCalculatorOverride C calc w =
     runHooksCalc C afterViewportRowCalculatorOverride
       (Reference.setRows calc (Fin s', Fin e')) w
     /\ 0 <= s' <= s /\ e <= e' <= t - 1)
  /\ (viewportColumnRenderingOffset C w = OffsetNumber (Fin n) ->
      countCols C w = Fin t ->
      startColumn calc = Some (Fin s) ->
      endColumn calc = Some (Fin e) ->
      exists s' e',
        viewportColumnCalculatorOverride C calc w =
        runHooksCalc C afterViewportColumnCalculatorOverride
          (Reference.setColumns calc (Fin s', Fin e')) w
        /\ 0 <= s' <= s /\ e <= e' <= t - 1).
Proof.
  intros Hn Hs He. split.
  - intros Hoff Hrows Hstart Hend.
    exists (Z.max (s + - n) 0), (Z.min (e + n) (t + -1)). split; [ | lia].
    unfold viewportRowCalculatorOverride, bind, gets.
    rewrite Hoff, Hrows. cbn. rewrite Hstart, Hend. reflexivity.
  - intros Hoff Hcols Hstart Hend.
    exists (Z.max (s + - n) 0), (Z.min (e + n) (t + -1)). split; [ | lia].
    unfold viewportColumnCalculatorOverride, bind, gets.
    rewrite Hoff, Hcols. cbn. rewrite Hstart, Hend. reflexivity.
Qed.

(** Under ['auto'] with no fixed rows, the rows override widens a window
    inside the grid by an offset between 0 and 12 on each side, and keeps it
    inside the grid. *)
Theorem auto_overscan_rows_window (calc : Calc) (w : World Surface Ext)
    (s e t : Z) :
  viewportRowRenderingOffset C w = OffsetAuto ->
  truthy (fixedRowsTop C w) = false ->
  countRows C w = Fin t ->
  startRow calc = Some (Fin s) ->
  endRow calc = Some (Fin e) ->
  0 <= s <= e ->
  e <= t - 1 ->
  exists offset,
    0 <= offset <= 12
    /\ viewportRowCalculatorOverride C calc w =
       runHooksCalc C afterViewportRowCalculatorOverride
         (Reference.setRows calc
            (Fin (Z.max (s - offset) 0), Fin (Z.min (e + offset) (t - 1)))) w.
Proof.
  intros Hauto Hfixed Hrows Hstart Hend Hs He.
  exists (- ((- (e * 12)) / t)). split.
  - apply proportional_offset_bounds. lia.
  - rewrite TableViewSpec.row_auto_override by assumption.
    rewrite Hrows, Hstart, Hend. cbn [read]. rewrite TableViewSpec.center_is_end.
    unfold Reference.adjustRange_numeric. cbn [read ceil_div_mul].
    assert (Ht : (t =? 0) = false) by (apply Z.eqb_neq; lia).
    rewrite Ht. reflexivity.
Qed.

(** On a grid without rows the proportional rule divides by zero: a window
    that ends at 0 gets NaN for both bounds, and a window that ends above 0
    gets the empty range from 0 to -1. *)
Theorem auto_overscan_rows_empty_grid (calc : Calc) (w : World Surface Ext)
    (s e : Z) :
  viewportRowRenderingOffset C w = OffsetAuto ->
  truthy (fixedRowsTop C w) = false ->
  countRows C w = Fin 0 ->
  startRow calc = Some (Fin s) ->
  endRow calc = Some (Fin e) ->
  0 <= e ->
  viewportRowCalculatorOverride C calc w =
  runHooksCalc C afterViewportRowCalculatorOverride
    (Reference.setRows calc
       (if e =? 0 then (NaN, NaN) else (Fin 0, Fin (-1)))) w.
Proof.
  intros Hauto Hfixed Hrows Hstart Hend He.
  rewrite TableViewSpec.row_auto_override by assumption.
  rewrite Hrows, Hstart, Hend. cbn [read]. rewrite TableViewSpec.center_is_end.
  unfold Reference.adjustRange_numeric. cbn [read ceil_div_mul Z.eqb].
  destruct (e =? 0) eqn:He0.
  - apply Z.eqb_eq in He0. subst e. reflexivity.
  - apply Z.eqb_neq in He0.
    assert (Hpos : (0 <? e) = true) by (apply Z.ltb_lt; lia).
    rewrite Hpos. reflexivity.
Qed.

(** *** The two mouse flags of the view *)

(** Over the root element a [mousemove] does nothing unless a [mousedown]
    on the root element came before it with no [mouseup] since: after
    [mouseup] it is inert whatever the target, and so it is for a target on
    which text selection is allowed. *)
Theorem rootMouseMove_inert (event : DomEvent Node) (w : World Surface Ext) :
  (rootMouseUp ;; rootMouseMove C event) w = rootMouseUp w
  /\ (selectionMouseDown (priv w) = false
      \/ isTextSelectionAllowed C (target event) w = true ->
      rootMouseMove C event w = Returned tt w).
Proof.
  split.
  - reflexivity.
  - intros H. unfold rootMouseMove, bind, gets.
    destruct H as [-> | ->].
    + reflexivity.
    + rewrite andb_false_r. reflexivity.
Qed.

(** When the hooks do not reach the private record of the view, a cell
    mouse-down that returns (run to its end, or cut short by a "before"
    listener) leaves the view holding the mouse, and the document
    [mousedown] that follows it is not taken for an outside click: it does
    nothing. *)
Theorem cell_mouse_down_is_not_an_outside_click
    (event event' : DomEvent Node) (coords : Coords) (TD : Node) (wt' : Surface)
    (w w' : World Surface Ext) :
  HooksKeepPriv C ->
  onCellMouseDown C event coords TD wt' w = Returned tt w' ->
  mouseDownTruthy w' = true
  /\ documentMouseDown Node_eq_dec C event' w' = Returned tt w'.
Proof.
  intros (Hhooks & Hblock & Hselect & _) Hrun.
  assert (Hheld : mouseDownTruthy w' = true).
  { unfold onCellMouseDown in Hrun.
    apply bind_returned in Hrun. destruct Hrun as (controller & w4 & Hbefore & Hrun).
    unfold onCellMouseDown_before in Hbefore.
    apply bind_returned in Hbefore. destruct Hbefore as (u1 & w1 & _ & Hbefore).
    apply bind_returned in Hbefore. destruct Hbefore as (u2 & w2 & _ & Hbefore).
    apply bind_returned in Hbefore. destruct Hbefore as (u3 & w3 & Hset & Hbefore).
    unfold set_mouseDown, modify in Hset. inversion Hset; subst w3. clear Hset.
    apply Hblock in Hbefore.
    assert (H4 : mouseDown (priv w4) = Some true)
      by (rewrite Hbefore; reflexivity).
    unfold bind at 1, gets in Hrun.
    destruct (isImmediatePropagationStopped C event w4).
    - inversion Hrun; subst w'. unfold mouseDownTruthy. rewrite H4.
      reflexivity.
    - apply bind_returned in Hrun. destruct Hrun as (u5 & w5 & Hsel & Hrun).
      apply bind_returned in Hrun. destruct Hrun as (u6 & w6 & Hafter & Hrun).
      apply Hselect in Hsel. apply Hhooks in Hafter.
      unfold restore_activeWt, modify in Hrun. inversion Hrun; subst w'.
      unfold mouseDownTruthy. cbn. rewrite Hafter, Hsel, H4. reflexivity. }
  split; [exact Hheld | ].
  unfold documentMouseDown, bind at 1, gets. rewrite Hheld.
  unfold bind at 1. destruct (rootElement C w'); reflexivity.
Qed.

Section Releasing.
Variable R : Facade Node Surface Ext.

(** Releasing the mouse.  The document [mouseup] and [touchend] listeners
    always leave the view not holding the mouse (when the selection and the
    grid do not reach the private record); the document [contextmenu]
    listener lets go only for a right click while a selection is in
    progress, and otherwise does nothing at all. *)
Theorem release_of_the_mouse (event : DomEvent Node) (w w' : World Surface Ext) :
  keepsPriv (finish C) ->
  keepsPriv (unlisten R) ->
  (documentMouseUp C R event w = Returned tt w' -> mouseDownTruthy w' = false)
  /\ (documentTouchEnd C w = Returned tt w' -> mouseDownTruthy w' = false)
  /\ (isInProgress C w && isRightClick R event = true ->
      documentContextMenu C R event w = Returned tt w' ->
      mouseDownTruthy w' = false)
  /\ (isInProgress C w && isRightClick R event = false ->
      documentContextMenu C R event w = Returned tt w).
Proof.
  intros Hfinish Hunlisten. split; [ | split; [ | split]].
  - intro Hrun. unfold documentMouseUp in Hrun.
    apply bind_returned in Hrun. destruct Hrun as (u1 & w1 & _ & Hrun).
    apply bind_returned in Hrun. destruct Hrun as (u2 & w2 & _ & Hrun).
    apply bind_returned in Hrun. destruct Hrun as (u3 & w3 & Hset & Hrun).
    unfold set_mouseDown, modify in Hset. inversion Hset; subst w3. clear Hset.
    unfold bind at 1, gets in Hrun.
    match type of Hrun with when ?c _ _ = _ => destruct c end;
      cbn [when] in Hrun.
    + apply Hunlisten in Hrun. unfold mouseDownTruthy.
      rewrite Hrun. reflexivity.
    + inversion Hrun; subst w'. reflexivity.
  - intro Hrun. unfold documentTouchEnd in Hrun.
    apply bind_returned in Hrun. destruct Hrun as (u1 & w1 & _ & Hrun).
    apply bind_returned in Hrun. destruct Hrun as (u2 & w2 & _ & Hrun).
    unfold set_mouseDown, modify in Hrun. inversion Hrun. reflexivity.
  - intros Hboth Hrun. unfold documentContextMenu, bind at 1, gets in Hrun.
    rewrite Hboth in Hrun. cbn [when] in Hrun.
    apply bind_returned in Hrun. destruct Hrun as (u1 & w1 & _ & Hrun).
    unfold set_mouseDown, modify in Hrun. inversion Hrun. reflexivity.
  - intros Hnot. unfold documentContextMenu, bind, gets. rewrite Hnot.
    reflexivity.
Qed.

(** The spreader.  The [contextmenu] listener stops the propagation of a
    right click (button 3) whose target is the spreader itself; the
    [mousedown] listener, written for the same purpose, throws on every
    event before it can stop anything. *)
Theorem spreader_right_click (event : DomEvent Node) (w : World Surface Ext) :
  target event = spreaderOf R (wt (priv w)) w ->
  which R event = 3 ->
  spreaderContextMenu Node_eq_dec R event w = stopPropagation R event w
  /\ spreaderMouseDown event w = Thrown w.
Proof.
  intros Htarget Hwhich. split; [ | reflexivity].
  unfold spreaderContextMenu, bind, gets.
  destruct (Node_eq_dec (target event) (spreaderOf R (wt (priv w)) w));
    [ | contradiction].
  rewrite Hwhich. reflexivity.
Qed.

End Releasing.

End Facts.

End TableViewMore.

(** ** More on the editor manager *)

Module EditorManagerMore.

Import EditorManager.

Section Facts.
Variables Editor OtherEvent PropName Cell Value Meta EditorClass Ext : Type.
Variable C : Collaborators Editor OtherEvent PropName Cell Value Meta EditorClass Ext.

(** A key event that passes the guards and does not open the prepared
    editor reaches the [switch]. *)
Lemma onKeyDown_dispatches (fuel : nat) (event : KeyboardEvent)
    (w w1 w2 : World Editor Ext) :
  isListening C w = true ->
  runHooks_beforeKeyDown C event w = Returned tt w1 ->
  destroyed w1 = false ->
  keyCode event <> 229 ->
  isImmediatePropagationStopped C event w1 = false ->
  set_lastKeyCode (keyCode event) w1 = Returned tt w2 ->
  isSelected C w2 = true ->
  opensEditor C event w2 = false ->
  onKeyDown C fuel event w = dispatchKey C fuel event (ctrlDownOf event) w2.
Proof.
  intros Hlisten Hhook Hdestroyed Hcode Hstopped Hlast Hselected Hopens.
  rewrite (@EditorManagerSpec.onKeyDown_processed _ _ _ _ _ _ _ _ C fuel event
             w w1 w2) by assumption.
  rewrite Hopens. reflexivity.
Qed.

(** Key events that are dropped.  When the grid does not listen nothing
    runs, not even the [beforeKeyDown] hook.  When the manager is destroyed,
    the key code is 229, or a listener of [beforeKeyDown] stopped the
    event, [onKeyDown] ends with the hook and the key code is not stored.
    When nothing is selected it ends once the key code is stored. *)
Theorem onKeyDown_dropped (fuel : nat) (event : KeyboardEvent)
    (w w1 w2 : World Editor Ext) :
  (isListening C w = false -> onKeyDown C fuel event w = Returned tt w)
  /\ (isListening C w = true ->
      runHooks_beforeKeyDown C event w = Returned tt w1 ->
      destroyed w1 = true \/ keyCode event = 229
      \/ isImmediatePropagationStopped C event w1 = true ->
      onKeyDown C fuel event w = Returned tt w1)
  /\ (isListening C w = true ->
      runHooks_beforeKeyDown C event w = Returned tt w1 ->
      destroyed w1 = false ->
      keyCode event <> 229 ->
      isImmediatePropagationStopped C event w1 = false ->
      set_lastKeyCode (keyCode event) w1 = Returned tt w2 ->
      isSelected C w2 = false ->
      onKeyDown C fuel event w = Returned tt w2
      /\ lastKeyCode w2 = Some (keyCode event)).
Proof.
  split; [ | split].
  - intro Hno. unfold onKeyDown, bind, gets. rewrite Hno. reflexivity.
  - intros Hlisten Hhook Hdrop. unfold onKeyDown, bind at 1, gets.
    rewrite Hlisten. cbn [negb]. unfold bind at 1. rewrite Hhook.
    unfold bind at 1.
    destruct (destroyed w1); [reflexivity | ].
    destruct Hdrop as [Hd | [Hk | Hs]]; [discriminate | | ].
    + rewrite Hk. reflexivity.
    + cbn [orb]. destruct (keyCode event =? 229); [reflexivity | ].
      unfold bind at 1. rewrite Hs. reflexivity.
  - intros Hlisten Hhook Hdestroyed Hcode Hstopped Hlast Hnone.
    apply Z.eqb_neq in Hcode. split.
    + unfold onKeyDown, bind at 1, gets. rewrite Hlisten. cbn [negb].
      unfold bind at 1. rewrite Hhook.
      unfold bind at 1. rewrite Hdestroyed, Hcode. cbn [orb].
      unfold bind at 1. rewrite Hstopped.
      unfold bind at 1. rewrite Hlast.
      unfold bind at 1. rewrite Hnone. reflexivity.
    + unfold set_lastKeyCode, modify in Hlast. inversion Hlast. reflexivity.
Qed.

(** While the editor is open, a key with no [case] of its own (a letter, a
    digit) is left to the editor: the manager stores the key code and does
    nothing else. *)
Theorem typing_in_the_open_editor (fuel : nat) (event : KeyboardEvent)
    (w w1 w2 : World Editor Ext) (editor : Editor) :
  isListening C w = true ->
  runHooks_beforeKeyDown C event w = Returned tt w1 ->
  destroyed w1 = false ->
  keyCode event <> 229 ->
  isImmediatePropagationStopped C event w1 = false ->
  set_lastKeyCode (keyCode event) w1 = Returned tt w2 ->
  isSelected C w2 = true ->
  activeEditor w2 = Some editor ->
  isOpened C editor w2 = true ->
  switchKey (keyCode event) = KeyOther ->
  onKeyDown C fuel event w = Returned tt w2.
Proof.
  intros Hlisten Hhook Hdestroyed Hcode Hstopped Hlast Hselected
    Hactive Hopened Hother.
  rewrite (@onKeyDown_dispatches fuel event w w1 w2); try assumption.
  - unfold dispatchKey. rewrite Hother. reflexivity.
  - unfold opensEditor, isEditorOpened. rewrite Hactive, Hopened.
    cbn [negb]. rewrite !andb_false_r. reflexivity.
Qed.

(** Ctrl + A (or Meta + A, Alt not held).  With the editor closed the whole
    grid is selected and the event is consumed; with the editor open the
    manager does nothing, and the event is not prevented. *)
Theorem select_all_key (fuel : nat) (event : KeyboardEvent)
    (w w1 w2 : World Editor Ext) :
  keyCode event = KEY_CODES.A ->
  ctrlDownOf event = true ->
  isListening C w = true ->
  runHooks_beforeKeyDown C event w = Returned tt w1 ->
  destroyed w1 = false ->
  isImmediatePropagationStopped C event w1 = false ->
  set_lastKeyCode (keyCode event) w1 = Returned tt w2 ->
  isSelected C w2 = true ->
  onKeyDown C fuel event w =
  if isEditorOpened C w2 then Returned tt w2
  else (selectAll C ;; preventDefault C event ;; stopPropagation C event) w2.
Proof.
  intros Hkey Hctrl Hlisten Hhook Hdestroyed Hstopped Hlast Hselected.
  rewrite (@onKeyDown_dispatches fuel event w w1 w2); try assumption.
  - unfold dispatchKey. rewrite Hkey, Hctrl.
    change (switchKey KEY_CODES.A) with KeyA.
    unfold bind at 1, gets. destruct (isEditorOpened C w2); reflexivity.
  - rewrite Hkey. discriminate.
  - unfold opensEditor. rewrite Hctrl.
    destruct (activeEditor w2) as [editor | ]; [ | reflexivity].
    destruct (isWaiting C editor w2), (isMetaKey C (keyCode event)),
      (isCtrlMetaKey C (keyCode event)); reflexivity.
Qed.

(** A meta key that passes the guards reaches the [switch]. *)
Lemma meta_key_dispatches (fuel : nat) (event : KeyboardEvent)
    (w w1 w2 : World Editor Ext) :
  isMetaKey C (keyCode event) = true ->
  isListening C w = true ->
  runHooks_beforeKeyDown C event w = Returned tt w1 ->
  destroyed w1 = false ->
  keyCode event <> 229 ->
  isImmediatePropagationStopped C event w1 = false ->
  set_lastKeyCode (keyCode event) w1 = Returned tt w2 ->
  isSelected C w2 = true ->
  onKeyDown C fuel event w = dispatchKey C fuel event (ctrlDownOf event) w2.
Proof.
  intros Hmeta Hlisten Hhook Hdestroyed Hcode Hstopped Hlast Hselected.
  apply (@onKeyDown_dispatches fuel event w w1 w2); try assumption.
  apply EditorManagerSpec.meta_key_does_not_open. exact Hmeta.
Qed.


(** Escape, as a meta key.  With the editor closed only the default of the
    event is prevented.  With the editor open it is asked to finish
    restoring the original value, and then the active editor is focused;
    when finishing has cleared the active editor, the call to [focus] on
    it is a [TypeError]. *)
Theorem escape_key (fuel : nat) (event : KeyboardEvent)
    (w w1 w2 : World Editor Ext) :
  keyCode event = KEY_CODES.ESCAPE ->
  isMetaKey C KEY_CODES.ESCAPE = true ->
  isListening C w = true ->
  runHooks_beforeKeyDown C event w = Returned tt w1 ->
  destroyed w1 = false ->
  isImmediatePropagationStopped C event w1 = false ->
  set_lastKeyCode (keyCode event) w1 = Returned tt w2 ->
  isSelected C w2 = true ->
  (isEditorOpened C w2 = false ->
   onKeyDown C fuel event w = preventDefault C event w2)
  /\ (forall editor w3,
         activeEditor w2 = Some editor ->
         isOpened C editor w2 = true ->
         finishEditing C editor (Some true) (Some (ctrlDownOf event)) None w2
         = Returned tt w3 ->
         onKeyDown C fuel event w =
         match activeEditor w3 with
         | Some editor' => (focus C editor' ;; preventDefault C event) w3
         | None => Thrown w3
         end).
Proof.
  intros Hkey Hmeta Hlisten Hhook Hdestroyed Hstopped Hlast Hselected.
  assert (Hrun : onKeyDown C fuel event w =
                 dispatchKey C fuel event (ctrlDownOf event) w2).
  { apply (@meta_key_dispatches fuel event w w1 w2); try assumption.
    - rewrite Hkey. exact Hmeta.
    - rewrite Hkey. discriminate. }
  rewrite Hrun. unfold dispatchKey. rewrite Hkey.
  change (switchKey KEY_CODES.ESCAPE) with KeyEscape. cbv iota.
  split.
  - intros Hclosed. unfold bind at 1, gets. rewrite Hclosed.
    unfold bind at 1. reflexivity.
  - intros editor w3 Hactive Hopened Hfinish.
    unfold bind at 1, gets, isEditorOpened. rewrite Hactive, Hopened.
    cbn [when]. rewrite bind_assoc.
    unfold closeEditorAndRestoreOriginalValue, closeEditor.
    rewrite bind_assoc. unfold bind at 1, gets. rewrite Hactive.
    unfold bind at 1. rewrite Hfinish.
    unfold bind at 1, bind at 1, gets.
    destruct (activeEditor w3); reflexivity.
Qed.

(** Home and End, as meta keys.  With Ctrl or Meta they keep the column of
    the start of the range and go to the first or the last row; without,
    they keep its row and go to the first or the last column.  The
    coordinates go to [setRangeEnd] with Shift and to [setRangeStart]
    without. *)
Theorem home_and_end_keys (fuel : nat) (event : KeyboardEvent)
    (w w1 w2 : World Editor Ext) (from : CellCoords) :
  isMetaKey C (keyCode event) = true ->
  isListening C w = true ->
  runHooks_beforeKeyDown C event w = Returned tt w1 ->
  destroyed w1 = false ->
  isImmediatePropagationStopped C event w1 = false ->
  set_lastKeyCode (keyCode event) w1 = Returned tt w2 ->
  isSelected C w2 = true ->
  current_from C w2 = Returned from w2 ->
  let rangeModifier := if shiftKey event then setRangeEnd C else setRangeStart C in
  let jump coords :=
    (rangeModifier coords ;; preventDefault C event ;; stopPropagation C event) w2 in
  (keyCode event = KEY_CODES.HOME ->
   onKeyDown C fuel event w =
   jump (if ctrlKey event || metaKey event
         then {| row := 0; col := col from |}
         else {| row := row from; col := 0 |}))
  /\ (keyCode event = KEY_CODES.END ->
      onKeyDown C fuel event w =
      jump (if ctrlKey event || metaKey event
            then {| row := countRows C w2 - 1; col := col from |}
            else {| row := row from; col := countCols C w2 - 1 |})).
Proof.
  intros Hmeta Hlisten Hhook Hdestroyed Hstopped Hlast Hselected Hfrom
    rangeModifier jump.
  split; intro Hkey.
  - rewrite (@meta_key_dispatches fuel event w w1 w2); try assumption;
      [ | rewrite Hkey; discriminate].
    unfold dispatchKey. rewrite Hkey.
    change (switchKey KEY_CODES.HOME) with KeyHome. cbv iota.
    fold rangeModifier. unfold bind at 1. rewrite Hfrom.
    unfold jump. destruct (ctrlKey event || metaKey event); reflexivity.
  - rewrite (@meta_key_dispatches fuel event w w1 w2); try assumption;
      [ | rewrite Hkey; discriminate].
    unfold dispatchKey. rewrite Hkey.
    change (switchKey KEY_CODES.END) with KeyEnd. cbv iota.
    fold rangeModifier. unfold jump.
    destruct (ctrlKey event || metaKey event).
    + rewrite bind_assoc. unfold bind at 1, gets.
      rewrite bind_assoc. unfold bind at 1. rewrite Hfrom. reflexivity.
    + rewrite bind_assoc. unfold bind at 1. rewrite Hfrom.
      rewrite bind_assoc. unfold bind at 1, gets. reflexivity.
Qed.

(** Backspace and Delete, as meta keys: the selected cells are emptied, the
    editor is prepared again and the default is prevented.  The editor is
    not opened and the propagation of the event is not stopped. *)
Theorem backspace_and_delete_keys (fuel : nat) (event : KeyboardEvent)
    (w w1 w2 : World Editor Ext) :
  keyCode event = KEY_CODES.BACKSPACE \/ keyCode event = KEY_CODES.DELETE ->
  isMetaKey C (keyCode event) = true ->
  isListening C w = true ->
  runHooks_beforeKeyDown C event w = Returned tt w1 ->
  destroyed w1 = false ->
  isImmediatePropagationStopped C event w1 = false ->
  set_lastKeyCode (keyCode event) w1 = Returned tt w2 ->
  isSelected C w2 = true ->
  onKeyDown C fuel event w =
  (emptySelectedCells C ;; prepareEditor C fuel ;; preventDefault C event) w2.
Proof.
  intros Hkey Hmeta Hlisten Hhook Hdestroyed Hstopped Hlast Hselected.
  rewrite (@meta_key_dispatches fuel event w w1 w2); try assumption;
    [ | destruct Hkey as [-> | ->]; discriminate].
  unfold dispatchKey. destruct Hkey as [-> | ->]; reflexivity.
Qed.

(** Tab and the page keys, as meta keys.  Tab moves the selection by
    [tabMoves], growing the grid if needed, and against it, without
    growing, with Shift.  Page Up and Page Down move it by the number of
    visible rows. *)
Theorem tab_and_page_keys (fuel : nat) (event : KeyboardEvent)
    (w w1 w2 : World Editor Ext) :
  isMetaKey C (keyCode event) = true ->
  isListening C w = true ->
  runHooks_beforeKeyDown C event w = Returned tt w1 ->
  destroyed w1 = false ->
  isImmediatePropagationStopped C event w1 = false ->
  set_lastKeyCode (keyCode event) w1 = Returned tt w2 ->
  isSelected C w2 = true ->
  let consume := preventDefault C event ;; stopPropagation C event in
  (forall delta,
      keyCode event = KEY_CODES.TAB ->
      tabMoves C w2 = MovesObject delta ->
      onKeyDown C fuel event w =
      ((if shiftKey event
        then transformStart C (- row delta) (- col delta) None
        else transformStart C (row delta) (col delta) (Some true)) ;;
       consume) w2)
  /\ (keyCode event = KEY_CODES.PAGE_UP ->
      onKeyDown C fuel event w =
      (transformStart C (- countVisibleRows C w2) 0 None ;; consume) w2)
  /\ (keyCode event = KEY_CODES.PAGE_DOWN ->
      onKeyDown C fuel event w =
      (transformStart C (countVisibleRows C w2) 0 None ;; consume) w2).
Proof.
  intros Hmeta Hlisten Hhook Hdestroyed Hstopped Hlast Hselected consume.
  split; [ | split].
  - intros delta Hkey Hmoves.
    rewrite (@meta_key_dispatches fuel event w w1 w2); try assumption;
      [ | rewrite Hkey; discriminate].
    unfold dispatchKey. rewrite Hkey.
    change (switchKey KEY_CODES.TAB) with KeyTab. cbv iota.
    unfold bind at 1, gets. rewrite Hmoves. unfold bind at 1, ret.
    reflexivity.
  - intros Hkey.
    rewrite (@meta_key_dispatches fuel event w w1 w2); try assumption;
      [ | rewrite Hkey; discriminate].
    unfold dispatchKey. rewrite Hkey. reflexivity.
  - intros Hkey.
    rewrite (@meta_key_dispatches fuel event w w1 w2); try assumption;
      [ | rewrite Hkey; discriminate].
    unfold dispatchKey. rewrite Hkey. reflexivity.
Qed.

(** [openEditor] and read-only cells.  Without an active editor
    [openEditor] does nothing.  On a read-only cell it never begins
    editing: when it was called from an Enter key event it moves the
    selection by [enterMoves], forward and growing the grid if needed
    whether Shift is held or not; from any other event it does nothing. *)
Theorem openEditor_read_only (newInitialValue : option string)
    (event : option (OriginEvent OtherEvent)) (w : World Editor Ext) :
  (activeEditor w = None ->
   openEditor C newInitialValue event w = Returned tt w)
  /\ (forall editor,
         activeEditor w = Some editor ->
         readOnly C editor w = true ->
         (forall e delta,
             event = Some (FromKey e) ->
             keyCode e = KEY_CODES.ENTER ->
             enterMoves C w = MovesObject delta ->
             openEditor C newInitialValue event w
             = transformStart C (row delta) (col delta) (Some true) w)
         /\ ((forall e, event = Some (FromKey e) -> keyCode e <> KEY_CODES.ENTER) ->
             openEditor C newInitialValue event w = Returned tt w)).
Proof.
  split.
  - intro Hnone. unfold openEditor, bind, gets. rewrite Hnone. reflexivity.
  - intros editor Hactive Hro. split.
    + intros e delta -> Hkey Hmoves.
      unfold openEditor, bind at 1, gets. rewrite Hactive.
      unfold bind at 1. rewrite Hro, Hkey.
      change (KEY_CODES.ENTER =? KEY_CODES.ENTER) with true. cbn [when].
      unfold moveSelectionAfterEnter, bind, gets, ret. rewrite Hmoves.
      reflexivity.
    + intros Hother. unfold openEditor, bind at 1, gets. rewrite Hactive.
      unfold bind at 1. rewrite Hro.
      destruct event as [[e | o] | ]; try reflexivity.
      specialize (Hother e eq_refl). apply Z.eqb_neq in Hother.
      rewrite Hother. reflexivity.
Qed.

(** [prepareEditor] that does not prepare.  While the manager is locked it
    does nothing.  While the active editor is waiting it looks nothing up
    and builds nothing: it asks the editor to finish, with a callback that
    does nothing when told [false]. *)
Theorem prepareEditor_suspended (fuel : nat) (w : World Editor Ext) :
  (lock w = true -> prepareEditor C fuel w = Returned tt w)
  /\ (forall editor,
         lock w = false ->
         activeEditor w = Some editor ->
         isWaiting C editor w = true ->
         exists callback,
           prepareEditor C fuel w
           = finishEditing C editor (Some false) (Some false) (Some callback) w
           /\ (forall w', callback false w' = Returned tt w')
           /\ (forall fuel', fuel = S fuel' -> callback true = prepareEditor C fuel')).
Proof.
  split.
  - intro Hlock. destruct fuel; cbn [prepareEditor]; unfold bind, gets;
      rewrite Hlock; reflexivity.
  - intros editor Hlock Hactive Hwaiting.
    destruct fuel as [| fuel']; cbn [prepareEditor].
    + eexists. split; [ | split].
      * unfold bind at 1, gets. rewrite Hlock.
        unfold bind at 1. rewrite Hactive, Hwaiting.
        unfold closeEditor, bind, gets. rewrite Hactive. reflexivity.
      * intros w'. reflexivity.
      * intros fuel' H. discriminate.
    + eexists. split; [ | split].
      * unfold bind at 1, gets. rewrite Hlock.
        unfold bind at 1. rewrite Hactive, Hwaiting.
        unfold closeEditor, bind, gets. rewrite Hactive. reflexivity.
      * intros w'. reflexivity.
      * intros fuel'' H. inversion H. reflexivity.
Qed.


End Facts.

End EditorManagerMore.

(** ** Rendering, header cells and the registry of managers *)

Section EffectCongruence.
Context {W : Type}.

(** Two sequences that start with the same call and go on alike after it
    returns are the same. *)
Lemma bind_after {A B} (m : M (W := W) A) (k k' : A -> M B) w :
  (forall a w', m w = Returned a w' -> k a w' = k' a w') ->
  bind m k w = bind m k' w.
Proof.
  intro H. unfold bind. destruct (m w) as [a w' | w' | ]; try reflexivity.
  apply H. reflexivity.
Qed.

End EffectCongruence.

Module RenderingFacts.

Import JsNumber TableView TableViewRest.

Section Facts.
Variables Node Surface Coords E : Type.
Variable R : Renderer Node Surface Coords E.

(** [render] uses up the request for a full render: when it returns, the
    flags [forceFullRender] and [renderCall] of the instance are false, so
    that a [render] called next asks the main surface for a fast draw. *)
Theorem render_uses_up_the_request (w w1 : RWorld Surface E) :
  render R w = Returned tt w1 ->
  forceFullRender (ext w1) = false
  /\ renderCall (ext w1) = false
  /\ render R w1 =
     (draw R (wt (priv w1)) true ;;
      set_forceFullRender false ;; set_renderCall false) w1.
Proof.
  intro Hrun.
  assert (Hflags : forceFullRender (ext w1) = false /\ renderCall (ext w1) = false).
  { unfold render in Hrun.
    apply bind_returned in Hrun. destruct Hrun as (main & w2 & _ & Hrun).
    apply bind_returned in Hrun. destruct Hrun as (full & w3 & _ & Hrun).
    apply bind_returned in Hrun. destruct Hrun as (u1 & w4 & _ & Hrun).
    apply bind_returned in Hrun. destruct Hrun as (u2 & w5 & Hset & Hrun).
    unfold set_forceFullRender, modify in Hset. inversion Hset; subst w5.
    unfold set_renderCall, modify in Hrun. inversion Hrun.
    split; reflexivity. }
  destruct Hflags as [Hfull Hcall]. repeat split; try assumption.
  unfold render. rewrite !bind_gets. rewrite Hfull. reflexivity.
Qed.

(** A click with [observeDOMVisibility] on and an interrupted draw always
    ends in a full draw of the main surface; otherwise it does nothing. *)
Theorem documentClick_full_draw (w : RWorld Surface E) :
  documentClick R w =
  if observeDOMVisibility R w && drawInterrupted R (wt (priv w)) w
  then (set_forceFullRender true ;;
        draw R (wt (priv w)) false ;;
        set_forceFullRender false ;; set_renderCall false) w
  else Returned tt w.
Proof.
  unfold documentClick. rewrite bind_gets.
  destruct (observeDOMVisibility R w); cbn [when andb]; [ | reflexivity].
  rewrite bind_gets.
  destruct (drawInterrupted R (wt (priv w)) w); reflexivity.
Qed.

Lemma clamp_at_zero (a : num) :
  let r := if gt a (Fin 0) then a else Fin 0 in
  r <> NaN /\ r <> NegInf
  /\ (forall z, r = Fin z -> 0 <= z)
  /\ (forall z, a = Fin z -> r = Fin (Z.max z 0)).
Proof.
  destruct a as [z | | | ]; cbn.
  - destruct (0 <? z) eqn:Hz.
    + apply Z.ltb_lt in Hz. repeat split; try discriminate.
      * intros z' H. inversion H. lia.
      * intros z' H. inversion H. f_equal. lia.
    + apply Z.ltb_ge in Hz. repeat split; try discriminate.
      * intros z' H. inversion H. lia.
      * intros z' H. inversion H. f_equal. lia.
  - repeat split; discriminate.
  - repeat split; try discriminate. intros z H. inversion H. lia.
  - repeat split; try discriminate. intros z H. inversion H. lia.
Qed.

(** The room left for an element is never negative and never NaN, whatever
    the offset and the size of the workspace; for whole numbers it is the
    workspace less the offset, or 0 when the offset is beyond it. *)
Theorem maximumVisibleElement_not_negative (offset : num) (w : RWorld Surface E) :
  let width := maximumVisibleElementWidth R offset w in
  let height := maximumVisibleElementHeight R offset w in
  (width <> NaN /\ width <> NegInf /\ (forall z, width = Fin z -> 0 <= z))
  /\ (height <> NaN /\ height <> NegInf /\ (forall z, height = Fin z -> 0 <= z))
  /\ (forall size o,
         getWorkspaceWidth R (wt (priv w)) w = Fin size ->
         offset = Fin o ->
         width = Fin (Z.max (size - o) 0))
  /\ (forall size o,
         getWorkspaceHeight R (wt (priv w)) w = Fin size ->
         offset = Fin o ->
         height = Fin (Z.max (size - o) 0)).
Proof.
  cbv zeta. unfold maximumVisibleElementWidth, maximumVisibleElementHeight.
  pose proof (clamp_at_zero (sub (getWorkspaceWidth R (wt (priv w)) w) offset))
    as (Hw1 & Hw2 & Hw3 & Hw4).
  pose proof (clamp_at_zero (sub (getWorkspaceHeight R (wt (priv w)) w) offset))
    as (Hh1 & Hh2 & Hh3 & Hh4).
  cbv zeta in *. repeat split; try assumption.
  - intros size o Hsize Ho. rewrite Hsize, Ho in *. apply Hw4. reflexivity.
  - intros size o Hsize Ho. rewrite Hsize, Ho in *. apply Hh4. reflexivity.
Qed.

(** [getCellAtCoords] never hands out an exit code of [wt.getCell]: it is
    [null] exactly when [getCell] answers a negative number, and otherwise
    it is what [getCell] answers. *)
Theorem getCellAtCoords_hides_exit_codes (coords : Coords) (topmost : bool)
    (w : RWorld Surface E) :
  (getCellAtCoords R coords topmost w = None <->
   exists code, getCell R (wt (priv w)) coords topmost w = CellCode code
                /\ code < 0)
  /\ (forall td,
         getCellAtCoords R coords topmost w = Some td ->
         td = getCell R (wt (priv w)) coords topmost w
         /\ forall code, td = CellCode code -> 0 <= code).
Proof.
  unfold getCellAtCoords, isExitCode.
  destruct (getCell R (wt (priv w)) coords topmost w) as [td | code].
  - split.
    + split; [discriminate | intros (code & H & _); discriminate].
    + intros td' H. inversion H. split; [reflexivity | discriminate].
  - destruct (code <? 0) eqn:Hcode.
    + apply Z.ltb_lt in Hcode. split.
      * split; [intros _; exists code; split; [reflexivity | exact Hcode]
               | reflexivity].
      * discriminate.
    + apply Z.ltb_ge in Hcode. split.
      * split; [discriminate | ].
        intros (code' & H & Hneg). inversion H. lia.
      * intros td' H. inversion H. split; [reflexivity | ].
        intros code' H'. inversion H'. lia.
Qed.

End Facts.

End RenderingFacts.

Module HeaderFacts.

Import TableView TableViewHeaders.

Section Facts.
Variables Node Surface Markup Ext : Type.
Variable D : Dom Node Surface Markup Ext.

Lemma appendRowHeader_on_empty (fuel : nat) (row : Z) (TH : Node)
    (w : World Surface Ext) :
  firstChild D TH w = None ->
  appendRowHeader D fuel row TH w =
  (createHeader D "rowHeader" row (getRowHeader D) TH ;;
   runHooks_afterGetRowHeader D row TH) w.
Proof.
  intro Hnone. destruct fuel; cbn [appendRowHeader];
    rewrite bind_gets, Hnone; reflexivity.
Qed.

Lemma appendColHeader_on_empty (fuel : nat) (col : Z) (TH : Node)
    (w : World Surface Ext) :
  firstChild D TH w = None ->
  appendColHeader D fuel col TH w =
  (createHeader D "colHeader" col (getColHeader D) TH ;;
   runHooks_afterGetColHeader D col TH) w.
Proof.
  intro Hnone. destruct fuel; cbn [appendColHeader];
    rewrite bind_gets, Hnone; reflexivity.
Qed.

(** A header cell that holds something else than a header (its first child
    has no class [relative]) is emptied and given a new header, [empty]
    leaving the cell without a child.  [appendRowHeader] then runs
    [afterGetRowHeader] once; [appendColHeader] runs [afterGetColHeader]
    twice, once in the call to itself and once more after it. *)
Theorem header_over_foreign_content (fuel : nat) (index : Z) (TH container : Node)
    (w : World Surface Ext) :
  firstChild D TH w = Some container ->
  hasClass D container "relative" w = false ->
  (forall w1 w2, empty D TH w1 = Returned tt w2 -> firstChild D TH w2 = None) ->
  appendRowHeader D (S fuel) index TH w =
  (empty D TH ;;
   createHeader D "rowHeader" index (getRowHeader D) TH ;;
   runHooks_afterGetRowHeader D index TH) w
  /\ appendColHeader D (S fuel) index TH w =
     (empty D TH ;;
      createHeader D "colHeader" index (getColHeader D) TH ;;
      runHooks_afterGetColHeader D index TH ;;
      runHooks_afterGetColHeader D index TH) w.
Proof.
  intros Hfirst Hforeign Hempty. split.
  - cbn [appendRowHeader]. rewrite bind_gets, Hfirst.
    rewrite bind_gets, Hforeign. cbn [negb].
    apply bind_after. intros [] w' Hw'.
    apply appendRowHeader_on_empty. apply (Hempty w w'). exact Hw'.
  - cbn [appendColHeader]. rewrite bind_gets, Hfirst.
    rewrite bind_assoc, bind_gets, Hforeign. rewrite bind_assoc.
    apply bind_after. intros [] w' Hw'.
    unfold bind at 1.
    rewrite appendColHeader_on_empty by (apply (Hempty w w'); exact Hw').
    rewrite <- (bind_assoc (createHeader D "colHeader" index (getColHeader D) TH)
                  (fun _ => runHooks_afterGetColHeader D index TH)
                  (fun _ => runHooks_afterGetColHeader D index TH) w').
    reflexivity.
Qed.

(** A header cell whose [div.relative] holds no element of the header
    class: [querySelector] answers [null], [updateCellHeader] throws on
    reading [element.parentNode], and neither function runs its hook. *)
Theorem header_without_span (fuel : nat) (index : Z) (TH container : Node)
    (w : World Surface Ext) :
  firstChild D TH w = Some container ->
  hasClass D container "relative" w = true ->
  (querySelector D container ".rowHeader" w = None ->
   appendRowHeader D fuel index TH w = Thrown w)
  /\ (querySelector D container ".colHeader" w = None ->
      appendColHeader D fuel index TH w = Thrown w).
Proof.
  intros Hfirst Hrelative. split; intro Hnone.
  - destruct fuel; cbn [appendRowHeader];
      rewrite bind_gets, Hfirst; rewrite bind_gets, Hrelative; cbn [negb];
      rewrite bind_gets, Hnone; reflexivity.
  - destruct fuel; cbn [appendColHeader];
      rewrite bind_gets, Hfirst;
      rewrite bind_assoc, bind_gets, Hrelative;
      rewrite bind_assoc, bind_gets, Hnone; reflexivity.
Qed.

(** [updateCellHeader] translates the index only for an element that is in
    the document.  An element without a parent (the new [span] of a header)
    gets the content for its index when the index is above -1.  A column
    header in the document whose column is not rendered in its overlay
    (the main surface when it has none) gets a no-break space and the class
    [cornerHeader], and the header function is not called. *)
Theorem updateCellHeader_translation (element : Node) (index : Z)
    (content : Z -> M (W := World Surface Ext) Markup) (w : World Surface Ext) :
  (parentNode D element w = None ->
   -1 < index ->
   updateCellHeader D (Some element) index content w =
   (markup <- content index ;; fastInnerHTML D element markup) w)
  /\ (forall parent,
         parentNode D element w = Some parent ->
         hasClass D element "colHeader" w = true ->
         columnSourceToRendered D
           match getParentOverlay D (Some element) w with
           | Some overlay => overlay
           | None => wt (priv w)
           end index w <= -1 ->
         updateCellHeader D (Some element) index content w =
         (fastInnerText D element nbsp ;; addClass D element "cornerHeader") w).
Proof.
  split.
  - intros Hdetached Hindex. unfold updateCellHeader.
    rewrite bind_gets, bind_gets, Hdetached.
    apply Z.ltb_lt in Hindex. rewrite Hindex. reflexivity.
  - intros parent Hattached Hcol Hgone. unfold updateCellHeader.
    rewrite bind_gets, bind_gets, Hattached, Hcol.
    apply Z.ltb_ge in Hgone. rewrite Hgone. reflexivity.
Qed.

End Facts.

End HeaderFacts.

Module RegistryFacts.

Import EditorManagerRegistry.

Section Facts.
Variables Hot Settings Selection EventManager Editor Ext : Type.
Variable Hot_eq_dec : forall a b : Hot, {a = b} + {a <> b}.
Variable C : Collaborators Hot Settings Selection EventManager Editor Ext.

Lemma get_set_same (key : Hot) (value : nat) (entries : list (Hot * nat)) :
  get Hot_eq_dec key ((key, value) :: entries) = Some value.
Proof. cbn. destruct (Hot_eq_dec key key); congruence. Qed.

Lemma get_set_other (key key' : Hot) (value : nat) (entries : list (Hot * nat)) :
  key' <> key ->
  get Hot_eq_dec key' ((key, value) :: entries) = get Hot_eq_dec key' entries.
Proof. intro H. cbn. destruct (Hot_eq_dec key' key); congruence. Qed.

(** Once [getInstance] has answered for a grid instance, it answers the
    same manager for it again, whatever settings and selection it is given
    then, without building anything and without changing anything. *)
Theorem getInstance_again
    (hotInstance : Hot) (hotSettings hotSettings' : Settings)
    (selection selection' : Selection) (manager : nat)
    (w w1 : World Hot Settings Selection EventManager Editor Ext) :
  getInstance Hot_eq_dec C hotInstance hotSettings selection w
  = Returned manager w1 ->
  getInstance Hot_eq_dec C hotInstance hotSettings' selection' w1
  = Returned manager w1.
Proof.
  intro Hfirst.
  assert (Hknown : get Hot_eq_dec hotInstance (instances w1) = Some manager).
  { unfold getInstance in Hfirst. rewrite bind_gets in Hfirst.
    destruct (get Hot_eq_dec hotInstance (instances w)) as [m | ] eqn:Hget.
    - unfold ret in Hfirst. inversion Hfirst; subst. exact Hget.
    - apply bind_returned in Hfirst. destruct Hfirst as (m & w2 & _ & Hfirst).
      apply bind_returned in Hfirst. destruct Hfirst as (u & w3 & Hset & Hfirst).
      unfold ret in Hfirst. inversion Hfirst; subst.
      unfold set, modify in Hset. inversion Hset. cbn.
      apply get_set_same. }
  unfold getInstance. rewrite bind_gets, Hknown. reflexivity.
Qed.

(** For a grid instance not seen before, when the calls of the constructor
    leave the manager objects and the map alone, [getInstance] answers a
    new manager that holds the instance, the settings and the selection it
    was given, is neither destroyed nor locked and has no active editor; the
    managers of the other instances stay as they are. *)
Theorem getInstance_first_time
    (hotInstance : Hot) (hotSettings : Settings) (selection : Selection)
    (manager : nat) (w w1 : World Hot Settings Selection EventManager Editor Ext) :
  CallsKeepRegistry C ->
  get Hot_eq_dec hotInstance (instances w) = None ->
  getInstance Hot_eq_dec C hotInstance hotSettings selection w
  = Returned manager w1 ->
  manager = List.length (managers w)
  /\ (exists events,
         nth_error (managers w1) manager
         = Some {| instance := hotInstance; priv := hotSettings;
                   selection := selection; eventManager := events;
                   destroyed := false; lock := false; activeEditor := None |})
  /\ (forall other,
         other <> hotInstance ->
         get Hot_eq_dec other (instances w1) = get Hot_eq_dec other (instances w))
  /\ (forall m, (m < List.length (managers w))%nat ->
                nth_error (managers w1) m = nth_error (managers w) m).
Proof.
  intros (Hnew & Hhook & Hkey & Hcomp & Hdbl) Hunknown Hrun.
  unfold getInstance in Hrun. rewrite bind_gets, Hunknown in Hrun.
  apply bind_returned in Hrun. destruct Hrun as (m & w7 & Hbuild & Hrun).
  apply bind_returned in Hrun. destruct Hrun as (u & w8 & Hset & Hrun).
  unfold ret in Hrun. inversion Hrun; subst m w8. clear Hrun.
  unfold set, modify in Hset. inversion Hset as [Hw1]. clear Hset.
  unfold construct in Hbuild.
  apply bind_returned in Hbuild. destruct Hbuild as (events & w2 & H1 & Hbuild).
  apply bind_returned in Hbuild. destruct Hbuild as (this & w3 & Halloc & Hbuild).
  apply bind_returned in Hbuild. destruct Hbuild as (u1 & w4 & H2 & Hbuild).
  apply bind_returned in Hbuild. destruct Hbuild as (u2 & w5 & H3 & Hbuild).
  apply bind_returned in Hbuild. destruct Hbuild as (u3 & w6 & H4 & Hbuild).
  apply bind_returned in Hbuild. destruct Hbuild as (u4 & w9 & H5 & Hbuild).
  unfold ret in Hbuild. inversion Hbuild; subst this w9. clear Hbuild.
  apply Hnew in H1. apply Hhook in H2. apply Hkey in H3.
  apply Hcomp in H4. apply Hdbl in H5.
  destruct H1 as [M1 I1], H2 as [M2 I2], H3 as [M3 I3], H4 as [M4 I4],
    H5 as [M5 I5].
  unfold allocate in Halloc. inversion Halloc as [[Hm Hw3]]. clear Halloc.
  assert (HM : managers w7 = managers w ++
                 [{| instance := hotInstance; priv := hotSettings;
                     selection := selection; eventManager := events;
                     destroyed := false; lock := false; activeEditor := None |}]).
  { rewrite M5, M4, M3, M2, <- Hw3. cbn. rewrite M1. reflexivity. }
  assert (HI : instances w7 = instances w).
  { rewrite I5, I4, I3, I2, <- Hw3. cbn. exact I1. }
  split; [ | split; [ | split]].
  - rewrite M1. reflexivity.
  - exists events. cbn [managers]. rewrite HM, M1.
    rewrite nth_error_app2 by apply Nat.le_refl.
    rewrite Nat.sub_diag. reflexivity.
  - intros other Hother. cbn [instances].
    rewrite get_set_other by exact Hother.
    rewrite HI. reflexivity.
  - intros k Hk. cbn [managers]. rewrite HM. apply nth_error_app1. exact Hk.
Qed.

End Facts.

End RegistryFacts.

(** ** The further properties on the recorded page and grid *)

Module TableViewRuns.

Import JsNumber TableView TableViewRest ViewRecorder RestRecorder.

(** The calls of the recorder write to the log only. *)
Lemma record_keeps_priv (c : Call) : keepsPriv (record c).
Proof. intros w a w' H. unfold record, modify in H. inversion H. reflexivity. Qed.

Lemma listeners_keep_priv (sc : Scenario) (name : HookName) :
  keepsPriv (listeners sc name).
Proof.
  intros w a w' H. unfold listeners, bind, record, stopImmediate, modify, when,
    ret in H.
  destruct (sc_stops sc name), (sc_throws sc name); inversion H; reflexivity.
Qed.

Lemma recorder_keeps_priv (sc : Scenario) : HooksKeepPriv (recorder sc).
Proof.
  repeat split.
  - intros name event coords TD. apply listeners_keep_priv.
  - intros name event coords TD controller w a w' H. cbn in H.
    apply bind_returned in H. destruct H as (u & w1 & H1 & H).
    apply listeners_keep_priv in H1. unfold ret in H. inversion H; subst.
    exact H1.
  - intros event coords controller. apply record_keeps_priv.
  - apply record_keeps_priv.
Qed.

(** A [mousedown] on the cell 5, inside the root element 2. *)
Lemma click_inside_the_grid :
  documentMouseDown Nat.eq_dec (recorder idle) (eventOn 5) initial
  = Returned tt initial.
Proof.
  apply (@TableViewMore.documentMouseDown_inside_grid nat nat (Z * Z) nat Log
           Nat.eq_dec (recorder idle) (eventOn 5) initial 2%nat).
  - reflexivity.
  - discriminate.
  - discriminate.
  - exists [5; 4; 3]%nat, [1; 0]%nat. split; [reflexivity | ].
    cbn. intros [H | [H | [H | []]]]; discriminate.
Defined.

(** A [mousedown] on the button 6 while a cell holds the mouse, and one on
    the scrollbar of the holder. *)
Lemma click_while_held_and_on_scrollbar :
  documentMouseDown Nat.eq_dec (recorder idle) (eventOn 6) holding
  = Returned tt holding
  /\ documentMouseDown Nat.eq_dec (recorder idle) eventOnScrollbar initial
     = Returned tt initial.
Proof.
  split.
  - apply (@TableViewMore.documentMouseDown_held_or_scrollbar nat nat (Z * Z)
             nat Log Nat.eq_dec (recorder idle) (eventOn 6) holding).
    left. reflexivity.
  - apply (@TableViewMore.documentMouseDown_held_or_scrollbar nat nat (Z * Z)
             nat Log Nat.eq_dec (recorder idle) eventOnScrollbar initial).
    right. right. split; [reflexivity | ]. left. discriminate.
Defined.

(** A [mousedown] on the detached node 9, from a web component and not. *)
Lemma click_on_detached_node :
  documentMouseDown Nat.eq_dec (recorder idle) (eventOnDetached true) initial
  = outsideClick (recorder idle) 9%nat initial
  /\ documentMouseDown Nat.eq_dec (recorder idle) (eventOnDetached false) initial
     = Returned tt initial.
Proof.
  split.
  - apply (@TableViewMore.documentMouseDown_detached_target nat nat (Z * Z)
             nat Log Nat.eq_dec (recorder idle) (eventOnDetached true) initial
             2%nat); try reflexivity; try discriminate;
      cbn; intros [H | []]; discriminate.
  - apply (@TableViewMore.documentMouseDown_detached_target nat nat (Z * Z)
             nat Log Nat.eq_dec (recorder idle) (eventOnDetached false) initial
             2%nat); try reflexivity; try discriminate;
      cbn; intros [H | []]; discriminate.
Defined.

(** The overscan 5 on the rows 10 to 20 of 100. *)
Lemma numeric_window_of_rows_10_to_20 :
  exists s' e',
    viewportRowCalculatorOverride (recorder overscan5) rows10to20 initial =
    runHooksCalc (recorder overscan5) afterViewportRowCalculatorOverride
      (Reference.setRows rows10to20 (Fin s', Fin e')) initial
    /\ 0 <= s' <= 10 /\ 20 <= e' <= 100 - 1.
Proof.
  apply (proj1 (@TableViewMore.numeric_overscan_window nat nat (Z * Z) nat Log
                  (recorder overscan5) rows10to20 initial 5 10 20 100
                  ltac:(lia) ltac:(lia) ltac:(lia)));
    reflexivity.
Defined.

(** ['auto'] on the rows 10 to 20 of 100. *)
Lemma auto_window_of_rows_10_to_20 :
  exists offset,
    0 <= offset <= 12
    /\ viewportRowCalculatorOverride (recorder autoOverscan) rows10to20 initial =
       runHooksCalc (recorder autoOverscan) afterViewportRowCalculatorOverride
         (Reference.setRows rows10to20
            (Fin (Z.max (10 - offset) 0), Fin (Z.min (20 + offset) (100 - 1))))
         initial.
Proof.
  apply (@TableViewMore.auto_overscan_rows_window nat nat (Z * Z) nat Log
           (recorder autoOverscan) rows10to20 initial 10 20 100);
    try reflexivity; lia.
Defined.

(** ['auto'] on a grid without rows. *)
Lemma auto_window_of_an_empty_grid :
  viewportRowCalculatorOverride (recorder emptyGrid) rows0to0 initial =
  runHooksCalc (recorder emptyGrid) afterViewportRowCalculatorOverride
    (Reference.setRows rows0to0 (NaN, NaN)) initial.
Proof.
  apply (@TableViewMore.auto_overscan_rows_empty_grid nat nat (Z * Z) nat Log
           (recorder emptyGrid) rows0to0 initial 0 0);
    try reflexivity; lia.
Defined.

(** A [mousemove] before any [mousedown]. *)
Lemma move_without_mouse_down :
  rootMouseMove (recorder idle) (eventOn 5) initial = Returned tt initial.
Proof.
  apply (proj2 (@TableViewMore.rootMouseMove_inert nat nat (Z * Z) nat Log
                  (recorder idle) (eventOn 5) initial)).
  left. reflexivity.
Defined.

(** A mouse-down on the cell 5 that a listener cancels, then the document
    [mousedown] for the same click. *)
Lemma cancelled_mouse_down_then_document_mousedown :
  exists w',
    onCellMouseDown (recorder cancelling) (eventOn 5) (2, 2) 5%nat 1%nat initial
    = Returned tt w'
    /\ mouseDownTruthy w' = true
    /\ documentMouseDown Nat.eq_dec (recorder cancelling) (eventOn 5) w'
       = Returned tt w'.
Proof.
  eexists. split; [reflexivity | ].
  apply (@TableViewMore.cell_mouse_down_is_not_an_outside_click nat nat (Z * Z)
           nat Log Nat.eq_dec (recorder cancelling) (eventOn 5) (eventOn 5)
           (2, 2) 5%nat 1%nat initial).
  - apply recorder_keeps_priv.
  - reflexivity.
Defined.

Lemma facade_unlisten_keeps_priv (rightClick : bool) :
  keepsPriv (unlisten (facade rightClick)).
Proof. intros w a w' H. cbn in H. unfold ret in H. inversion H. reflexivity. Qed.

(** The mouse is let go over the button 6 while a selection is in progress:
    by a left [mouseup], and by a right click's [contextmenu]. *)
Lemma mouse_up_and_context_menu :
  (exists w',
      documentMouseUp (recorder selecting) (facade false) (eventOn 6) holding
      = Returned tt w'
      /\ mouseDownTruthy w' = false)
  /\ (exists w',
      documentContextMenu (recorder selecting) (facade true) (eventOn 6) holding
      = Returned tt w'
      /\ mouseDownTruthy w' = false).
Proof.
  split.
  - eexists. split; [reflexivity | ].
    apply (proj1 (@TableViewMore.release_of_the_mouse nat nat (Z * Z) nat Log
                    (recorder selecting) (facade false) (eventOn 6) holding _
                    (proj2 (proj2 (proj2 (@recorder_keeps_priv selecting))))
                    (@facade_unlisten_keeps_priv false))).
    reflexivity.
  - eexists. split; [reflexivity | ].
    apply (proj1 (proj2 (proj2
             (@TableViewMore.release_of_the_mouse nat nat (Z * Z) nat Log
                (recorder selecting) (facade true) (eventOn 6) holding _
                (proj2 (proj2 (proj2 (@recorder_keeps_priv selecting))))
                (@facade_unlisten_keeps_priv true))))).
    + reflexivity.
    + reflexivity.
Defined.

(** A right click on the spreader 4. *)
Lemma right_click_on_spreader :
  spreaderContextMenu Nat.eq_dec (facade true) (eventOn 4) initial
  = stopPropagation (facade true) (eventOn 4) initial
  /\ spreaderMouseDown (eventOn 4) initial = Thrown initial.
Proof.
  apply (@TableViewMore.spreader_right_click nat nat Log Nat.eq_dec
           (facade true) (eventOn 4) initial); reflexivity.
Defined.

End TableViewRuns.

Module EditorManagerRuns.

Import EditorManager ManagerRecorder ManagerScenarios.

(** The key code 229 of an unfinished IME character. *)
Lemma key_229_is_dropped :
  onKeyDown (recorder prepared) 1 (keyPress 229 false) (withEditor (Some 0%nat))
  = Returned tt (afterHook 229 (Some 0%nat))
  /\ onKeyDown (recorder deaf) 1 (keyPress 40 false) (withEditor (Some 0%nat))
     = Returned tt (withEditor (Some 0%nat))
  /\ onKeyDown (recorder unselected) 1 (keyPress 40 false) (withEditor (Some 0%nat))
     = Returned tt (afterKeyCode 40 (Some 0%nat)).
Proof.
  split; [ | split].
  - apply (proj1 (proj2 (@EditorManagerMore.onKeyDown_dropped nat unit Z (Z * Z)
                           string (Z * Z) nat Log (recorder prepared) 1
                           (keyPress 229 false) (withEditor (Some 0%nat))
                           (afterHook 229 (Some 0%nat))
                           (afterKeyCode 229 (Some 0%nat)))));
      [reflexivity | reflexivity | right; left; reflexivity].
  - apply (proj1 (@EditorManagerMore.onKeyDown_dropped nat unit Z (Z * Z)
                    string (Z * Z) nat Log (recorder deaf) 1
                    (keyPress 40 false) (withEditor (Some 0%nat))
                    (afterHook 40 (Some 0%nat))
                    (afterKeyCode 40 (Some 0%nat)))).
    reflexivity.
  - apply (proj2 (proj2 (@EditorManagerMore.onKeyDown_dropped nat unit Z (Z * Z)
                           string (Z * Z) nat Log (recorder unselected) 1
                           (keyPress 40 false) (withEditor (Some 0%nat))
                           (afterHook 40 (Some 0%nat))
                           (afterKeyCode 40 (Some 0%nat)))));
      try reflexivity. discriminate.
Defined.

(** The key X while the editor is open. *)
Lemma key_x_in_the_open_editor :
  onKeyDown (recorder editing) 1 (keyPress 88 false) (withEditor (Some 0%nat))
  = Returned tt (afterKeyCode 88 (Some 0%nat)).
Proof.
  apply (@EditorManagerMore.typing_in_the_open_editor nat unit Z (Z * Z) string
           (Z * Z) nat Log (recorder editing) 1 (keyPress 88 false)
           (withEditor (Some 0%nat)) (afterHook 88 (Some 0%nat))
           (afterKeyCode 88 (Some 0%nat)) 0%nat);
    try reflexivity. discriminate.
Defined.

(** Ctrl + A with the editor closed. *)
Lemma ctrl_a_selects_all :
  onKeyDown (recorder prepared) 1 (ctrlPress 65) (withEditor (Some 0%nat))
  = (selectAll (recorder prepared) ;;
     preventDefault (recorder prepared) (ctrlPress 65) ;;
     stopPropagation (recorder prepared) (ctrlPress 65))
      (afterKeyCode 65 (Some 0%nat)).
Proof.
  apply (@EditorManagerMore.select_all_key nat unit Z (Z * Z) string (Z * Z)
           nat Log (recorder prepared) 1 (ctrlPress 65)
           (withEditor (Some 0%nat)) (afterHook 65 (Some 0%nat))
           (afterKeyCode 65 (Some 0%nat)));
    reflexivity.
Defined.


(** Escape with the editor closed, and with the editor open. *)
Lemma escape_closed_and_open :
  onKeyDown (recorder prepared) 1 (keyPress 27 false) (withEditor (Some 0%nat))
  = preventDefault (recorder prepared) (keyPress 27 false)
      (afterKeyCode 27 (Some 0%nat))
  /\ exists w3,
       finishEditing (recorder editing) 0%nat (Some true) (Some false) None
         (afterKeyCode 27 (Some 0%nat)) = Returned tt w3
       /\ onKeyDown (recorder editing) 1 (keyPress 27 false)
            (withEditor (Some 0%nat))
          = (focus (recorder editing) 0%nat ;;
             preventDefault (recorder editing) (keyPress 27 false)) w3.
Proof.
  split.
  - apply (proj1 (@EditorManagerMore.escape_key nat unit Z (Z * Z) string
                    (Z * Z) nat Log (recorder prepared) 1 (keyPress 27 false)
                    (withEditor (Some 0%nat)) (afterHook 27 (Some 0%nat))
                    (afterKeyCode 27 (Some 0%nat))
                    eq_refl eq_refl eq_refl eq_refl eq_refl eq_refl eq_refl
                    eq_refl) eq_refl).
  - eexists. split; [reflexivity | ].
    apply (proj2 (@EditorManagerMore.escape_key nat unit Z (Z * Z) string
                    (Z * Z) nat Log (recorder editing) 1 (keyPress 27 false)
                    (withEditor (Some 0%nat)) (afterHook 27 (Some 0%nat))
                    (afterKeyCode 27 (Some 0%nat))
                    eq_refl eq_refl eq_refl eq_refl eq_refl eq_refl eq_refl
                    eq_refl) 0%nat _ eq_refl eq_refl eq_refl).
Defined.

(** Home, and Shift + End, from the cell (2, 2) of the 10 x 5 grid. *)
Lemma home_and_shift_end :
  onKeyDown (recorder prepared) 1 (keyPress 36 false) (withEditor (Some 0%nat))
  = (setRangeStart (recorder prepared) {| row := 2; col := 0 |} ;;
     preventDefault (recorder prepared) (keyPress 36 false) ;;
     stopPropagation (recorder prepared) (keyPress 36 false))
      (afterKeyCode 36 (Some 0%nat))
  /\ onKeyDown (recorder prepared) 1 (keyPress 35 true) (withEditor (Some 0%nat))
     = (setRangeEnd (recorder prepared) {| row := 2; col := 4 |} ;;
        preventDefault (recorder prepared) (keyPress 35 true) ;;
        stopPropagation (recorder prepared) (keyPress 35 true))
         (afterKeyCode 35 (Some 0%nat)).
Proof.
  split.
  - apply (proj1 (@EditorManagerMore.home_and_end_keys nat unit Z (Z * Z) string
                    (Z * Z) nat Log (recorder prepared) 1 (keyPress 36 false)
                    (withEditor (Some 0%nat)) (afterHook 36 (Some 0%nat))
                    (afterKeyCode 36 (Some 0%nat)) {| row := 2; col := 2 |}
                    eq_refl eq_refl eq_refl eq_refl eq_refl eq_refl eq_refl
                    eq_refl) eq_refl).
  - apply (proj2 (@EditorManagerMore.home_and_end_keys nat unit Z (Z * Z) string
                    (Z * Z) nat Log (recorder prepared) 1 (keyPress 35 true)
                    (withEditor (Some 0%nat)) (afterHook 35 (Some 0%nat))
                    (afterKeyCode 35 (Some 0%nat)) {| row := 2; col := 2 |}
                    eq_refl eq_refl eq_refl eq_refl eq_refl eq_refl eq_refl
                    eq_refl) eq_refl).
Defined.

(** Backspace on the selected cell. *)
Lemma backspace_on_a_cell :
  onKeyDown (recorder prepared) 1 (keyPress 8 false) (withEditor (Some 0%nat))
  = (emptySelectedCells (recorder prepared) ;;
     prepareEditor (recorder prepared) 1 ;;
     preventDefault (recorder prepared) (keyPress 8 false))
      (afterKeyCode 8 (Some 0%nat)).
Proof.
  apply (@EditorManagerMore.backspace_and_delete_keys nat unit Z (Z * Z) string
           (Z * Z) nat Log (recorder prepared) 1 (keyPress 8 false)
           (withEditor (Some 0%nat)) (afterHook 8 (Some 0%nat))
           (afterKeyCode 8 (Some 0%nat)));
    try reflexivity. left. reflexivity.
Defined.

(** Shift + Tab, and Page Down with 10 visible rows. *)
Lemma shift_tab_and_page_down :
  onKeyDown (recorder prepared) 1 (keyPress 9 true) (withEditor (Some 0%nat))
  = (transformStart (recorder prepared) 0 (-1) None ;;
     preventDefault (recorder prepared) (keyPress 9 true) ;;
     stopPropagation (recorder prepared) (keyPress 9 true))
      (afterKeyCode 9 (Some 0%nat))
  /\ onKeyDown (recorder prepared) 1 (keyPress 34 false) (withEditor (Some 0%nat))
     = (transformStart (recorder prepared) 10 0 None ;;
        preventDefault (recorder prepared) (keyPress 34 false) ;;
        stopPropagation (recorder prepared) (keyPress 34 false))
         (afterKeyCode 34 (Some 0%nat)).
Proof.
  split.
  - apply (proj1 (@EditorManagerMore.tab_and_page_keys nat unit Z (Z * Z) string
                    (Z * Z) nat Log (recorder prepared) 1 (keyPress 9 true)
                    (withEditor (Some 0%nat)) (afterHook 9 (Some 0%nat))
                    (afterKeyCode 9 (Some 0%nat))
                    eq_refl eq_refl eq_refl eq_refl eq_refl eq_refl eq_refl)
             {| row := 0; col := 1 |} eq_refl eq_refl).
  - apply (proj2 (proj2 (@EditorManagerMore.tab_and_page_keys nat unit Z (Z * Z)
                           string (Z * Z) nat Log (recorder prepared) 1
                           (keyPress 34 false)
                           (withEditor (Some 0%nat)) (afterHook 34 (Some 0%nat))
                           (afterKeyCode 34 (Some 0%nat))
                           eq_refl eq_refl eq_refl eq_refl eq_refl eq_refl
                           eq_refl)) eq_refl).
Defined.

(** Shift + Enter opening the editor of a read-only cell. *)
Lemma shift_enter_on_a_read_only_cell :
  openEditor (recorder readOnlyCell) None (Some (FromKey (keyPress 13 true)))
    (withEditor (Some 0%nat))
  = transformStart (recorder readOnlyCell) 1 0 (Some true)
      (withEditor (Some 0%nat)).
Proof.
  apply (proj1 (proj2 (@EditorManagerMore.openEditor_read_only nat unit Z (Z * Z)
                         string (Z * Z) nat Log (recorder readOnlyCell) None
                         (Some (FromKey (keyPress 13 true)))
                         (withEditor (Some 0%nat)))
                 0%nat eq_refl eq_refl)
           (keyPress 13 true) {| row := 1; col := 0 |} eq_refl eq_refl eq_refl).
Defined.

(** [prepareEditor] on the locked manager, and while the editor waits. *)
Lemma prepare_while_locked_or_waiting :
  prepareEditor (recorder prepared) 1 lockedManager = Returned tt lockedManager
  /\ exists callback,
       prepareEditor (recorder validating) 1 (withEditor (Some 0%nat))
       = finishEditing (recorder validating) 0%nat (Some false) (Some false)
           (Some callback) (withEditor (Some 0%nat))
       /\ (forall w', callback false w' = Returned tt w')
       /\ (forall fuel', 1%nat = S fuel' ->
                         callback true = prepareEditor (recorder validating) fuel').
Proof.
  split.
  - apply (proj1 (@EditorManagerMore.prepareEditor_suspended nat unit Z (Z * Z)
                    string (Z * Z) nat Log (recorder prepared) 1 lockedManager)).
    reflexivity.
  - apply (proj2 (@EditorManagerMore.prepareEditor_suspended nat unit Z (Z * Z)
                    string (Z * Z) nat Log (recorder validating) 1
                    (withEditor (Some 0%nat))) 0%nat);
      reflexivity.
Defined.


End EditorManagerRuns.

Module RenderingRuns.

Import JsNumber TableView TableViewRest RestRecorder.

(** A full render that was asked for, and the fast one that follows it. *)
Lemma full_render_then_fast_render :
  exists w1,
    render (renderer false) (toRender true) = Returned tt w1
    /\ outside (ext w1) = [Draw 0 false]
    /\ forceFullRender (ext w1) = false
    /\ renderCall (ext w1) = false
    /\ render (renderer false) w1 =
       (draw (renderer false) (wt (priv w1)) true ;;
        set_forceFullRender false ;; set_renderCall false) w1.
Proof.
  eexists. split; [cbv; reflexivity | ]. split; [reflexivity | ].
  apply (@RenderingFacts.render_uses_up_the_request nat nat (Z * Z)
           (list RenderCall) (renderer false) (toRender true)).
  cbv. reflexivity.
Defined.

(** The room beside an offset of 1000 and under an offset of 100 in the
    workspace of 800 by 600. *)
Lemma room_in_the_workspace :
  maximumVisibleElementWidth (renderer false) (Fin 1000) (toRender false) = Fin 0
  /\ maximumVisibleElementHeight (renderer false) (Fin 100) (toRender false)
     = Fin 500.
Proof.
  split.
  - pose proof (@RenderingFacts.maximumVisibleElement_not_negative nat nat (Z * Z)
                  (list RenderCall) (renderer false) (Fin 1000) (toRender false))
      as H.
    cbv zeta in H. destruct H as (_ & _ & H & _).
    apply (H 800 1000); reflexivity.
  - pose proof (@RenderingFacts.maximumVisibleElement_not_negative nat nat (Z * Z)
                  (list RenderCall) (renderer false) (Fin 100) (toRender false))
      as H.
    cbv zeta in H. destruct H as (_ & _ & _ & H).
    apply (H 600 100); reflexivity.
Defined.

(** The cell (20, 0) is outside the 10 x 5 grid; the cell (1, 1) is in it. *)
Lemma cell_outside_and_inside :
  getCellAtCoords (renderer false) (20, 0) false (toRender false) = None
  /\ CellElement 5%nat
     = getCell (renderer false) (wt (priv (toRender false))) (1, 1) false
         (toRender false).
Proof.
  split.
  - apply (proj1 (@RenderingFacts.getCellAtCoords_hides_exit_codes nat nat (Z * Z)
                    (list RenderCall) (renderer false) (20, 0) false
                    (toRender false))).
    exists (-1). split; [reflexivity | lia].
  - apply (proj2 (@RenderingFacts.getCellAtCoords_hides_exit_codes nat nat (Z * Z)
                    (list RenderCall) (renderer false) (1, 1) false
                    (toRender false))).
    reflexivity.
Defined.

End RenderingRuns.

Module HeaderRuns.

Import TableView TableViewHeaders HeaderRecorder.

(** A node has no first child among the entries of the other nodes. *)
Lemma lookup_without (n : nat) (entries : list (nat * nat)) :
  lookup n (filter (fun e => negb (Nat.eqb (fst e) n)) entries) = None.
Proof.
  induction entries as [| [k v] rest IH]; [reflexivity | ].
  cbn [filter fst]. destruct (Nat.eqb k n) eqn:Hk; cbn [negb]; [exact IH | ].
  cbn [lookup]. rewrite Nat.eqb_sym, Hk. exact IH.
Qed.

Lemma empty_leaves_no_child (TH : nat) (w1 w2 : HWorld) :
  empty dom TH w1 = Returned tt w2 -> firstChild dom TH w2 = None.
Proof.
  intro H. cbn in H. unfold update, modify in H. inversion H. cbn.
  apply lookup_without.
Qed.

(** The header cell 0 of row or column 3, holding the foreign node 1. *)
Lemma header_over_a_foreign_node :
  appendRowHeader dom 1 3 0%nat foreign =
  (empty dom 0%nat ;;
   createHeader dom "rowHeader" 3 (getRowHeader dom) 0%nat ;;
   runHooks_afterGetRowHeader dom 3 0%nat) foreign
  /\ appendColHeader dom 1 3 0%nat foreign =
     (empty dom 0%nat ;;
      createHeader dom "colHeader" 3 (getColHeader dom) 0%nat ;;
      runHooks_afterGetColHeader dom 3 0%nat ;;
      runHooks_afterGetColHeader dom 3 0%nat) foreign.
Proof.
  apply (@HeaderFacts.header_over_foreign_content nat nat string DomState dom
           0%nat 3 0%nat 1%nat foreign).
  - reflexivity.
  - reflexivity.
  - intros w1 w2. apply empty_leaves_no_child.
Defined.

(** The header cell 0 holding an empty [div.relative]. *)
Lemma header_in_a_hollow_cell :
  appendRowHeader dom 1 3 0%nat hollow = Thrown hollow
  /\ appendColHeader dom 1 3 0%nat hollow = Thrown hollow.
Proof.
  split.
  - apply (proj1 (@HeaderFacts.header_without_span nat nat string DomState dom
                    1%nat 3 0%nat 1%nat hollow eq_refl eq_refl)).
    reflexivity.
  - apply (proj2 (@HeaderFacts.header_without_span nat nat string DomState dom
                    1%nat 3 0%nat 1%nat hollow eq_refl eq_refl)).
    reflexivity.
Defined.

(** The new element 7, not in the document, for the index 3; and the
    foreign node 1 given the class [colHeader], in the document, for the
    index -1. *)
Lemma header_of_a_new_and_of_a_hidden_column :
  updateCellHeader dom (Some 7%nat) 3 (getColHeader dom) foreign =
  (markup <- getColHeader dom 3 ;; fastInnerHTML dom 7%nat markup) foreign
  /\ exists w,
       addClass dom 1%nat "colHeader" foreign = Returned tt w
       /\ updateCellHeader dom (Some 1%nat) (-1) (getColHeader dom) w =
          (fastInnerText dom 1%nat nbsp ;; addClass dom 1%nat "cornerHeader") w.
Proof.
  split.
  - apply (proj1 (@HeaderFacts.updateCellHeader_translation nat nat string
                    DomState dom 7%nat 3 (getColHeader dom) foreign)).
    + reflexivity.
    + lia.
  - eexists. split; [cbv; reflexivity | ].
    apply (proj2 (@HeaderFacts.updateCellHeader_translation nat nat string
                    DomState dom 1%nat (-1) (getColHeader dom) _) 0%nat).
    + reflexivity.
    + reflexivity.
    + cbn. lia.
Defined.

End HeaderRuns.

Module RegistryRuns.

Import EditorManagerRegistry RegistryRecorder.

Lemma recordCall_keeps_registry (c : RegistryCall) : keepsRegistry (recordCall c).
Proof.
  intros w a w' H. unfold recordCall, modify in H. inversion H.
  split; reflexivity.
Qed.

Lemma recorder_keeps_registry : CallsKeepRegistry recorder.
Proof.
  repeat split; cbn in H; unfold bind, recordCall, modify, ret in H;
    inversion H; reflexivity.
Qed.

(** The grid instance 7, asked for twice, the second time with other
    settings and another selection. *)
Lemma manager_of_instance_7_twice :
  exists w1,
    getInstance Nat.eq_dec recorder 7%nat "settings"%string 1%nat fresh = Returned 0%nat w1
    /\ getInstance Nat.eq_dec recorder 7%nat "other settings"%string 2%nat w1
       = Returned 0%nat w1.
Proof.
  eexists. split; [cbv; reflexivity | ].
  apply (@RegistryFacts.getInstance_again nat string nat nat nat
           (list RegistryCall) Nat.eq_dec recorder 7%nat "settings"%string
           "other settings"%string 1%nat 2%nat 0%nat fresh).
  cbv. reflexivity.
Defined.

(** The grid instance 7 on the fresh registry. *)
Lemma manager_of_instance_7 :
  exists w1,
    getInstance Nat.eq_dec recorder 7%nat "settings"%string 1%nat fresh
    = Returned 0%nat w1
    /\ 0%nat = List.length (managers fresh)
    /\ (exists events,
           nth_error (managers w1) 0%nat
           = Some {| instance := 7%nat; priv := "settings"%string;
                     selection := 1%nat; eventManager := events;
                     destroyed := false; lock := false; activeEditor := None |})
    /\ (forall other,
           other <> 7%nat ->
           get Nat.eq_dec other (instances w1)
           = get Nat.eq_dec other (instances fresh))
    /\ (forall m, (m < List.length (managers fresh))%nat ->
                  nth_error (managers w1) m = nth_error (managers fresh) m).
Proof.
  eexists. split; [cbv; reflexivity | ].
  apply (@RegistryFacts.getInstance_first_time nat string nat nat nat
           (list RegistryCall) Nat.eq_dec recorder 7%nat "settings"%string 1%nat
           0%nat fresh _ recorder_keeps_registry eq_refl).
  cbv. reflexivity.
Defined.

End RegistryRuns.
